(** * tapereader2: trade ingestion, persistence, behaviour detection, signals

    A shallow embedding of the Python sources
      - [src/core/engine.py]          (TapeReadingEngine)
      - [src/data/database.py]        (DatabaseManager)
      - [src/data/excel_provider.py]  (ExcelDataProvider)
      - [src/behaviors/absorption.py] (AbsorptionDetector)
      - [tape_reading_live.py]        (TapeReadingSystem.generate_signals)
    together with the properties of the specification that concern them.

    Conventions of the embedding.
      - A Python [str] is a [string] of bytes; the sources only handle ASCII
        text (time-of-day strings, symbols, sides), for which the code point
        and the UTF-8 byte views coincide.
      - A Python [int] is a [Z].  A Python [float] holding a price or a
        ratio is the rational [Q] it denotes: arithmetic is exact, rounding
        of binary64 is not modelled.
      - An exception is a value of [exn]; code that can raise returns a
        [Result]; [try/except] is a case analysis on it.
      - Mutable objects are records threaded through the calls; what the
        environment decides (storage faults, the iteration order of a
        [set], the wall clock) is a parameter of the operation. *)

From Stdlib Require Import ZArith QArith Qabs Qminmax List String Ascii Bool Lia.
From Stdlib Require Import Permutation Sorted DecimalString.
From Stdlib Require Uint63.
From stdpp Require Import gmap strings list.
Import ListNotations.

Open Scope string_scope.
Open Scope Z_scope.

(** ** Python runtime values *)

Module Py.

(** *** Exceptions and results *)

Inductive exn : Type :=
| ValueError
| TypeError
| KeyError
| ZeroDivisionError
| IntegrityError          (* sqlite3: a CHECK / NOT NULL constraint failed *)
| OperationalError        (* sqlite3: disk I/O error, database is locked *)
| ProgrammingError.       (* sqlite3: cannot operate on a closed database *)

Inductive Result (A : Type) : Type :=
| Ok (a : A)
| Raise (e : exn).
Arguments Ok {A} a.
Arguments Raise {A} e.

Definition bind {A B} (r : Result A) (k : A -> Result B) : Result B :=
  match r with
  | Ok a => k a
  | Raise e => Raise e
  end.

Definition of_option {A} (e : exn) (o : option A) : Result A :=
  match o with
  | Some a => Ok a
  | None => Raise e
  end.

Notation "x <- e ;; k" := (bind e (fun x => k))
  (at level 100, e at next level, k at level 200, right associativity).

(** [a < b] and [a != b] on floats. *)
Definition Qltb (a b : Q) : bool := negb (Qle_bool b a).
Definition Qneb (a b : Q) : bool := negb (Qeq_bool a b).

(** [min(a, b)]: the first of the two unless the second is smaller. *)
Definition Qmin2 (a b : Q) : Q := if Qltb b a then b else a.

(** [sum(l)] *)
Definition Zsum (l : list Z) : Z := fold_left Z.add l 0.
Definition Qsum (l : list Q) : Q := fold_left Qplus l (0 # 1).

(** [max(l)] and [min(l)]: the first greatest (least) element. *)
Definition Qmax_list (l : list Q) : option Q :=
  match l with
  | [] => None
  | x :: r => Some (fold_left (fun m y => if Qltb m y then y else m) r x)
  end.
Definition Qmin_list (l : list Q) : option Q :=
  match l with
  | [] => None
  | x :: r => Some (fold_left (fun m y => if Qltb y m then y else m) r x)
  end.

(** *** Characters and strings *)

Definition ord (c : ascii) : Z := Z.of_N (N_of_ascii c).

Definition is_digit (c : ascii) : bool := (48 <=? ord c) && (ord c <=? 57).

Definition digit_val (c : ascii) : Z := ord c - 48.

(** [str.isspace] on the ASCII range: TAB..CR, FS..US and the blank. *)
Definition is_space (c : ascii) : bool :=
  let n := ord c in
  ((9 <=? n) && (n <=? 13)) || ((28 <=? n) && (n <=? 32)).

Definition chars (s : string) : list ascii := list_ascii_of_string s.
Definition text (l : list ascii) : string := string_of_list_ascii l.

Fixpoint lstrip (l : list ascii) : list ascii :=
  match l with
  | c :: r => if is_space c then lstrip r else l
  | [] => []
  end.

(** [s.strip()] *)
Definition strip (s : string) : string :=
  text (rev (lstrip (rev (lstrip (chars s))))).

(** [len(s)] *)
Definition len (s : string) : Z := Z.of_nat (String.length s).

(** [c in s] for a one-character [c] *)
Definition contains (c : ascii) (s : string) : bool :=
  existsb (Ascii.eqb c) (chars s).

(** [s.split(c)] for a one-character separator: never empty. *)
Fixpoint split_chars (c : ascii) (l : list ascii) : list (list ascii) :=
  match l with
  | [] => [[]]
  | x :: r =>
      if Ascii.eqb x c then [] :: split_chars c r
      else match split_chars c r with
           | cur :: rest => (x :: cur) :: rest
           | [] => [[x]]
           end
  end.

Definition split (c : ascii) (s : string) : list string :=
  map text (split_chars c (chars s)).

(** [s[:n]] *)
Definition prefix (n : nat) (s : string) : string := text (firstn n (chars s)).

(** [s.ljust(n, c)] *)
Definition ljust (n : nat) (c : ascii) (s : string) : string :=
  s ++ text (repeat c (n - String.length s)).

(** [l[-k:]] for a positive [k] *)
Definition keep_last {A} (k : nat) (l : list A) : list A :=
  skipn (List.length l - k) l.

(** [sep.join(parts)] *)
Fixpoint join (sep : string) (parts : list string) : string :=
  match parts with
  | [] => ""
  | [p] => p
  | p :: rest => p ++ sep ++ join sep rest
  end.

(** *** Numbers *)

(** [str(n)] for an [int]. *)
Definition str_int (z : Z) : string := NilZero.string_of_int (Z.to_int z).

Fixpoint digits_val (acc : Z) (l : list ascii) : Z :=
  match l with
  | [] => acc
  | c :: r => digits_val (10 * acc + digit_val c) r
  end.

(** The digit groups of an [int] literal: digits, with single
    underscores allowed between two digits. *)
Fixpoint int_body (prev_digit : bool) (acc : Z) (l : list ascii) : option Z :=
  match l with
  | [] => if prev_digit then Some acc else None
  | c :: r =>
      if is_digit c then int_body true (10 * acc + digit_val c) r
      else if Ascii.eqb c "_" then
        if prev_digit then
          match r with
          | d :: _ => if is_digit d then int_body false acc r else None
          | [] => None
          end
        else None
      else None
  end.

(** [int(s)]: surrounding blanks, an optional sign, then the digits. *)
Definition int_of_str (s : string) : Result Z :=
  match chars (strip s) with
  | "+"%char :: r => of_option ValueError (int_body false 0 r)
  | "-"%char :: r => of_option ValueError (option_map Z.opp (int_body false 0 r))
  | l => of_option ValueError (int_body false 0 l)
  end.

(** [n] written with at least [w] digits, zero padded (the [%0wd] of C). *)
Definition zpad (w : nat) (n : Z) : string :=
  let s := str_int n in
  text (repeat "0"%char (w - String.length s)) ++ s.

(** The decimal digits of the fractional part [r / d], at most [fuel]. *)
Fixpoint frac_digits (fuel : nat) (r d : Z) : list ascii :=
  match fuel with
  | O => []
  | S f =>
      if r =? 0 then []
      else ascii_of_N (Z.to_N (48 + (10 * r) / d)) :: frac_digits f ((10 * r) mod d) d
  end.

(** [str(x)] for a [float] in positional notation: the integer part, a
    point, and the fractional digits (at least one), as [repr] prints a
    float that is a short decimal with magnitude in [1e-4, 1e16). *)
Definition str_float (q : Q) : string :=
  let n := Z.abs (Qnum q) in
  let d := Z.pos (Qden q) in
  let fr := frac_digits 17 (n mod d) d in
  (if Qnum q <? 0 then "-" else "")
    ++ str_int (n / d) ++ "."
    ++ (match fr with [] => "0" | _ => text fr end).



(** *** [datetime] and [timedelta] *)

(** A naive [datetime.datetime]: the seven fields the object stores. *)
Record datetime := mk_datetime {
  year : Z; month : Z; day : Z;
  hour : Z; minute : Z; second : Z; microsecond : Z }.

Record timedelta := mk_timedelta { days : Z; seconds : Z; microseconds : Z }.

Definition is_leap (y : Z) : bool :=
  (y mod 4 =? 0) && (negb (y mod 100 =? 0) || (y mod 400 =? 0)).

Definition days_in_month (y m : Z) : Z :=
  if m =? 2 then (if is_leap y then 29 else 28)
  else if (m =? 4) || (m =? 6) || (m =? 9) || (m =? 11) then 30
  else 31.

Definition days_before_year (y : Z) : Z :=
  let p := y - 1 in p * 365 + p / 4 - p / 100 + p / 400.

Definition days_before_month (y m : Z) : Z :=
  fold_left (fun acc k => acc + days_in_month y (Z.of_nat k)) (seq 1 (Z.to_nat (m - 1))) 0.

(** [d.toordinal()]: day 1 is 0001-01-01. *)
Definition toordinal (d : datetime) : Z :=
  days_before_year (year d) + days_before_month (year d) (month d) + day d.

Definition in_range (lo x hi : Z) : bool := (lo <=? x) && (x <=? hi).

(** The constructor [datetime(y, m, d, H, M, S, us)] with its range checks. *)
Definition make_datetime (y m d hh mm ss us : Z) : Result datetime :=
  if in_range 1 y 9999 && in_range 1 m 12 && in_range 1 d (days_in_month y m)
     && in_range 0 hh 23 && in_range 0 mm 59 && in_range 0 ss 59 && in_range 0 us 999999
  then Ok (mk_datetime y m d hh mm ss us)
  else Raise ValueError.

(** [datetime.date]: year, month, day. *)
Definition date : Type := (Z * Z * Z)%type.
Definition datetime_date (d : datetime) : date := (year d, month d, day d).

(** [timedelta(days, seconds, microseconds)]: the constructor normalises to
    [0 <= seconds < 86400] and [0 <= microseconds < 1000000]. *)
Definition make_timedelta (d s us : Z) : timedelta :=
  let s1 := s + us / 1000000 in
  mk_timedelta (d + s1 / 86400) (s1 mod 86400) (us mod 1000000).

Definition day_seconds (d : datetime) : Z :=
  second d + minute d * 60 + hour d * 3600.

(** [a - b] on two naive datetimes. *)
Definition datetime_sub (a b : datetime) : timedelta :=
  make_timedelta (toordinal a - toordinal b)
                 (day_seconds a - day_seconds b)
                 (microsecond a - microsecond b).

(** Comparison of two tuples of integers, as Python compares tuples. *)
Fixpoint lex_compare (a b : list Z) : comparison :=
  match a, b with
  | [], [] => Eq
  | [], _ :: _ => Lt
  | _ :: _, [] => Gt
  | x :: a', y :: b' =>
      match x ?= y with
      | Eq => lex_compare a' b'
      | c => c
      end
  end.

Definition datetime_tuple (d : datetime) : list Z :=
  [year d; month d; day d; hour d; minute d; second d; microsecond d].

Definition datetime_compare (a b : datetime) : comparison :=
  lex_compare (datetime_tuple a) (datetime_tuple b).

(** [a < b] *)
Definition datetime_ltb (a b : datetime) : bool :=
  match datetime_compare a b with Lt => true | _ => false end.

(** [str(d)], which is [d.isoformat(sep=' ')]. *)
Definition str_datetime (d : datetime) : string :=
  zpad 4 (year d) ++ "-" ++ zpad 2 (month d) ++ "-" ++ zpad 2 (day d) ++ " "
    ++ zpad 2 (hour d) ++ ":" ++ zpad 2 (minute d) ++ ":" ++ zpad 2 (second d)
    ++ (if microsecond d =? 0 then "" else "." ++ zpad 6 (microsecond d)).

(** *** [datetime.strptime] for the two formats of the sources *)

(** A field of one or two digits, the two-digit form bounded by [hi]. *)
Definition digits_1_2 (lo1 lo2 hi : Z) (l : list ascii) : option Z :=
  match l with
  | [a] =>
      if is_digit a && (lo1 <=? digit_val a) then Some (digit_val a) else None
  | [a; b] =>
      let v := 10 * digit_val a + digit_val b in
      if is_digit a && is_digit b && in_range lo2 v hi then Some v else None
  | _ => None
  end.

(** The text before the first [c], and the text after it. *)
Fixpoint take_until (c : ascii) (l : list ascii) : option (list ascii * list ascii) :=
  match l with
  | [] => None
  | x :: r =>
      if Ascii.eqb x c then Some ([], r)
      else match take_until c r with
           | Some (a, b) => Some (x :: a, b)
           | None => None
           end
  end.

(** [%H:%M:%S] on a whole text: hour, minute and second as the regular
    expressions of [_strptime] accept them ([%S] goes up to 61). *)
Definition parse_hms (l : list ascii) : option (Z * Z * Z) :=
  match take_until ":" l with
  | Some (h, r1) =>
      match take_until ":" r1 with
      | Some (m, s) =>
          match digits_1_2 0 0 23 h, digits_1_2 0 0 59 m, digits_1_2 0 0 61 s with
          | Some hh, Some mm, Some ss => Some (hh, mm, ss)
          | _, _, _ => None
          end
      | None => None
      end
  | None => None
  end.

(** [datetime.strptime(s, "%H:%M:%S")]: the date defaults to 1900-01-01. *)
Definition strptime_hms (s : string) : Result datetime :=
  match parse_hms (chars s) with
  | Some (hh, mm, ss) => make_datetime 1900 1 1 hh mm ss 0
  | None => Raise ValueError
  end.

(** The longest prefix of digits, and the rest. *)
Fixpoint span_digits (l : list ascii) : list ascii * list ascii :=
  match l with
  | c :: r =>
      if is_digit c then let '(a, b) := span_digits r in (c :: a, b) else ([], l)
  | [] => ([], [])
  end.

(** [%d] followed by the blanks that the format's space stands for: the day
    (also written as a blank and one digit), then one blank or more. *)
Definition parse_day (l : list ascii) : option (Z * list ascii) :=
  let '(lead, body) :=
    match l with
    | " "%char :: r => (true, r)
    | _ => (false, l)
    end in
  let '(ds, rest) := span_digits body in
  let v := if lead then
             match ds with
             | [a] => if 1 <=? digit_val a then Some (digit_val a) else None
             | _ => None
             end
           else digits_1_2 1 1 31 ds in
  match v, rest with
  | Some d, c :: r => if is_space c then Some (d, lstrip r) else None
  | _, _ => None
  end.

Definition parse_fraction (l : list ascii) : option Z :=
  let n := List.length l in
  if (1 <=? n)%nat && (n <=? 6)%nat && forallb is_digit l
  then Some (digits_val 0 l * 10 ^ Z.of_nat (6 - n))
  else None.

(** [datetime.strptime(s, "%Y-%m-%d %H:%M:%S.%f")] *)
Definition strptime_full (s : string) : Result datetime :=
  let '(ys, r0) := span_digits (chars s) in
  match List.length ys, r0 with
  | 4%nat, "-"%char :: r1 =>
      match take_until "-" r1 with
      | Some (ms, r2) =>
          match digits_1_2 1 1 12 ms, parse_day r2 with
          | Some m, Some (d, r3) =>
              match take_until "." r3 with
              | Some (hms, fs) =>
                  match parse_hms hms, parse_fraction fs with
                  | Some (hh, mm, ss), Some us =>
                      make_datetime (digits_val 0 ys) m d hh mm ss us
                  | _, _ => Raise ValueError
                  end
              | None => Raise ValueError
              end
          | _, _ => Raise ValueError
          end
      | None => Raise ValueError
      end
  | _, _ => Raise ValueError
  end.

End Py.

(** ** [hashlib.md5]

    MD5 as RFC 1321 defines it.  A 32-bit word is held in a machine integer
    and masked to 32 bits after every addition and rotation; [md5_hexdigest]
    is [hashlib.md5(s.encode()).hexdigest()]. *)

Module Md5.
Import Uint63.
Local Open Scope uint63_scope.

Definition mask32 : int := 0xffffffff.
Definition w32 (x : int) : int := x land mask32.
Definition not32 (x : int) : int := x lxor mask32.
Definition rotl32 (x c : int) : int := w32 ((x << c) lor (x >> (32 - c))).

(** [K[i] = floor(2^32 * abs(sin(i + 1)))] *)
Definition md5_K : list int :=
 [0xd76aa478; 0xe8c7b756; 0x242070db; 0xc1bdceee;
  0xf57c0faf; 0x4787c62a; 0xa8304613; 0xfd469501;
  0x698098d8; 0x8b44f7af; 0xffff5bb1; 0x895cd7be;
  0x6b901122; 0xfd987193; 0xa679438e; 0x49b40821;
  0xf61e2562; 0xc040b340; 0x265e5a51; 0xe9b6c7aa;
  0xd62f105d; 0x02441453; 0xd8a1e681; 0xe7d3fbc8;
  0x21e1cde6; 0xc33707d6; 0xf4d50d87; 0x455a14ed;
  0xa9e3e905; 0xfcefa3f8; 0x676f02d9; 0x8d2a4c8a;
  0xfffa3942; 0x8771f681; 0x6d9d6122; 0xfde5380c;
  0xa4beea44; 0x4bdecfa9; 0xf6bb4b60; 0xbebfbc70;
  0x289b7ec6; 0xeaa127fa; 0xd4ef3085; 0x04881d05;
  0xd9d4d039; 0xe6db99e5; 0x1fa27cf8; 0xc4ac5665;
  0xf4292244; 0x432aff97; 0xab9423a7; 0xfc93a039;
  0x655b59c3; 0x8f0ccc92; 0xffeff47d; 0x85845dd1;
  0x6fa87e4f; 0xfe2ce6e0; 0xa3014314; 0x4e0811a1;
  0xf7537e82; 0xbd3af235; 0x2ad7d2bb; 0xeb86d391].

(** Per-round left rotations. *)
Definition md5_S : list int :=
 [7; 12; 17; 22; 7; 12; 17; 22; 7; 12; 17; 22; 7; 12; 17; 22;
  5; 9; 14; 20; 5; 9; 14; 20; 5; 9; 14; 20; 5; 9; 14; 20;
  4; 11; 16; 23; 4; 11; 16; 23; 4; 11; 16; 23; 4; 11; 16; 23;
  6; 10; 15; 21; 6; 10; 15; 21; 6; 10; 15; 21; 6; 10; 15; 21].

(** Per-round message word: [i], [(5i + 1) mod 16], [(3i + 5) mod 16],
    [7i mod 16] in the four groups of sixteen rounds. *)
Definition md5_G : list nat :=
 [0; 1; 2; 3; 4; 5; 6; 7; 8; 9; 10; 11; 12; 13; 14; 15;
  1; 6; 11; 0; 5; 10; 15; 4; 9; 14; 3; 8; 13; 2; 7; 12;
  5; 8; 11; 14; 1; 4; 7; 10; 13; 0; 3; 6; 9; 12; 15; 2;
  0; 7; 14; 5; 12; 3; 10; 1; 8; 15; 6; 13; 4; 11; 2; 9]%nat.

Record md5_state := MkMd5 { md_a : int; md_b : int; md_c : int; md_d : int }.

Definition md5_init : md5_state :=
  MkMd5 0x67452301 0xefcdab89 0x98badcfe 0x10325476.

(** The round function of round [i]: F, G, H or I. *)
Definition md5_F (i : int) (b c d : int) : int :=
  if i <? 16 then (b land c) lor (not32 b land d)
  else if i <? 32 then (d land b) lor (not32 d land c)
  else if i <? 48 then (b lxor c) lxor d
  else c lxor (b lor not32 d).

Fixpoint word_at (M : list int) (i : nat) : int :=
  match M, i with
  | x :: _, O => x
  | _ :: r, S j => word_at r j
  | [], _ => 0
  end.

Fixpoint md5_rounds (M : list int) (i : int) (gs : list nat) (ks ss : list int)
    (st : md5_state) : md5_state :=
  match gs, ks, ss with
  | g :: gs', k :: ks', s :: ss' =>
      let '(MkMd5 a b c d) := st in
      let f := w32 (md5_F i b c d + a + k + word_at M g) in
      md5_rounds M (i + 1) gs' ks' ss' (MkMd5 d (w32 (b + rotl32 f s)) b c)
  | _, _, _ => st
  end.

Definition md5_block (st : md5_state) (M : list int) : md5_state :=
  let st' := md5_rounds M 0 md5_G md5_K md5_S st in
  MkMd5 (w32 (md_a st + md_a st')) (w32 (md_b st + md_b st'))
        (w32 (md_c st + md_c st')) (w32 (md_d st + md_d st')).

Definition le_bytes4 (x : int) : list int :=
  [x land 0xff; (x >> 8) land 0xff; (x >> 16) land 0xff; (x >> 24) land 0xff].

(** Padding: a 1 bit, zeros up to 56 modulo 64 bytes, the bit length on
    64 bits, little endian. *)
Definition md5_pad (msg : list int) : list int :=
  let len := List.length msg in
  let bits := 8 * of_Z (Z.of_nat len) in
  msg ++ [0x80] ++ repeat 0 ((64 - (len + 9) mod 64) mod 64)%nat
      ++ le_bytes4 (w32 bits) ++ le_bytes4 (w32 (bits >> 32)).

Fixpoint le_words (bs : list int) : list int :=
  match bs with
  | b0 :: b1 :: b2 :: b3 :: rest =>
      (b0 lor (b1 << 8) lor (b2 << 16) lor (b3 << 24)) :: le_words rest
  | _ => []
  end.

Fixpoint chunks16 (fuel : nat) (ws : list int) : list (list int) :=
  match fuel, ws with
  | S f, _ :: _ => firstn 16 ws :: chunks16 f (skipn 16 ws)
  | _, _ => []
  end.

Definition md5_digest (msg : list int) : list int :=
  let ws := le_words (md5_pad msg) in
  let st := fold_left md5_block (chunks16 (List.length ws) ws) md5_init in
  le_bytes4 (md_a st) ++ le_bytes4 (md_b st) ++ le_bytes4 (md_c st) ++ le_bytes4 (md_d st).

Definition ascii_of_byte (n : int) : ascii :=
  Ascii (bit n 0) (bit n 1) (bit n 2) (bit n 3) (bit n 4) (bit n 5) (bit n 6) (bit n 7).

Definition byte_of_ascii (c : ascii) : int :=
  let '(Ascii b0 b1 b2 b3 b4 b5 b6 b7) := c in
  (if b0 then 1 else 0) + (if b1 then 2 else 0) + (if b2 then 4 else 0)
  + (if b3 then 8 else 0) + (if b4 then 16 else 0) + (if b5 then 32 else 0)
  + (if b6 then 64 else 0) + (if b7 then 128 else 0).

Definition hex_digit (n : int) : ascii :=
  if n <? 10 then ascii_of_byte (48 + n) else ascii_of_byte (87 + n).

Fixpoint hex_of_bytes (bs : list int) : string :=
  match bs with
  | [] => EmptyString
  | b :: rest =>
      String (hex_digit (b >> 4)) (String (hex_digit (b land 15)) (hex_of_bytes rest))
  end.

(** [s.encode()] *)
Definition encode (s : string) : list int := map byte_of_ascii (Py.chars s).

Definition md5_hexdigest (s : string) : string := hex_of_bytes (md5_digest (encode s)).

End Md5.

(** ** The records exchanged between the components *)

Module Model.

(** The value under the key ['timestamp'] of a trade: absent, the
    time-of-day text the Excel provider writes, or a [datetime] (as the
    tests build their trades). *)
Inductive Timestamp : Type :=
| TsMissing
| TsStr (s : string)
| TsDatetime (d : Py.datetime).

(** A trade dictionary with the keys [_read_trades] fills in. *)
Record Trade := mk_trade {
  timestamp : Timestamp;
  symbol : string;
  side : string;
  price : Q;
  volume : Z;
  aggressor : bool;
  order_id : option string;
  row : option Z }.

Record BookLevel := mk_level { bl_price : Q; bl_volume : Z }.

Record Book := mk_book { bids : list BookLevel; asks : list BookLevel }.

(** [str(trade.get('timestamp', default))] *)
Definition str_timestamp (default : string) (t : Timestamp) : string :=
  match t with
  | TsMissing => default
  | TsStr s => s
  | TsDatetime d => Py.str_datetime d
  end.

(** What the environment decides about one call into storage: nothing, or
    an [OperationalError] raised by the [n]-th SQL statement of the call
    (the commit counts as the last statement). *)
Inductive Fault : Type :=
| NoFault
| FailAt (n : nat).

(** The environment of a run. *)
Record World := mk_world {
  (** the order in which [list(s)] enumerates a set of strings *)
  set_order : gset string -> list string;
  (** the fault, if any, of the [n]-th call into storage *)
  io_fault : nat -> Fault;
  (** [date.today()] *)
  today : Py.date;
  (** the [n]-th reading of [datetime.now()] *)
  clock : nat -> Py.datetime }.

(** [BehaviorType] *)
Inductive BehaviorType : Type :=
| ABSORPTION
| EXHAUSTION
| INSTITUTIONAL
| STOP_HUNT
| SWEEP.

(** The [metadata] dictionary of a behaviour, as each detector fills it. *)
Inductive Metadata : Type :=
| AbsorptionMeta (vol : Z) (price_impact : Q) (trade_count : Z) (time_window : Z)
| ExhaustionMeta (momentum_score volume_score : Q) (bars_analyzed : Z) (direction : string).

Record Behavior := mk_behavior {
  b_type : BehaviorType;
  b_symbol : string;
  b_timestamp : Py.datetime;
  b_confidence : Q;
  b_metadata : Metadata }.

(** What [get_data()] hands over when it is not [None] (its
    ['timestamp'], a clock reading nobody uses, is left out). *)
Record Data := mk_data { data_trades : list Trade; data_book : Book }.

End Model.

(** ** [src/data/database.py]: DatabaseManager *)

Module DatabaseManager.
Import Py Model.

(** The rows of the tables, without the columns that the database fills
    with the wall clock ([created_at], [first_seen], [last_seen], the
    snapshot's [timestamp]).  A row's [id] in [trades] is its position. *)
Record TradeRow := mk_trade_row {
  tr_timestamp : string;
  tr_symbol : string;
  tr_side : string;
  tr_price : Q;
  tr_volume : Z;
  tr_aggressor : bool;
  tr_order_id : option string;
  tr_row_number : option Z }.

Record BookRow := mk_book_row {
  bs_symbol : string;
  bs_bids : list (option BookLevel);
  bs_asks : list (option BookLevel);
  bs_spread : Q;
  bs_mid_price : Q }.

Record PriceLevelRow := mk_level_row {
  pl_id : Z;
  pl_symbol : string;
  pl_price : Q;
  pl_level_type : string;
  pl_strength : Z;
  pl_touch_count : Z;
  pl_volume_traded : Z }.

Record StatsRow := mk_stats_row {
  ms_symbol : string;
  ms_date : date;
  ms_hour : Z;
  ms_total_trades : Z;
  ms_total_volume : Z;
  ms_buy_trades : Z;
  ms_sell_trades : Z;
  ms_buy_volume : Z;
  ms_sell_volume : Z;
  ms_high_price : option Q;
  ms_low_price : option Q;
  ms_vwap : Q }.

Record ValidationRow := mk_validation_row {
  vl_expected_count : Z;
  vl_actual_count : Z;
  vl_status : string }.

Record Tables := mk_tables {
  trades : list TradeRow;
  book_snapshots : list BookRow;
  price_levels : list PriceLevelRow;
  next_level_id : Z;
  market_stats : list StatsRow;
  validation_log : list ValidationRow }.

(** The manager: the committed content of the database, whether the
    connection is usable, and how many calls went into storage. *)
Record t := mk_manager {
  db : Tables;
  conn_open : bool;
  io_calls : nat }.

Definition empty_tables : Tables := mk_tables [] [] [] 1 [] [].

(** [initialize()] on a database file holding [stored]. *)
Definition initialize (stored : Tables) : t := mk_manager stored true 0.

(** [close()] *)
Definition close (self : t) : t := mk_manager (db self) false (io_calls self).

Definition with_db (self : t) (tb : Tables) : t :=
  mk_manager tb (conn_open self) (io_calls self).

Definition tick (self : t) : t :=
  mk_manager (db self) (conn_open self) (S (io_calls self)).

Definition with_trades (tb : Tables) (l : list TradeRow) : Tables :=
  mk_tables l (book_snapshots tb) (price_levels tb) (next_level_id tb)
            (market_stats tb) (validation_log tb).

Definition with_book_snapshots (tb : Tables) (l : list BookRow) : Tables :=
  mk_tables (trades tb) l (price_levels tb) (next_level_id tb)
            (market_stats tb) (validation_log tb).

Definition with_price_levels (tb : Tables) (l : list PriceLevelRow) (next : Z) : Tables :=
  mk_tables (trades tb) (book_snapshots tb) l next
            (market_stats tb) (validation_log tb).

Definition with_market_stats (tb : Tables) (l : list StatsRow) : Tables :=
  mk_tables (trades tb) (book_snapshots tb) (price_levels tb) (next_level_id tb)
            l (validation_log tb).

Definition with_validation_log (tb : Tables) (l : list ValidationRow) : Tables :=
  mk_tables (trades tb) (book_snapshots tb) (price_levels tb) (next_level_id tb)
            (market_stats tb) l.

(** Any use of the connection ([cursor()], [execute], [commit()],
    [rollback()]) raises once the connection is closed. *)
Definition connection (self : t) : Result unit :=
  if conn_open self then Ok tt else Raise ProgrammingError.

(** The [k]-th statement of a call under the fault [f]. *)
Definition stmt (f : Fault) (k : nat) : Result unit :=
  match f with
  | FailAt n => if Nat.eqb n k then Raise OperationalError else Ok tt
  | NoFault => Ok tt
  end.

(** The end of a [try] block whose handler logs, rolls back and returns
    [fallback]: the work [attempt] is committed, or the committed content
    stays and the handler's own [rollback()] may raise. *)
Definition commit_or_rollback {A} (self : t) (attempt : Result (Tables * A))
    (fallback : A) : t * Result A :=
  match attempt with
  | Ok (tb, a) => (with_db self tb, Ok a)
  | Raise _ =>
      match connection self with
      | Ok _ => (self, Ok fallback)
      | Raise e => (self, Raise e)
      end
  end.

(** *** save_trades *)

Definition sql_text (ts : Timestamp) : option string :=
  match ts with
  | TsMissing => None
  | TsStr s => Some s
  | TsDatetime d => Some (str_datetime d)
  end.

(** The row bound to one [INSERT INTO trades], with the table's
    [NOT NULL] and [CHECK] constraints. *)
Definition trade_row (tr : Trade) : Result TradeRow :=
  match sql_text (timestamp tr) with
  | None => Raise IntegrityError
  | Some ts =>
      if (String.eqb (side tr) "BUY" || String.eqb (side tr) "SELL")
         && (String.eqb (symbol tr) "WDOFUT" || String.eqb (symbol tr) "DOLFUT")
      then Ok (mk_trade_row ts (symbol tr) (side tr) (price tr) (volume tr)
                            (aggressor tr) (order_id tr) (row tr))
      else Raise IntegrityError
  end.

(** [cursor.executemany(INSERT ..., trade_data)], statement [k] onwards. *)
Fixpoint executemany (f : Fault) (k : nat) (batch : list Trade)
    (tbl : list TradeRow) : Result (list TradeRow) :=
  match batch with
  | [] => Ok tbl
  | tr :: rest =>
      _ <- stmt f k ;;
      r <- trade_row tr ;;
      executemany f (S k) rest (tbl ++ [r])
  end.

Definition save_trades (w : World) (self : t) (batch : list Trade) : t * Result Z :=
  match batch with
  | [] => (self, Ok 0)
  | _ =>
      let f := io_fault w (io_calls self) in
      let self := tick self in
      commit_or_rollback self
        (_ <- connection self ;;
         tbl <- executemany f 0 batch (trades (db self)) ;;
         _ <- stmt f (List.length batch) ;;
         Ok (with_trades (db self) tbl, Z.of_nat (List.length batch)))
        0
  end.


(** *** update_price_levels *)

(** [_detect_level_type]: the price against the mean of the last 100
    trades of the symbol ([ORDER BY id DESC LIMIT 100]). *)
Definition _detect_level_type (f : Fault) (self : t) (sym : string) (p : Q)
    : Result string :=
  _ <- connection self ;;
  _ <- stmt f 0 ;;
  let prices :=
    map tr_price
        (firstn 100 (List.filter (fun r => String.eqb (tr_symbol r) sym)
                            (rev (trades (db self))))) in
  match prices with
  | [] => Ok "PIVOT"
  | _ =>
      let avg_price := (Qsum prices / inject_Z (Z.of_nat (List.length prices)))%Q in
      if Qltb avg_price p then Ok "RESISTANCE" else Ok "SUPPORT"
  end.

(** [WHERE symbol = ? AND price = ? AND level_type = ?] *)
Definition level_matches (sym : string) (p : Q) (lt : string) (r : PriceLevelRow) : bool :=
  String.eqb (pl_symbol r) sym && Qeq_bool (pl_price r) p
    && String.eqb (pl_level_type r) lt.

(** The [UPDATE]: every right-hand side reads the row as it was. *)
Definition touch (vol : Z) (r : PriceLevelRow) : PriceLevelRow :=
  mk_level_row (pl_id r) (pl_symbol r) (pl_price r) (pl_level_type r)
               (Z.min (pl_touch_count r + 1) 10)
               (pl_touch_count r + 1)
               (pl_volume_traded r + vol).

Definition valid_level_type (lt : string) : bool :=
  String.eqb lt "SUPPORT" || String.eqb lt "RESISTANCE" || String.eqb lt "PIVOT".

Definition update_price_levels (w : World) (self : t) (sym : string) (p : Q)
    (vol : Z) (level_type : option string) : t * Result unit :=
  let f := io_fault w (io_calls self) in
  let self := tick self in
  commit_or_rollback self
    (ltk <- match level_type with
            | Some (String c s) => Ok (String c s, O)
            | _ => lt <- _detect_level_type f self sym p ;; Ok (lt, 1%nat)
            end ;;
     let lt := fst ltk in
     let k := snd ltk in
     _ <- connection self ;;
     _ <- stmt f k ;;
     let levels := price_levels (db self) in
     tb <- match find (level_matches sym p lt) levels with
           | Some r =>
               _ <- stmt f (S k) ;;
               Ok (with_price_levels (db self)
                     (map (fun r' => if pl_id r' =? pl_id r then touch vol r' else r') levels)
                     (next_level_id (db self)))
           | None =>
               _ <- stmt f (S k) ;;
               if valid_level_type lt
               then Ok (with_price_levels (db self)
                          (levels ++ [mk_level_row (next_level_id (db self)) sym p lt 1 1 vol])
                          (next_level_id (db self) + 1))
               else Raise IntegrityError
           end ;;
     _ <- stmt f (S (S k)) ;;
     Ok (tb, tt))
    tt.

(** *** save_book_snapshot *)

(** Up to five levels of one side, padded with [None]. *)
Definition five_levels (side_levels : list BookLevel) : list (option BookLevel) :=
  map (fun i => nth_error side_levels i) (seq 0 5).

Definition book_row (sym : string) (book : Book) : BookRow :=
  let both := match bids book, asks book with
              | b :: _, a :: _ => Some (b, a)
              | _, _ => None
              end in
  mk_book_row sym (five_levels (bids book)) (five_levels (asks book))
    (match both with
     | Some (b, a) => (bl_price a - bl_price b)%Q
     | None => 0%Q
     end)
    (match both with
     | Some (b, a) => ((bl_price a + bl_price b) / 2)%Q
     | None => 0%Q
     end).

Definition save_book_snapshot (w : World) (self : t) (sym : string) (book : Book)
    : t * Result bool :=
  let f := io_fault w (io_calls self) in
  let self := tick self in
  commit_or_rollback self
    (let r := book_row sym book in
     _ <- connection self ;;
     _ <- stmt f 0 ;;
     _ <- stmt f 1 ;;
     Ok (with_book_snapshots (db self) (book_snapshots (db self) ++ [r]), true))
    false.

(** *** update_market_stats *)

(** One entry of the [defaultdict] that groups a batch. *)
Record Stat := mk_stat {
  st_trades : Z;
  st_volume : Z;
  st_buy_trades : Z;
  st_sell_trades : Z;
  st_buy_volume : Z;
  st_sell_volume : Z;
  st_prices : list Q }.

Definition stat_default : Stat := mk_stat 0 0 0 0 0 0 [].

Definition StatKey : Type := (string * date * Z)%type.

Definition key_eqb (a b : StatKey) : bool :=
  let '(s1, (y1, m1, d1), h1) := a in
  let '(s2, (y2, m2, d2), h2) := b in
  String.eqb s1 s2 && (y1 =? y2) && (m1 =? m2) && (d1 =? d2) && (h1 =? h2).

(** [int(ts.split(':')[0]) if ':' in ts else 0] for
    [ts = trade.get('timestamp', '')]. *)
Definition trade_hour (ts : Timestamp) : Result Z :=
  match ts with
  | TsMissing => Ok 0
  | TsStr s =>
      if contains ":" s
      then int_of_str (hd "" (split ":" s))
      else Ok 0
  | TsDatetime _ => Raise TypeError
  end.

Definition add_trade (st : Stat) (tr : Trade) : Stat :=
  let buy := String.eqb (side tr) "BUY" in
  mk_stat (st_trades st + 1)
          (st_volume st + volume tr)
          (if buy then st_buy_trades st + 1 else st_buy_trades st)
          (if buy then st_sell_trades st else st_sell_trades st + 1)
          (if buy then st_buy_volume st + volume tr else st_buy_volume st)
          (if buy then st_sell_volume st else st_sell_volume st + volume tr)
          (st_prices st ++ [price tr]).

(** [stats[key]] updated in place, a new key going last. *)
Fixpoint upsert_stat (k : StatKey) (tr : Trade) (stats : list (StatKey * Stat))
    : list (StatKey * Stat) :=
  match stats with
  | [] => [(k, add_trade stat_default tr)]
  | (k', st) :: rest =>
      if key_eqb k' k then (k', add_trade st tr) :: rest
      else (k', st) :: upsert_stat k tr rest
  end.

Fixpoint group_trades (day : date) (batch : list Trade) (stats : list (StatKey * Stat))
    : Result (list (StatKey * Stat)) :=
  match batch with
  | [] => Ok stats
  | tr :: rest =>
      h <- trade_hour (timestamp tr) ;;
      group_trades day rest (upsert_stat (symbol tr, day, h) tr stats)
  end.

(** The row written for one bucket. *)
Definition stats_row (k : StatKey) (st : Stat) : StatsRow :=
  let '(sym, dt, h) := k in
  let prices := st_prices st in
  let vwap := match prices with
              | [] => 0%Q
              | _ => (Qsum prices / inject_Z (Z.of_nat (List.length prices)))%Q
              end in
  mk_stats_row sym dt h (st_trades st) (st_volume st)
    (st_buy_trades st) (st_sell_trades st) (st_buy_volume st) (st_sell_volume st)
    (Qmax_list prices) (Qmin_list prices) vwap.

Definition same_bucket (r : StatsRow) (r' : StatsRow) : bool :=
  key_eqb (ms_symbol r, ms_date r, ms_hour r) (ms_symbol r', ms_date r', ms_hour r').

(** [INSERT OR REPLACE] under [UNIQUE(symbol, date, hour)]. *)
Definition insert_or_replace (r : StatsRow) (tbl : list StatsRow) : list StatsRow :=
  List.filter (fun r' => negb (same_bucket r r')) tbl ++ [r].

Fixpoint write_stats (self : t) (f : Fault) (k : nat) (stats : list (StatKey * Stat))
    (tbl : list StatsRow) : Result (list StatsRow) :=
  match stats with
  | [] => Ok tbl
  | (key, st) :: rest =>
      _ <- connection self ;;
      _ <- stmt f k ;;
      write_stats self f (S k) rest (insert_or_replace (stats_row key st) tbl)
  end.

Definition update_market_stats (w : World) (self : t) (batch : list Trade)
    : t * Result unit :=
  match batch with
  | [] => (self, Ok tt)
  | _ =>
      let f := io_fault w (io_calls self) in
      let self := tick self in
      commit_or_rollback self
        (stats <- group_trades (today w) batch [] ;;
         tbl <- write_stats self f 0 stats (market_stats (db self)) ;;
         _ <- connection self ;;
         _ <- stmt f (List.length stats) ;;
         Ok (with_market_stats (db self) tbl, tt))
        tt
  end.

(** *** validate_trades *)

(** [_hash_trade]: the key of the reconciliation. *)
Definition _hash_trade (tr : Trade) : string :=
  str_timestamp "None" (timestamp tr) ++ "_" ++ symbol tr ++ "_"
    ++ str_float (price tr) ++ "_" ++ str_int (volume tr).

Record ValidationResult := mk_validation {
  v_status : string;
  v_expected_count : Z;
  v_actual_count : Z;
  v_missing : list Trade;
  v_extra : list Trade;
  v_match_rate : Q }.

(** [_save_validation_log]: its handler logs and neither rolls back nor
    raises. *)
Definition _save_validation_log (w : World) (self : t) (r : ValidationResult) : t :=
  let f := io_fault w (io_calls self) in
  let self := tick self in
  match (_ <- connection self ;; _ <- stmt f 0 ;; stmt f 1) with
  | Ok _ =>
      with_db self (with_validation_log (db self)
        (validation_log (db self)
           ++ [mk_validation_row (v_expected_count r) (v_actual_count r) (v_status r)]))
  | Raise _ => self
  end.

Definition validate_trades (w : World) (self : t) (expected actual : list Trade)
    : t * ValidationResult :=
  let expected_hashes : gset string := list_to_set (map _hash_trade expected) in
  let actual_hashes : gset string := list_to_set (map _hash_trade actual) in
  let missing_hashes := expected_hashes ∖ actual_hashes in
  let extra_hashes := actual_hashes ∖ expected_hashes in
  let missing := List.filter (fun tr => bool_decide (_hash_trade tr ∈ missing_hashes)) expected in
  let extra := List.filter (fun tr => bool_decide (_hash_trade tr ∈ extra_hashes)) actual in
  let n := Z.of_nat (List.length expected) in
  let rate := match expected with
              | [] => 0%Q
              | _ => (inject_Z (n - Z.of_nat (List.length missing)) / inject_Z n * 100)%Q
              end in
  let status := match missing, extra with
                | _ :: _, _ => "ERROR"
                | [], _ :: _ => "WARNING"
                | [], [] => "OK"
                end in
  let r := mk_validation status n (Z.of_nat (List.length actual)) missing extra rate in
  (_save_validation_log w self r, r).

(** *** Sequences of calls *)

(** A call into the manager. *)
Inductive Op : Type :=
| UpdatePriceLevels (sym : string) (p : Q) (vol : Z) (level_type : option string)
| SaveTrades (batch : list Trade)
| UpdateMarketStats (batch : list Trade)
| SaveBookSnapshot (sym : string) (book : Book)
| Close.

Definition step (w : World) (self : t) (op : Op) : t :=
  match op with
  | UpdatePriceLevels sym p vol lt => fst (update_price_levels w self sym p vol lt)
  | SaveTrades batch => fst (save_trades w self batch)
  | UpdateMarketStats batch => fst (update_market_stats w self batch)
  | SaveBookSnapshot sym book => fst (save_book_snapshot w self sym book)
  | Close => close self
  end.

(** The manager after [initialize()] on an empty database and the calls
    [ops], in order. *)
Definition run (w : World) (ops : list Op) : t :=
  fold_left (step w) ops (initialize empty_tables).

End DatabaseManager.

(** ** [src/core/engine.py]: TapeReadingEngine *)

Module TapeReadingEngine.
Import Py Model.

Record Stats := mk_stats {
  trades_processed : Z;
  trades_saved : Z;
  trades_duplicates_prevented : Z;
  book_snapshots_saved : Z;
  validation_errors : Z }.

(** The engine's attributes ([validate] is [self.validate_trades]). *)
Record t := mk_engine {
  stats : Stats;
  db_manager : DatabaseManager.t;
  save_interval : Z;
  save_book_snapshots : bool;
  validate : bool;
  trade_buffer : list Trade;
  last_book_snapshot : option Book;
  saved_trade_hashes : gset string }.

(** [self.max_saved_hashes = 20000] *)
Definition max_saved_hashes : Z := 20000.

(** [__init__] with the values read from the configuration (their defaults
    are 10, [True] and [True]). *)
Definition init (interval : Z) (snapshots validation : bool) (dbm : DatabaseManager.t) : t :=
  mk_engine (mk_stats 0 0 0 0 0) dbm interval snapshots validation [] None ∅.

Definition with_stats (self : t) (s : Stats) : t :=
  mk_engine s (db_manager self) (save_interval self) (save_book_snapshots self)
    (validate self) (trade_buffer self) (last_book_snapshot self) (saved_trade_hashes self).

Definition with_db_manager (self : t) (d : DatabaseManager.t) : t :=
  mk_engine (stats self) d (save_interval self) (save_book_snapshots self)
    (validate self) (trade_buffer self) (last_book_snapshot self) (saved_trade_hashes self).

Definition with_trade_buffer (self : t) (b : list Trade) : t :=
  mk_engine (stats self) (db_manager self) (save_interval self) (save_book_snapshots self)
    (validate self) b (last_book_snapshot self) (saved_trade_hashes self).

Definition with_last_book_snapshot (self : t) (b : option Book) : t :=
  mk_engine (stats self) (db_manager self) (save_interval self) (save_book_snapshots self)
    (validate self) (trade_buffer self) b (saved_trade_hashes self).

Definition with_saved_trade_hashes (self : t) (h : gset string) : t :=
  mk_engine (stats self) (db_manager self) (save_interval self) (save_book_snapshots self)
    (validate self) (trade_buffer self) (last_book_snapshot self) h.

Definition add_trades_processed (s : Stats) (n : Z) : Stats :=
  mk_stats (trades_processed s + n) (trades_saved s) (trades_duplicates_prevented s)
    (book_snapshots_saved s) (validation_errors s).

Definition add_trades_saved (s : Stats) (n : Z) : Stats :=
  mk_stats (trades_processed s) (trades_saved s + n) (trades_duplicates_prevented s)
    (book_snapshots_saved s) (validation_errors s).

Definition add_duplicates_prevented (s : Stats) (n : Z) : Stats :=
  mk_stats (trades_processed s) (trades_saved s) (trades_duplicates_prevented s + n)
    (book_snapshots_saved s) (validation_errors s).

Definition add_book_snapshots_saved (s : Stats) (n : Z) : Stats :=
  mk_stats (trades_processed s) (trades_saved s) (trades_duplicates_prevented s)
    (book_snapshots_saved s + n) (validation_errors s).

Definition add_validation_errors (s : Stats) (n : Z) : Stats :=
  mk_stats (trades_processed s) (trades_saved s) (trades_duplicates_prevented s)
    (book_snapshots_saved s) (validation_errors s + n).

(** *** The identity of a trade *)

(** The hash of the five identity fields, already rendered by [str]. *)
Definition hash_fields (ts sym sd : string) (p : Q) (v : Z) : string :=
  Md5.md5_hexdigest (join "_" [ts; sym; sd; str_float p; str_int v]).

(** [_generate_trade_hash] *)
Definition _generate_trade_hash (tr : Trade) : string :=
  hash_fields (str_timestamp "" (timestamp tr)) (symbol tr) (side tr)
              (price tr) (volume tr).

(** [_load_recent_trade_hashes]: the hashes of the last 1000 stored trades;
    the handler logs when the connection cannot be used. *)
Definition _load_recent_trade_hashes (self : t) : t :=
  match DatabaseManager.connection (db_manager self) with
  | Ok _ =>
      let rows := firstn 1000 (rev (DatabaseManager.trades (DatabaseManager.db (db_manager self)))) in
      with_saved_trade_hashes self
        (fold_left
           (fun acc r =>
              acc ∪ {[ hash_fields (DatabaseManager.tr_timestamp r)
                         (DatabaseManager.tr_symbol r) (DatabaseManager.tr_side r)
                         (DatabaseManager.tr_price r) (DatabaseManager.tr_volume r) ]})
           rows (saved_trade_hashes self))
  | Raise _ => self
  end.

(** *** _save_trades_batch *)

Definition _save_trades_batch (w : World) (self : t) : t :=
  match trade_buffer self with
  | [] => self
  | _ =>
      let '(db1, r1) := DatabaseManager.save_trades w (db_manager self) (trade_buffer self) in
      match r1 with
      | Raise _ => with_db_manager self db1
      | Ok saved_count =>
          let self := with_stats (with_db_manager self db1)
                                 (add_trades_saved (stats self) saved_count) in
          let '(db2, r2) := DatabaseManager.update_market_stats w db1 (trade_buffer self) in
          match r2 with
          | Raise _ => with_db_manager self db2
          | Ok _ =>
              let self := with_db_manager self db2 in
              let self :=
                if validate self
                   && negb (saved_count =? Z.of_nat (List.length (trade_buffer self)))
                then with_stats self (add_validation_errors (stats self) 1)
                else self in
              with_trade_buffer self []
          end
      end
  end.

(** *** _process_trades *)

(** The branch the loop of [_process_trades] takes for a trade. *)
Inductive Classification : Type :=
| Unique
| Duplicate.

(** [set(list(s)[-(max_saved_hashes // 2):])] *)
Definition prune_hashes (w : World) (s : gset string) : gset string :=
  list_to_set (keep_last (Z.to_nat (max_saved_hashes / 2)) (set_order w s)).

(** The loop over the batch.  It returns the engine, the local counter
    [duplicates_prevented], the branch taken for every trade it reached,
    and the exception that ended it, if any. *)
Fixpoint process_loop (w : World) (self : t) (dups : Z) (batch : list Trade)
    : t * Z * list (Trade * Classification) * Result unit :=
  match batch with
  | [] => (self, dups, [], Ok tt)
  | tr :: rest =>
      let trade_hash := _generate_trade_hash tr in
      if bool_decide (trade_hash ∈ saved_trade_hashes self) then
        let '(self', dups', log, r) := process_loop w self (dups + 1) rest in
        (self', dups', (tr, Duplicate) :: log, r)
      else
        let self := with_stats self (add_trades_processed (stats self) 1) in
        let self := with_trade_buffer self (trade_buffer self ++ [tr]) in
        let self := with_saved_trade_hashes self (saved_trade_hashes self ∪ {[ trade_hash ]}) in
        let '(db', r) := DatabaseManager.update_price_levels w (db_manager self)
                           (symbol tr) (price tr) (volume tr) None in
        let self := with_db_manager self db' in
        match r with
        | Raise e => (self, dups, [(tr, Unique)], Raise e)
        | Ok _ =>
            let '(self', dups', log, r') := process_loop w self dups rest in
            (self', dups', (tr, Unique) :: log, r')
        end
  end.

Definition _process_trades (w : World) (self : t) (batch : list Trade)
    : t * list (Trade * Classification) * Result unit :=
  let '(self, dups, log, r) := process_loop w self 0 batch in
  match r with
  | Raise e => (self, log, Raise e)
  | Ok _ =>
      let self :=
        if 0 <? dups
        then with_stats self (add_duplicates_prevented (stats self) dups)
        else self in
      let self :=
        if max_saved_hashes <? Z.of_nat (size (saved_trade_hashes self))
        then with_saved_trade_hashes self (prune_hashes w (saved_trade_hashes self))
        else self in
      let self :=
        if save_interval self <=? Z.of_nat (List.length (trade_buffer self))
        then _save_trades_batch w self
        else self in
      (self, log, Ok tt)
  end.

(** *** _process_book *)

(** [abs(last - curr) / last] on two volumes. *)
Definition vol_change (last curr : Z) : Result Q :=
  if last =? 0 then Raise ZeroDivisionError
  else Ok (inject_Z (Z.abs (last - curr)) / inject_Z last)%Q.

Definition _book_changed_significantly (self : t) (current_book : Book) : bool :=
  match last_book_snapshot self with
  | None => true
  | Some last =>
      match bids last, asks last, bids current_book, asks current_book with
      | lb :: _, la :: _, cb :: _, ca :: _ =>
          if Qneb (bl_price lb) (bl_price cb) || Qneb (bl_price la) (bl_price ca)
          then true
          else
            match vol_change (bl_volume lb) (bl_volume cb),
                  vol_change (bl_volume la) (bl_volume ca) with
            | Ok bid_vol_change, Ok ask_vol_change =>
                Qltb (1 # 2) bid_vol_change || Qltb (1 # 2) ask_vol_change
            | _, _ => true
            end
      | _, _, _, _ => true
      end
  end.

(** The loop [for symbol in ['WDOFUT', 'DOLFUT']]. *)
Fixpoint save_snapshots (w : World) (self : t) (book : Book) (symbols : list string)
    : t * Result unit :=
  match symbols with
  | [] => (self, Ok tt)
  | sym :: rest =>
      match bids book, asks book with
      | _ :: _, _ :: _ =>
          let '(db', r) := DatabaseManager.save_book_snapshot w (db_manager self) sym book in
          let self := with_db_manager self db' in
          match r with
          | Raise e => (self, Raise e)
          | Ok success =>
              save_snapshots w
                (if success
                 then with_stats self (add_book_snapshots_saved (stats self) 1)
                 else self)
                book rest
          end
      | _, _ => save_snapshots w self book rest
      end
  end.

Definition _process_book (w : World) (self : t) (book : Book) : t :=
  if _book_changed_significantly self book then
    match save_snapshots w self book ["WDOFUT"; "DOLFUT"] with
    | (self', Ok _) => with_last_book_snapshot self' (Some book)
    | (self', Raise _) => self'
    end
  else self.

(** *** The polling loop *)

(** One turn of the loop of [start]: the trades, then the book. *)
Definition cycle (w : World) (self : t) (data : option Data)
    : t * list (Trade * Classification) * Result unit :=
  match data with
  | None => (self, [], Ok tt)
  | Some d =>
      let '(self, log, r) :=
        match data_trades d with
        | [] => (self, [], Ok tt)
        | _ => _process_trades w self (data_trades d)
        end in
      match r with
      | Raise e => (self, log, Raise e)
      | Ok _ =>
          (if save_book_snapshots self then _process_book w self (data_book d) else self,
           log, Ok tt)
      end
  end.

(** The turns of the loop over what the provider returns, poll after
    poll; an exception ends the loop. *)
Fixpoint cycles (w : World) (self : t) (polls : list (option Data))
    : t * list (Trade * Classification) :=
  match polls with
  | [] => (self, [])
  | data :: rest =>
      let '(self, log, r) := cycle w self data in
      match r with
      | Raise _ => (self, log)
      | Ok _ => let '(self', log') := cycles w self rest in (self', (log ++ log')%list)
      end
  end.

(** [start]: the recent hashes are loaded, the loop runs, and the pending
    trades are flushed when it ends. *)
Definition start (w : World) (self : t) (polls : list (option Data))
    : t * list (Trade * Classification) :=
  let '(self, log) := cycles w (_load_recent_trade_hashes self) polls in
  (_save_trades_batch w self, log).

End TapeReadingEngine.

(** ** [src/data/excel_provider.py]: ExcelDataProvider *)

Module ExcelDataProvider.
Import Py Model.

(** The provider's attributes, and the number of clock readings so far. *)
Record t := mk_provider {
  first_run : bool;
  read_count : Z;
  processed_trades : gset string;
  last_excel_state : gmap string string;
  clock_reads : nat }.

(** [__init__] *)
Definition init : t := mk_provider true 0 ∅ ∅ 0.

Definition with_processed_trades (self : t) (s : gset string) : t :=
  mk_provider (first_run self) (read_count self) s (last_excel_state self) (clock_reads self).

Definition with_last_excel_state (self : t) (m : gmap string string) : t :=
  mk_provider (first_run self) (read_count self) (processed_trades self) m (clock_reads self).

Definition with_clock_reads (self : t) (n : nat) : t :=
  mk_provider (first_run self) (read_count self) (processed_trades self)
    (last_excel_state self) n.

(** [_create_trade_hash] *)
Definition _create_trade_hash (tr : Trade) : string :=
  Md5.md5_hexdigest
    (str_timestamp "" (timestamp tr) ++ "_" ++ symbol tr ++ "_" ++ side tr ++ "_"
       ++ str_float (price tr) ++ "_" ++ str_int (volume tr)).

(** [datetime.combine(today, t.time())] *)
Definition combine (day : date) (t : datetime) : datetime :=
  let '(y, m, d) := day in
  mk_datetime y m d (hour t) (minute t) (second t) (microsecond t).

(** [d.replace(microsecond=us)] *)
Definition replace_microsecond (d : datetime) (us : Z) : Result datetime :=
  make_datetime (year d) (month d) (day d) (hour d) (minute d) (second d) us.

(** [_parse_time_for_sorting], the clock reading [now] at hand. *)
Definition _parse_time_for_sorting (now : datetime) (timestamp_str : string) : datetime :=
  let s := strip timestamp_str in
  let parsed :=
    if len s <=? 12 then
      let day := datetime_date now in
      if contains "." s then
        let time_parts := split "." s in
        time_obj <- strptime_hms (nth 0 time_parts "") ;;
        milliseconds <- int_of_str (prefix 3 (ljust 3 "0" (nth 1 time_parts ""))) ;;
        replace_microsecond (combine day time_obj) (milliseconds * 1000)
      else
        time_obj <- strptime_hms s ;;
        Ok (combine day time_obj)
    else strptime_full (prefix 23 s) in
  match parsed with
  | Ok d => d
  | Raise _ => now
  end.

(** The key function [lambda t: self._parse_time_for_sorting(t['timestamp'])]. *)
Definition sort_key (now : datetime) (tr : Trade) : Result datetime :=
  match timestamp tr with
  | TsMissing => Raise KeyError
  | ts => Ok (_parse_time_for_sorting now (str_timestamp "" ts))
  end.

(** [sorted] first computes the key of every element, in order: the
    [n]-th reading of the clock serves the first one. *)
Fixpoint decorate (w : World) (n : nat) (l : list Trade)
    : Result (list (datetime * Trade)) :=
  match l with
  | [] => Ok []
  | tr :: rest =>
      k <- sort_key (clock w n) tr ;;
      r <- decorate w (S n) rest ;;
      Ok ((k, tr) :: r)
  end.

(** [sorted] is stable and compares keys with [<]: an element goes
    before the first one whose key is not smaller than its own. *)
Fixpoint insert_by_key (x : datetime * Trade) (l : list (datetime * Trade))
    : list (datetime * Trade) :=
  match l with
  | [] => [x]
  | y :: r =>
      if datetime_ltb (fst y) (fst x) then y :: insert_by_key x r
      else x :: l
  end.

Definition stable_sort (l : list (datetime * Trade)) : list (datetime * Trade) :=
  fold_right insert_by_key [] l.

(** [sorted(l, key=...)] with the keys it used. *)
Definition sorted_with_keys (w : World) (n : nat) (l : list Trade)
    : Result (list (datetime * Trade)) :=
  d <- decorate w n l ;;
  Ok (stable_sort d).

(** [_merge_books] *)
Definition _merge_books (wdo_book dol_book : Book) : Book :=
  mk_book (match bids dol_book with [] => bids wdo_book | l => l end)
          (match asks dol_book with [] => asks wdo_book | l => l end).

Definition row_key (symbol_key : string) (tr : Trade) : string :=
  symbol_key ++ "_" ++ str_int (match row tr with Some r => r | None => 0 end).

Definition missing_timestamp (tr : Trade) : bool :=
  match timestamp tr with TsMissing => true | _ => false end.

(** First run: the loop over the 30 oldest trades of one symbol.  The log
    line of a kept trade formats [trade['timestamp']]. *)
Fixpoint take_initial (self : t) (symbol_key : string) (sorted_trades : list Trade)
    (initial_trades : list Trade) : t * list Trade * Result unit :=
  match sorted_trades with
  | [] => (self, initial_trades, Ok tt)
  | tr :: rest =>
      let trade_hash := _create_trade_hash tr in
      if bool_decide (trade_hash ∈ processed_trades self) then
        take_initial self symbol_key rest initial_trades
      else
        let self := with_processed_trades self (processed_trades self ∪ {[ trade_hash ]}) in
        let initial_trades := (initial_trades ++ [tr])%list in
        let self := with_last_excel_state self
                      (<[ row_key symbol_key tr := trade_hash ]> (last_excel_state self)) in
        if missing_timestamp tr then (self, initial_trades, Raise KeyError)
        else take_initial self symbol_key rest initial_trades
  end.

(** Later runs: the loop over the trades one symbol shows now.  Both log
    lines format [trade['timestamp']]. *)
Fixpoint detect_new (self : t) (symbol_key : string) (current_trades : list Trade)
    (new_trades : list Trade) : t * list Trade * Result unit :=
  match current_trades with
  | [] => (self, new_trades, Ok tt)
  | tr :: rest =>
      let trade_hash := _create_trade_hash tr in
      let is_new := negb (bool_decide (trade_hash ∈ processed_trades self)) in
      let self := if is_new
                  then with_processed_trades self (processed_trades self ∪ {[ trade_hash ]})
                  else self in
      let old_hash := last_excel_state self !! row_key symbol_key tr in
      let changed := negb (bool_decide (old_hash = Some trade_hash)) in
      let self := if changed
                  then with_last_excel_state self
                         (<[ row_key symbol_key tr := trade_hash ]> (last_excel_state self))
                  else self in
      if changed && negb is_new && bool_decide (is_Some old_hash) && missing_timestamp tr
      then (self, new_trades, Raise KeyError)
      else if is_new then
        let new_trades := (new_trades ++ [tr])%list in
        if missing_timestamp tr then (self, new_trades, Raise KeyError)
        else detect_new self symbol_key rest new_trades
      else detect_new self symbol_key rest new_trades
  end.

(** [set(list(self.processed_trades)[-10000:])] once more than 20000
    hashes are held. *)
Definition prune_processed (w : World) (self : t) : t :=
  if 20000 <? Z.of_nat (size (processed_trades self))
  then with_processed_trades self
         (list_to_set (keep_last (Z.to_nat 10000) (set_order w (processed_trades self))))
  else self.

(** The first-run branch of [get_data], up to the list it sorts last. *)
Definition initial_trades_of (w : World) (self : t) (wdo_trades dol_trades : list Trade)
    : t * list Trade * Result unit :=
  let n := clock_reads self in
  match sorted_with_keys w n wdo_trades with
  | Raise e => (self, [], Raise e)
  | Ok wdo_sorted =>
      let self := with_clock_reads self (n + List.length wdo_trades) in
      let '(self, initial_trades, r) :=
        take_initial self "wdofut" (firstn 30 (map snd wdo_sorted)) [] in
      match r with
      | Raise e => (self, initial_trades, Raise e)
      | Ok _ =>
          let n := clock_reads self in
          match sorted_with_keys w n dol_trades with
          | Raise e => (self, initial_trades, Raise e)
          | Ok dol_sorted =>
              let self := with_clock_reads self (n + List.length dol_trades) in
              take_initial self "dolfut" (firstn 30 (map snd dol_sorted)) initial_trades
          end
      end
  end.

(** The other branch of [get_data], up to the list it sorts. *)
Definition new_trades_of (w : World) (self : t) (wdo_trades dol_trades : list Trade)
    : t * list Trade * Result unit :=
  let '(self, new_trades, r) := detect_new self "wdofut" wdo_trades [] in
  match r with
  | Raise e => (self, new_trades, Raise e)
  | Ok _ =>
      let '(self, new_trades, r) := detect_new self "dolfut" dol_trades new_trades in
      match r with
      | Raise e => (self, new_trades, Raise e)
      | Ok _ => (prune_processed w self, new_trades, Ok tt)
      end
  end.

(** The part of [get_data] that finds the trades to hand over: the
    provider, the trades not seen before (in the order found), and the
    exception that interrupted the search, if any. *)
Definition observe (w : World) (self : t) (wdo_trades dol_trades : list Trade)
    : t * list Trade * Result unit :=
  let self := mk_provider (first_run self) (read_count self + 1) (processed_trades self)
                (last_excel_state self) (S (clock_reads self)) in
  if first_run self
  then initial_trades_of w
         (mk_provider false (read_count self) (processed_trades self)
            (last_excel_state self) (clock_reads self))
         wdo_trades dol_trades
  else new_trades_of w self wdo_trades dol_trades.

(** [get_data], given what [_read_trades] and [_read_book] read from the
    sheet for the two symbols.  Any exception is logged and [None] is
    returned. *)
Definition get_data (w : World) (self : t) (wdo_trades dol_trades : list Trade)
    (wdo_book dol_book : Book) : t * option Data :=
  let '(self, fresh, r) := observe w self wdo_trades dol_trades in
  match r, fresh with
  | Raise _, _ => (self, None)
  | Ok _, [] => (self, None)
  | Ok _, _ :: _ =>
      let n := clock_reads self in
      let self := with_clock_reads self (n + List.length fresh) in
      match sorted_with_keys w n fresh with
      | Raise _ => (self, None)
      | Ok l => (self, Some (mk_data (map snd l) (_merge_books wdo_book dol_book)))
      end
  end.

End ExcelDataProvider.

(** ** [src/behaviors/absorption.py]: AbsorptionDetector *)

Module AbsorptionDetector.
Import Py Model.

(** The detector's configuration (defaults 1000, 0.0001 and 60). *)
Record t := mk_detector {
  volume_threshold : Z;
  price_impact_max : Q;
  time_window : Z }.

(** [isinstance(t.get('timestamp'), datetime) and
     (now - t['timestamp']).seconds < self.time_window] *)
Definition is_recent (self : t) (now : datetime) (tr : Trade) : bool :=
  match timestamp tr with
  | TsDatetime d => seconds (datetime_sub now d) <? time_window self
  | _ => false
  end.

(** [detect], [now] being its reading of the clock. *)
Definition detect (self : t) (now : datetime) (batch : list Trade) (sym : string)
    : Result (option Behavior) :=
  if Z.of_nat (List.length batch) <? 10 then Ok None
  else
    let recent_trades := List.filter (is_recent self now) batch in
    match recent_trades with
    | [] => Ok None
    | _ =>
        let total_volume := Zsum (map volume recent_trades) in
        if total_volume <? volume_threshold self then Ok None
        else
          let prices := List.filter (fun p => Qneb p 0) (map price recent_trades) in
          match Qmax_list prices, Qmin_list prices with
          | Some hi, Some lo =>
              let price_range := (hi - lo)%Q in
              let avg_price := (Qsum prices / inject_Z (Z.of_nat (List.length prices)))%Q in
              let price_impact := if Qltb 0 avg_price then (price_range / avg_price)%Q else 0%Q in
              if Qltb price_impact (price_impact_max self) then
                if volume_threshold self * 2 =? 0 then Raise ZeroDivisionError
                else
                  let confidence :=
                    Qmin2 1 (inject_Z total_volume / inject_Z (volume_threshold self * 2))%Q in
                  Ok (Some (mk_behavior ABSORPTION sym now confidence
                              (AbsorptionMeta total_volume price_impact
                                 (Z.of_nat (List.length recent_trades)) (time_window self))))
              else Ok None
          | _, _ => Ok None
          end
    end.

End AbsorptionDetector.

(** ** [tape_reading_live.py]: TapeReadingSystem.generate_signals *)

Module TapeReadingSystem.
Import Py Model.

(** The ['price'] entry of an analysis, as [PriceActionAnalyzer] fills it. *)
Record PriceAnalysis := mk_price {
  current_price : Q;
  high : Q;
  low : Q;
  average : Q;
  range : Q }.

(** An analysis that is not the empty dictionary; [flow_bias] is [None]
    when ['flow'] has no such key. *)
Record Analysis := mk_analysis {
  behaviors : list Behavior;
  flow_bias : option string;
  price_info : PriceAnalysis }.

Record Signal := mk_signal {
  sig_type : string;
  sig_reason : string;
  sig_confidence : Q;
  sig_symbol : string;
  sig_entry : Q;
  sig_stop : Q;
  sig_target : Q;
  sig_timestamp : datetime;
  sig_risk_reward : Q }.

(** A signal before its timestamp and ratio are filled in. *)
Record Draft := mk_draft {
  d_type : string;
  d_reason : string;
  d_confidence : Q;
  d_symbol : string;
  d_entry : Q;
  d_stop : Q;
  d_target : Q }.

(** [behavior.metadata.get('direction', 'NEUTRAL')] *)
Definition direction_of (m : Metadata) : string :=
  match m with
  | ExhaustionMeta _ _ _ d => d
  | AbsorptionMeta _ _ _ _ => "NEUTRAL"
  end.

(** The [signal] dictionary the body of the loop builds, if any. *)
Definition draft_signal (a : Analysis) (b : Behavior) : option Draft :=
  let p := price_info a in
  match b_type b with
  | ABSORPTION =>
      let bias := match flow_bias a with Some s => s | None => "NEUTRAL" end in
      if String.eqb bias "BULLISH" && Qltb (7 # 10) (b_confidence b) then
        Some (mk_draft "BUY" "Absorcao de venda detectada" (b_confidence b) (b_symbol b)
                (current_price p) (low p) (current_price p + range p * 2)%Q)
      else if String.eqb bias "BEARISH" && Qltb (7 # 10) (b_confidence b) then
        Some (mk_draft "SELL" "Absorcao de compra detectada" (b_confidence b) (b_symbol b)
                (current_price p) (high p) (current_price p - range p * 2)%Q)
      else None
  | EXHAUSTION =>
      let direction := direction_of (b_metadata b) in
      if String.eqb direction "BULLISH" && Qltb (75 # 100) (b_confidence b) then
        Some (mk_draft "SELL" "Exaustao de alta detectada" (b_confidence b) (b_symbol b)
                (current_price p) (high p + 2)%Q (average p))
      else if String.eqb direction "BEARISH" && Qltb (75 # 100) (b_confidence b) then
        Some (mk_draft "BUY" "Exaustao de baixa detectada" (b_confidence b) (b_symbol b)
                (current_price p) (low p - 2)%Q (average p))
      else None
  | _ => None
  end.

(** [abs(target - entry) / abs(stop - entry)]: a float division. *)
Definition risk_reward (d : Draft) : Result Q :=
  let risk := Qabs (d_stop d - d_entry d) in
  if Qeq_bool risk 0 then Raise ZeroDivisionError
  else Ok (Qabs (d_target d - d_entry d) / risk)%Q.

Definition complete (now : datetime) (d : Draft) (rr : Q) : Signal :=
  mk_signal (d_type d) (d_reason d) (d_confidence d) (d_symbol d)
    (d_entry d) (d_stop d) (d_target d) now rr.

(** The loop over the behaviours: [signals], [self.active_signals], and
    the exception that ended the loop, if any. *)
Fixpoint signal_loop (now : datetime) (a : Analysis) (bs : list Behavior)
    (signals active : list Signal) : list Signal * list Signal * Result unit :=
  match bs with
  | [] => (signals, active, Ok tt)
  | b :: rest =>
      match draft_signal a b with
      | None => signal_loop now a rest signals active
      | Some d =>
          match risk_reward d with
          | Raise e => (signals, active, Raise e)
          | Ok rr =>
              let s := complete now d rr in
              signal_loop now a rest (signals ++ [s])%list (active ++ [s])%list
          end
      end
  end.

(** [generate_signals]: the new [self.active_signals] and the returned
    list; [analysis] is [None] for the empty dictionary. *)
Definition generate_signals (active_signals : list Signal) (now : datetime)
    (analysis : option Analysis) : list Signal * Result (list Signal) :=
  match analysis with
  | None => (active_signals, Ok [])
  | Some a =>
      match signal_loop now a (behaviors a) [] active_signals with
      | (signals, active, Ok _) => (active, Ok signals)
      | (_, active, Raise e) => (active, Raise e)
      end
  end.

End TapeReadingSystem.

(** ** Notions used to state the properties *)

Module Spec.
Import Py Model.

(** A price level whose strength is its touch count capped at 10. *)
Definition level_ok (r : DatabaseManager.PriceLevelRow) : Prop :=
  DatabaseManager.pl_strength r = Z.min (DatabaseManager.pl_touch_count r) 10.

(** The same row of [price_levels], before and after a call. *)
Definition same_level (r r' : DatabaseManager.PriceLevelRow) : Prop :=
  DatabaseManager.pl_id r' = DatabaseManager.pl_id r
  /\ DatabaseManager.pl_symbol r' = DatabaseManager.pl_symbol r
  /\ DatabaseManager.pl_price r' = DatabaseManager.pl_price r
  /\ DatabaseManager.pl_level_type r' = DatabaseManager.pl_level_type r.

(** The price impact of the specification: (max price - min price) /
    average price, over the prices of the trades in the window. *)
Definition price_impact (prices : list Q) : option Q :=
  match Qmax_list prices, Qmin_list prices with
  | Some hi, Some lo =>
      Some ((hi - lo) / (Qsum prices / inject_Z (Z.of_nat (List.length prices))))%Q
  | _, _ => None
  end.

(** A trade whose ['timestamp'] is a [datetime] object. *)
Definition has_datetime (tr : Trade) : bool :=
  match timestamp tr with
  | TsDatetime _ => true
  | _ => false
  end.

(** The volume-weighted mean of the prices of a batch: the sum of
    price x volume over the total volume. *)
Definition volume_weighted_mean (batch : list Trade) : Q :=
  (Qsum (map (fun tr => price tr * inject_Z (volume tr)) batch)
   / inject_Z (Zsum (map volume batch)))%Q.



(** The snapshots stored so far. *)
Definition snapshots (e : TapeReadingEngine.t) : list DatabaseManager.BookRow :=
  DatabaseManager.book_snapshots (DatabaseManager.db (TapeReadingEngine.db_manager e)).


(** [a <= b] on sort keys: [b] is not before [a]. *)
Definition time_le (a b : datetime) : Prop := datetime_ltb b a = false.

(** [a < b] on sort keys. *)
Definition time_lt (a b : datetime) : Prop := datetime_ltb a b = true.

(** The key [sorted] computed for a trade: its timestamp parsed at some
    reading of the clock. *)
Definition key_of (w : World) (k : datetime) (tr : Trade) : Prop :=
  exists i, ExcelDataProvider.sort_key (clock w i) tr = Ok k.

(** *** The deduplicator *)

(** The identity of a trade: its hash. *)
Definition identity (tr : Trade) : string := TapeReadingEngine._generate_trade_hash tr.

(** The deduplicator seen from outside: each trade of a batch is Unique
    when its identity is not in the set, which then receives it, and
    Duplicate otherwise. *)
Fixpoint classify (seen : gset string) (batch : list Trade)
    : list (Trade * TapeReadingEngine.Classification) :=
  match batch with
  | [] => []
  | tr :: rest =>
      if bool_decide (identity tr ∈ seen)
      then (tr, TapeReadingEngine.Duplicate) :: classify seen rest
      else (tr, TapeReadingEngine.Unique) :: classify (seen ∪ {[ identity tr ]}) rest
  end.

Definition identities (batch : list Trade) : gset string :=
  list_to_set (map identity batch).

(** The set after a batch: the identities are added, and the set is
    pruned when it then holds more than [max_saved_hashes] entries. *)
Definition next_seen (w : World) (seen : gset string) (batch : list Trade) : gset string :=
  match batch with
  | [] => seen
  | _ =>
      let s := seen ∪ identities batch in
      if TapeReadingEngine.max_saved_hashes <? Z.of_nat (size s)
      then TapeReadingEngine.prune_hashes w s
      else s
  end.

Definition trades_of (poll : option Data) : list Trade :=
  match poll with
  | Some d => data_trades d
  | None => []
  end.

(** The classifications of a run, poll after poll. *)
Fixpoint run_log (w : World) (seen : gset string) (polls : list (option Data))
    : list (Trade * TapeReadingEngine.Classification) :=
  match polls with
  | [] => []
  | poll :: rest =>
      (classify seen (trades_of poll)
         ++ run_log w (next_seen w seen (trades_of poll)) rest)%list
  end.

(** Every trade submitted during a run, in order. *)
Definition submissions (polls : list (option Data)) : list Trade :=
  concat (map trades_of polls).

Definition is_class (c c' : TapeReadingEngine.Classification) : bool :=
  match c, c' with
  | TapeReadingEngine.Unique, TapeReadingEngine.Unique => true
  | TapeReadingEngine.Duplicate, TapeReadingEngine.Duplicate => true
  | _, _ => false
  end.

(** How many times the record [r] was submitted. *)
Definition times_submitted (r : Trade) (l : list Trade) : nat :=
  List.length (List.filter (fun tr => String.eqb (identity tr) (identity r)) l).

(** How many submissions of the record [r] were classified as [c]. *)
Definition times_classified (c : TapeReadingEngine.Classification) (r : Trade)
    (log : list (Trade * TapeReadingEngine.Classification)) : nat :=
  List.length
    (List.filter (fun e => String.eqb (identity (fst e)) (identity r) && is_class c (snd e))
                 log).

(** [list(s)] enumerates the elements of [s], each once. *)
Definition order_valid (w : World) : Prop :=
  forall s : gset string, set_order w s ≡ₚ elements s.

(** Idempotent deduplication as the specification states it: over the
    life of an engine started on a new database, a record submitted [N >= 1]
    times, in any order among other trades, is classified Unique once and
    Duplicate [N - 1] times. *)
Definition dedup_idempotent : Prop :=
  forall (w : World) (interval : Z) (snapshots validation : bool)
         (polls : list (option Data)) (r : Trade),
    order_valid w ->
    (1 <= times_submitted r (submissions polls))%nat ->
    let log := snd (TapeReadingEngine.start w
                      (TapeReadingEngine.init interval snapshots validation
                         (DatabaseManager.initialize DatabaseManager.empty_tables))
                      polls) in
    times_classified TapeReadingEngine.Unique r log = 1%nat
    /\ times_classified TapeReadingEngine.Duplicate r log
       = (times_submitted r (submissions polls) - 1)%nat.

End Spec.

(** ** Sample inputs *)

Module Samples.
Import Py Model.

(** [start, start + 1, ...], [n] of them. *)
Fixpoint zseq (start : Z) (n : nat) : list Z :=
  match n with
  | O => []
  | S m => start :: zseq (start + 1) m
  end.

(** A quiet environment: sets enumerate as [elements] does, storage never
    fails, and the clock stands at 09:24:30 on 2025-01-13. *)
Definition quiet : World :=
  mk_world elements (fun _ => NoFault) (2025, 1, 13)
           (fun _ => mk_datetime 2025 1 13 9 24 30 0).

(** A trade as [_read_trades] builds it from a row of the sheet. *)
Definition sheet_trade (ts sym sd : string) (p : Q) (v : Z) (r : Z) : Trade :=
  mk_trade (TsStr ts) sym sd p v true (Some (sym ++ "_" ++ ts ++ "_" ++ str_int r)) (Some r).

(** A trade with a [datetime] timestamp, as the tests build theirs. *)
Definition dated_trade (sec : Z) (p : Q) (v : Z) : Trade :=
  mk_trade (TsDatetime (mk_datetime 2025 1 13 9 24 sec 0)) "DOLFUT" "BUY" p v true None None.

(** The detector of the tests: threshold 1000, impact 0.0001, 60 seconds. *)
Definition detector : AbsorptionDetector.t :=
  AbsorptionDetector.mk_detector 1000 (1 # 10000) 60.

Definition noon : datetime := mk_datetime 2025 1 13 9 24 30 0.



(** Twelve rows of the sheet, timestamps as text. *)
Definition sheet_rows : list Trade :=
  map (fun r => sheet_trade "09:23:58.004" "WDOFUT" "BUY" (10865 # 2) (10 + r) r) (zseq 3 12).

(** Two rows of the sheet that differ in the aggressor's side only. *)
Definition bought : Trade := sheet_trade "09:23:58.004" "WDOFUT" "BUY" (10865 # 2) 10 3.
Definition sold : Trade := sheet_trade "09:23:58.004" "WDOFUT" "SELL" (10865 # 2) 10 4.

(** Two trades of the same hour: 1 lot at 5000 and 3 lots at 5002. *)
Definition small_lot : Trade := sheet_trade "09:23:58.004" "WDOFUT" "BUY" 5000 1 3.
Definition large_lot : Trade := sheet_trade "09:23:59.120" "WDOFUT" "SELL" 5002 3 4.

(** An environment in which the third call into storage fails at its
    second statement (a disk error while the second row is written). *)
Definition failing_disk : World :=
  mk_world elements (fun n => if Nat.eqb n 2 then FailAt 1 else NoFault) (2025, 1, 13)
           (fun _ => mk_datetime 2025 1 13 9 24 30 0).

(** The engine on a new database, with the defaults of the configuration. *)
Definition new_engine : TapeReadingEngine.t :=
  TapeReadingEngine.init 10 true true (DatabaseManager.initialize DatabaseManager.empty_tables).

(** One poll that brings two trades and no book. *)
Definition two_trades : list (option Data) :=
  [Some (mk_data [small_lot; large_lot] (mk_book [] []))].

(** A flat market: every price of the window is 5000. *)
Definition flat_market : TapeReadingSystem.Analysis :=
  TapeReadingSystem.mk_analysis
    [mk_behavior ABSORPTION "WDOFUT" noon (4 # 5) (AbsorptionMeta 2000 0 20 60)]
    (Some "BULLISH")
    (TapeReadingSystem.mk_price 5000 5000 5000 5000 0).

(** The example of the specification: entry 5000, stop 4998, target 5004. *)
Definition trending_market : TapeReadingSystem.Analysis :=
  TapeReadingSystem.mk_analysis
    [mk_behavior ABSORPTION "WDOFUT" noon (4 # 5) (AbsorptionMeta 2000 0 20 60)]
    (Some "BULLISH")
    (TapeReadingSystem.mk_price 5000 5000 4998 4999 2).



(** Three rows of the sheet, not in time order. *)
Definition row_a : Trade := sheet_trade "09:23:58.004" "WDOFUT" "BUY" (10865 # 2) 10 3.
Definition row_b : Trade := sheet_trade "09:23:57.900" "WDOFUT" "SELL" 5432 5 4.
Definition row_c : Trade := sheet_trade "09:23:58.120" "WDOFUT" "BUY" (10867 # 2) 20 5.
Definition sheet : list Trade := [row_a; row_b; row_c].

(** A busy morning: 20001 trades that differ in their volume, 1 to 20001,
    arriving in one poll, and the sheet showing the same rows again at the
    next poll. *)
Definition lot (v : Z) : Trade := sheet_trade "09:00:00.000" "WDOFUT" "BUY" 5000 v 3.
Definition busy_morning : list Trade := map lot (zseq 1 (Z.to_nat 20001)).
Definition shown_twice : list (option Data) :=
  [Some (mk_data busy_morning (mk_book [] [])); Some (mk_data busy_morning (mk_book [] []))].

End Samples.

(** ** A test for pairwise distinct texts *)

Module Distinct.
Import Uint63.

(** The first 15 characters of a text packed into one machine integer. *)
Definition fingerprint (s : string) : int :=
  fold_left (fun acc c => ((acc << 4) lxor Md5.byte_of_ascii c)%uint63)
            (firstn 15 (Py.chars s)) 0%uint63.

Fixpoint insert_key (k : int) (l : list int) : list int :=
  match l with
  | [] => [k]
  | x :: r => if (k <=? x)%uint63 then k :: l else x :: insert_key k r
  end.

(** Merge of two increasing lists. *)
Fixpoint merge (l1 : list int) : list int -> list int :=
  fix merge_aux (l2 : list int) : list int :=
    match l1, l2 with
    | [], _ => l2
    | _, [] => l1
    | a1 :: r1, a2 :: r2 =>
        if (a1 <=? a2)%uint63 then a1 :: merge r1 l2 else a2 :: merge_aux r2
    end.

(** One pass of a bottom-up merge sort: neighbours are merged in pairs. *)
Fixpoint merge_pairs (ls : list (list int)) : list (list int) :=
  match ls with
  | a :: b :: rest => merge a b :: merge_pairs rest
  | _ => ls
  end.

Fixpoint merge_all (fuel : nat) (ls : list (list int)) : list int :=
  match fuel, ls with
  | _, [] => []
  | _, [l] => l
  | O, l :: _ => l
  | S f, _ => merge_all f (merge_pairs ls)
  end.

Fixpoint increasing (l : list int) : bool :=
  match l with
  | x :: ((y :: _) as r) => (x <? y)%uint63 && increasing r
  | _ => true
  end.

(** [true] only if the fingerprints of the texts are pairwise distinct:
    sorted, they increase strictly, and nothing got lost in the sort. *)
Definition distinct (texts : list string) : bool :=
  let keys := map fingerprint texts in
  let sorted := merge_all 64 (map (fun k => [k]) keys) in
  Nat.eqb (List.length sorted) (List.length keys) && increasing sorted.

End Distinct.

(** ** [src/behaviors/exhaustion.py]: ExhaustionDetector *)

Module ExhaustionDetector.
Import Py Model.

(** The detector's configuration (defaults 0.7, 0.6 and 3). *)
Record t := mk_detector {
  momentum_decay_rate : Q;
  volume_decay_rate : Q;
  confirmation_bars : Z }.

(** A bar: the dictionary [_create_bars] builds for a group of trades. *)
Record Bar := mk_bar {
  bar_open : Q;
  bar_close : Q;
  bar_high : Q;
  bar_low : Q;
  bar_volume : Z;
  bar_trades : Z }.

(** [trades[i:i + n] for i in range(0, len(trades), n)]; [fuel] bounds
    the number of slices and [len(trades)] is enough of it. *)
Fixpoint slices {A} (fuel n : nat) (l : list A) : list (list A) :=
  match fuel with
  | O => []
  | S fuel' =>
      match l with
      | [] => []
      | _ => firstn n l :: slices fuel' n (skipn n l)
      end
  end.

(** [max(...)] and [min(...)] over a group that starts with [x]. *)
Definition max_from (x : Q) (r : list Q) : Q :=
  fold_left (fun m y => if Qltb m y then y else m) r x.
Definition min_from (x : Q) (r : list Q) : Q :=
  fold_left (fun m y => if Qltb y m then y else m) r x.

(** The bar of one group; an empty group gives none ([if bar_trades:]). *)
Definition bar_of (bar_trades : list Trade) : option Bar :=
  match bar_trades with
  | [] => None
  | first :: rest =>
      Some (mk_bar (price first)
                   (price (List.last bar_trades first))
                   (max_from (price first) (map price rest))
                   (min_from (price first) (map price rest))
                   (Zsum (map volume bar_trades))
                   (Z.of_nat (List.length bar_trades)))
  end.

(** [_create_bars]; [len(trades) // num_bars] raises when [num_bars] is 0. *)
Definition _create_bars (trades : list Trade) (num_bars : Z) : Result (list Bar) :=
  match trades with
  | [] => Ok []
  | _ =>
      if num_bars =? 0 then Raise ZeroDivisionError
      else
        let trades_per_bar := Z.max 1 (Z.of_nat (List.length trades) / num_bars) in
        Ok (omap bar_of (slices (List.length trades) (Z.to_nat trades_per_bar) trades))
  end.

(** [abs(x[i] - x[i-1])] for [i] from 1. *)
Fixpoint changes (closes : list Q) : list Q :=
  match closes with
  | a :: (b :: _) as rest => Qabs (b - a) :: changes rest
  | _ => []
  end.

(** The number of [i >= 1] with [x[i] < x[i-1] * rate]. *)
Fixpoint declines (rate : Q) (x : list Q) : Z :=
  match x with
  | a :: (b :: _) as rest => (if Qltb b (a * rate) then 1 else 0) + declines rate rest
  | _ => 0
  end.

(** [declining / (len(x) - 1) if len(x) > 1 else 0] *)
Definition decline_score (rate : Q) (x : list Q) : Q :=
  if 1 <? Z.of_nat (List.length x)
  then (inject_Z (declines rate x) / inject_Z (Z.of_nat (List.length x) - 1))%Q
  else 0%Q.

(** [_check_momentum_decline] *)
Definition _check_momentum_decline (self : t) (bars : list Bar) : Q :=
  if Z.of_nat (List.length bars) <? 2 then 0%Q
  else decline_score (momentum_decay_rate self) (changes (map bar_close bars)).

(** [_check_volume_decline] *)
Definition _check_volume_decline (self : t) (bars : list Bar) : Q :=
  if Z.of_nat (List.length bars) <? 2 then 0%Q
  else decline_score (volume_decay_rate self) (map (fun b => inject_Z (bar_volume b)) bars).

(** [_get_direction] *)
Definition _get_direction (bars : list Bar) : string :=
  match bars with
  | [] => "NEUTRAL"
  | first :: _ =>
      let first_close := bar_close first in
      let last_close := bar_close (List.last bars first) in
      if Qltb (first_close * (1001 # 1000)) last_close then "BULLISH"
      else if Qltb last_close (first_close * (999 # 1000)) then "BEARISH"
      else "NEUTRAL"
  end.

(** [detect], [now] being its reading of the clock. *)
Definition detect (self : t) (now : datetime) (trades : list Trade) (sym : string)
    : Result (option Behavior) :=
  if Z.of_nat (List.length trades) <? confirmation_bars self * 10 then Ok None
  else
    bars <- _create_bars trades (confirmation_bars self + 2) ;;
    if Z.of_nat (List.length bars) <? confirmation_bars self then Ok None
    else
      let momentum_declining := _check_momentum_decline self bars in
      let volume_declining := _check_volume_decline self bars in
      if Qneb momentum_declining 0 && Qneb volume_declining 0 then
        let confidence := ((momentum_declining + volume_declining) / 2)%Q in
        Ok (Some (mk_behavior EXHAUSTION sym now confidence
                    (ExhaustionMeta momentum_declining volume_declining
                       (Z.of_nat (List.length bars)) (_get_direction bars))))
      else Ok None.

End ExhaustionDetector.

(** ** [src/behaviors/manager.py]: BehaviorManager *)

Module BehaviorManager.
Import Py Model.

(** The manager's attributes ([None] for a detector that the
    configuration disables), and the number of clock readings so far. *)
Record t := mk_manager {
  absorption_detector : option AbsorptionDetector.t;
  exhaustion_detector : option ExhaustionDetector.t;
  active_behaviors : list Behavior;
  clock_reads : nat }.

Definition with_active_behaviors (self : t) (l : list Behavior) : t :=
  mk_manager (absorption_detector self) (exhaustion_detector self) l (clock_reads self).

Definition with_clock_reads (self : t) (n : nat) : t :=
  mk_manager (absorption_detector self) (exhaustion_detector self) (active_behaviors self) n.

(** [[b] if b else []] *)
Definition found (b : option Behavior) : list Behavior :=
  match b with
  | Some x => [x]
  | None => []
  end.

(** [_detect_for_symbol].  The absorption detector reads the clock once
    it holds 10 trades, the exhaustion detector when it builds its
    report. *)
Definition _detect_for_symbol (w : World) (self : t) (trades : list Trade) (sym : string)
    : t * Result (list Behavior) :=
  let n := clock_reads self in
  let '(n1, absorption) :=
    match absorption_detector self with
    | Some detector =>
        if 10 <=? Z.of_nat (List.length trades)
        then (S n, AbsorptionDetector.detect detector (clock w n) trades sym)
        else (n, Ok None)
    | None => (n, Ok None)
    end in
  match absorption with
  | Raise e => (with_clock_reads self n1, Raise e)
  | Ok absorption =>
      let '(n2, exhaustion) :=
        match exhaustion_detector self with
        | Some detector =>
            if 30 <=? Z.of_nat (List.length trades)
            then
              let r := ExhaustionDetector.detect detector (clock w n1) trades sym in
              (match r with Ok (Some _) => S n1 | _ => n1 end, r)
            else (n1, Ok None)
        | None => (n1, Ok None)
        end in
      match exhaustion with
      | Raise e => (with_clock_reads self n2, Raise e)
      | Ok exhaustion =>
          (with_clock_reads self n2, Ok (found absorption ++ found exhaustion)%list)
      end
  end.

(** [(now - b.timestamp).seconds < 300] *)
Definition still_active (now : datetime) (b : Behavior) : bool :=
  seconds (datetime_sub now (b_timestamp b)) <? 300.

(** [_update_active_behaviors] *)
Definition _update_active_behaviors (w : World) (self : t) (new_behaviors : list Behavior)
    : t :=
  let now := clock w (clock_reads self) in
  let self := with_clock_reads self (S (clock_reads self)) in
  let active := (List.filter (still_active now) (active_behaviors self)
                   ++ new_behaviors)%list in
  with_active_behaviors self
    (if 50 <? Z.of_nat (List.length active) then keep_last 50 active else active).

(** [detect]; [data] is [None] for a poll that brought nothing. *)
Definition detect (w : World) (self : t) (data : option Data) : t * Result (list Behavior) :=
  match data with
  | None => (self, Ok [])
  | Some d =>
      match data_trades d with
      | [] => (self, Ok [])
      | trades =>
          let wdo_trades := List.filter (fun t => String.eqb (symbol t) "WDOFUT") trades in
          let dol_trades := List.filter (fun t => String.eqb (symbol t) "DOLFUT") trades in
          let '(self, wdo) :=
            match wdo_trades with
            | [] => (self, Ok [])
            | _ => _detect_for_symbol w self wdo_trades "WDOFUT"
            end in
          match wdo with
          | Raise e => (self, Raise e)
          | Ok wdo_behaviors =>
              let '(self, dol) :=
                match dol_trades with
                | [] => (self, Ok [])
                | _ => _detect_for_symbol w self dol_trades "DOLFUT"
                end in
              match dol with
              | Raise e => (self, Raise e)
              | Ok dol_behaviors =>
                  let behaviors_detected := (wdo_behaviors ++ dol_behaviors)%list in
                  (_update_active_behaviors w self behaviors_detected,
                   Ok behaviors_detected)
              end
          end
      end
  end.

(** [get_active_behaviors] *)
Definition get_active_behaviors (self : t) : list Behavior := active_behaviors self.

End BehaviorManager.

(** ** [src/analysis/analyzers.py]: the analyzers *)

(** [h[-n:]] keeps the last [n] entries and [h[-2n:-n]] the [n] before
    them (the history holding at least [2n]). *)
Module History.

Definition recent {A} (n : nat) (h : list A) : list A := Py.keep_last n h.

Definition older {A} (n : nat) (h : list A) : list A := firstn n (Py.keep_last (2 * n) h).

(** [h.append(x)], then [h = h[-100:]] when [h] holds more than 100. *)
Definition record {A} (h : list A) (x : A) : list A :=
  let h := (h ++ [x])%list in
  if 100 <? Z.of_nat (List.length h) then Py.keep_last 100 h else h.

End History.

Module VolumeAnalyzer.
Import Py Model.

Record Entry := mk_entry {
  e_timestamp : datetime;
  e_total : Z;
  e_average : Q;
  e_count : Z }.

Record t := mk_analyzer { volume_history : list Entry }.

(** The dictionary [analyze] returns when it is not empty. *)
Record Analysis := mk_analysis {
  current_volume : Z;
  average_volume : Q;
  trade_count : Z;
  volume_trend : string }.

(** [_calculate_trend] *)
Definition _calculate_trend (self : t) : string :=
  let h := volume_history self in
  if Z.of_nat (List.length h) <? 10 then "NEUTRAL"
  else
    let recent := Zsum (map e_total (History.recent 5 h)) in
    let older := Zsum (map e_total (History.older 5 h)) in
    if Qltb (inject_Z older * (12 # 10)) (inject_Z recent) then "INCREASING"
    else if Qltb (inject_Z recent) (inject_Z older * (8 # 10)) then "DECREASING"
    else "NEUTRAL".

(** [analyze], [now] being its reading of the clock. *)
Definition analyze (self : t) (now : datetime) (trades : list Trade) : t * option Analysis :=
  match trades with
  | [] => (self, None)
  | _ =>
      let total_volume := Zsum (map volume trades) in
      let n := Z.of_nat (List.length trades) in
      let avg_volume := (inject_Z total_volume / inject_Z n)%Q in
      let self := mk_analyzer (History.record (volume_history self)
                                 (mk_entry now total_volume avg_volume n)) in
      (self, Some (mk_analysis total_volume avg_volume n (_calculate_trend self)))
  end.

End VolumeAnalyzer.

Module PriceActionAnalyzer.
Import Py Model.

Record Entry := mk_entry {
  e_timestamp : datetime;
  e_price : Q;
  e_high : Q;
  e_low : Q;
  e_average : Q }.

Record t := mk_analyzer { price_history : list Entry }.

(** The dictionary [analyze] returns when it is not empty.  The
    volatility is [sqrt(variance) / mean * 100]: the square root is not
    represented, the variance and the mean it is computed from are. *)
Record Analysis := mk_analysis {
  info : TapeReadingSystem.PriceAnalysis;
  price_trend : string;
  volatility_terms : option (Q * Q) }.

(** [_calculate_trend]; the division by [older_avg] raises when it is 0. *)
Definition _calculate_trend (self : t) : Result string :=
  let h := price_history self in
  if Z.of_nat (List.length h) <? 10 then Ok "NEUTRAL"
  else
    let recent_avg := (Qsum (map e_price (History.recent 5 h)) / 5)%Q in
    let older_avg := (Qsum (map e_price (History.older 5 h)) / 5)%Q in
    if Qeq_bool older_avg 0 then Raise ZeroDivisionError
    else
      let diff_percent := ((recent_avg - older_avg) / older_avg * 100)%Q in
      if Qltb (1 # 10) diff_percent then Ok "BULLISH"
      else if Qltb diff_percent (- (1 # 10)) then Ok "BEARISH"
      else Ok "NEUTRAL".

(** [_calculate_volatility]: [None] stands for the [0.0] of a short
    history; the division by the mean raises when it is 0. *)
Definition _calculate_volatility (self : t) : Result (option (Q * Q)) :=
  let h := price_history self in
  if Z.of_nat (List.length h) <? 5 then Ok None
  else
    let recent_prices := map e_price (History.recent 5 h) in
    let n := inject_Z (Z.of_nat (List.length recent_prices)) in
    let avg := (Qsum recent_prices / n)%Q in
    let variance := (Qsum (map (fun p => (p - avg) * (p - avg)) recent_prices) / n)%Q in
    if Qeq_bool avg 0 then Raise ZeroDivisionError
    else Ok (Some (variance, avg)).

(** [analyze], [now] being its reading of the clock.  The history has
    its new entry also when the trend or the volatility raises. *)
Definition analyze (self : t) (now : datetime) (trades : list Trade)
    : t * Result (option Analysis) :=
  let prices := map price trades in
  match prices, Qmax_list prices, Qmin_list prices with
  | first :: _, Some high_price, Some low_price =>
      let current_price := List.last prices first in
      let avg_price := (Qsum prices / inject_Z (Z.of_nat (List.length prices)))%Q in
      let self := mk_analyzer (History.record (price_history self)
                                 (mk_entry now current_price high_price low_price avg_price)) in
      (self,
       trend <- _calculate_trend self ;;
       volatility <- _calculate_volatility self ;;
       Ok (Some (mk_analysis
                   (TapeReadingSystem.mk_price current_price high_price low_price avg_price
                      (high_price - low_price)%Q)
                   trend volatility)))
  | _, _, _ => (self, Ok None)
  end.

End PriceActionAnalyzer.

Module OrderFlowAnalyzer.
Import Py Model.

Record Entry := mk_entry {
  e_timestamp : datetime;
  e_buy_volume : Z;
  e_sell_volume : Z;
  e_delta : Z;
  e_delta_percent : Q }.

Record t := mk_analyzer { flow_history : list Entry }.

(** The dictionary [analyze] returns when it is not empty. *)
Record Analysis := mk_analysis {
  buy_volume : Z;
  sell_volume : Z;
  total_volume : Z;
  buy_ratio : Q;
  sell_ratio : Q;
  volume_delta : Z;
  delta_percent : Q;
  flow_bias : string;
  buy_aggression : Q;
  sell_aggression : Q }.

(** [sum(t.get('volume', 0) for t in trades if t.get('side') == sd)] *)
Definition side_volume (sd : string) (trades : list Trade) : Z :=
  Zsum (map volume (List.filter (fun t => String.eqb (side t) sd) trades)).

(** [_calculate_bias] *)
Definition _calculate_bias (self : t) : string :=
  let h := flow_history self in
  if Z.of_nat (List.length h) <? 5 then "NEUTRAL"
  else
    let recent_delta := Zsum (map e_delta (History.recent 5 h)) in
    if 0 <? recent_delta then "BULLISH"
    else if recent_delta <? 0 then "BEARISH"
    else "NEUTRAL".

(** The number of trades of a side that its aggressor made. *)
Definition aggressive (sd : string) (trades : list Trade) : Z :=
  Z.of_nat (List.length
              (List.filter (fun t => String.eqb (side t) sd && aggressor t) trades)).

(** [analyze], [now] being its reading of the clock when it makes one. *)
Definition analyze (self : t) (now : datetime) (trades : list Trade) : t * option Analysis :=
  match trades with
  | [] => (self, None)
  | _ =>
      let buy := side_volume "BUY" trades in
      let sell := side_volume "SELL" trades in
      let total := buy + sell in
      if total =? 0 then (self, None)
      else
        let delta := buy - sell in
        let percent := if 0 <? total then (inject_Z delta / inject_Z total * 100)%Q else 0%Q in
        let self := mk_analyzer (History.record (flow_history self)
                                   (mk_entry now buy sell delta percent)) in
        let n := inject_Z (Z.of_nat (List.length trades)) in
        (self,
         Some (mk_analysis buy sell total
                 (inject_Z buy / inject_Z total)%Q (inject_Z sell / inject_Z total)%Q
                 delta percent (_calculate_bias self)
                 (inject_Z (aggressive "BUY" trades) / n)%Q
                 (inject_Z (aggressive "SELL" trades) / n)%Q))
  end.

End OrderFlowAnalyzer.

(** ** [tape_reading_live.py]: TapeReadingSystem.analyze_market *)

Module MarketAnalyzer.
Import Py Model.

(** An entry of [behavior_alerts]. *)
Record Alert := mk_alert {
  a_time : datetime;
  a_type : string;
  a_symbol : string;
  a_confidence : Q;
  a_details : Metadata }.

(** [self.stats] *)
Record Counters := mk_counters {
  behaviors_detected : Z;
  absorption_count : Z;
  exhaustion_count : Z;
  trades_analyzed : Z }.

(** The attributes of the system that [analyze_market] uses, and the
    number of clock readings so far. *)
Record t := mk_system {
  volume_analyzer : VolumeAnalyzer.t;
  price_analyzer : PriceActionAnalyzer.t;
  flow_analyzer : OrderFlowAnalyzer.t;
  absorption_detector : AbsorptionDetector.t;
  exhaustion_detector : ExhaustionDetector.t;
  behavior_alerts : list Alert;
  stats : Counters;
  clock_reads : nat }.

(** [__init__]: the detectors get 500, 0.0002 and 60, and 0.7, 0.6 and 3. *)
Definition init : t :=
  mk_system (VolumeAnalyzer.mk_analyzer []) (PriceActionAnalyzer.mk_analyzer [])
    (OrderFlowAnalyzer.mk_analyzer [])
    (AbsorptionDetector.mk_detector 500 (2 # 10000) 60)
    (ExhaustionDetector.mk_detector (7 # 10) (6 # 10) 3)
    [] (mk_counters 0 0 0 0) 0.

(** The dictionary [analyze_market] returns when it is not empty; an
    analyzer's entry is [None] when it returned its empty dictionary. *)
Record Analysis := mk_analysis {
  volume : option VolumeAnalyzer.Analysis;
  price : option PriceActionAnalyzer.Analysis;
  flow : option OrderFlowAnalyzer.Analysis;
  behaviors : list Behavior;
  alerts : list Alert }.

(** [deque(maxlen=20).append] *)
Definition push_alert (l : list Alert) (a : Alert) : list Alert :=
  keep_last 20 (l ++ [a]).

(** The part of [analyze_market] that follows the three analyzers: the
    detectors, the alerts and the counters, from the [n]-th reading of
    the clock on. *)
Definition detect_behaviors (w : World) (self : t) (n : nat) (trades : list Trade)
    (sym : string) : t * Result (list Behavior) :=
  let with_alerts (self : t) (l : list Alert) (c : Counters) (n : nat) : t :=
    mk_system (volume_analyzer self) (price_analyzer self) (flow_analyzer self)
      (absorption_detector self) (exhaustion_detector self) l c n in
  let n1 := if Z.of_nat (List.length trades) <? 10 then n else S n in
  match AbsorptionDetector.detect (absorption_detector self) (clock w n) trades sym with
  | Raise e => (with_alerts self (behavior_alerts self) (stats self) n1, Raise e)
  | Ok absorption =>
      let self :=
        match absorption with
        | Some b =>
            with_alerts self
              (push_alert (behavior_alerts self)
                 (mk_alert (clock w n1) "ABSORPTION" sym (b_confidence b) (b_metadata b)))
              (mk_counters (behaviors_detected (stats self))
                 (absorption_count (stats self) + 1) (exhaustion_count (stats self))
                 (trades_analyzed (stats self)))
              (S n1)
        | None => with_alerts self (behavior_alerts self) (stats self) n1
        end in
      let n2 := clock_reads self in
      match ExhaustionDetector.detect (exhaustion_detector self) (clock w n2) trades sym with
      | Raise e => (self, Raise e)
      | Ok exhaustion =>
          let self :=
            match exhaustion with
            | Some b =>
                with_alerts self
                  (push_alert (behavior_alerts self)
                     (mk_alert (clock w (S n2)) "EXHAUSTION" sym (b_confidence b)
                        (b_metadata b)))
                  (mk_counters (behaviors_detected (stats self))
                     (absorption_count (stats self)) (exhaustion_count (stats self) + 1)
                     (trades_analyzed (stats self)))
                  (S (S n2))
            | None => self
            end in
          let behaviors :=
            (match absorption with Some b => [b] | None => [] end
               ++ match exhaustion with Some b => [b] | None => [] end)%list in
          (with_alerts self (behavior_alerts self)
             (mk_counters (Z.of_nat (List.length behaviors))
                (absorption_count (stats self)) (exhaustion_count (stats self))
                (trades_analyzed (stats self)))
             (clock_reads self),
           Ok behaviors)
      end
  end.

(** [analyze_market] *)
Definition analyze_market (w : World) (self : t) (trades : list Trade) (sym : string)
    : t * Result (option Analysis) :=
  match trades with
  | [] => (self, Ok None)
  | _ =>
      let n := clock_reads self in
      let '(va, volume_analysis) :=
        VolumeAnalyzer.analyze (volume_analyzer self) (clock w n) trades in
      let '(pa, price_result) :=
        PriceActionAnalyzer.analyze (price_analyzer self) (clock w (S n)) trades in
      let self := mk_system va pa (flow_analyzer self) (absorption_detector self)
                    (exhaustion_detector self) (behavior_alerts self) (stats self)
                    (S (S n)) in
      match price_result with
      | Raise e => (self, Raise e)
      | Ok price_analysis =>
          let '(fa, flow_analysis) :=
            OrderFlowAnalyzer.analyze (flow_analyzer self) (clock w (S (S n))) trades in
          let n3 := match flow_analysis with Some _ => S (S (S n)) | None => S (S n) end in
          let self := mk_system va pa fa (absorption_detector self)
                        (exhaustion_detector self) (behavior_alerts self) (stats self) n3 in
          match detect_behaviors w self n3 trades sym with
          | (self, Raise e) => (self, Raise e)
          | (self, Ok behaviors) =>
              (self,
               Ok (Some (mk_analysis volume_analysis price_analysis flow_analysis behaviors
                           (keep_last 5 (behavior_alerts self)))))
          end
      end
  end.

End MarketAnalyzer.

(** ** [src/data/database.py]: DatabaseManager.get_support_resistance_levels *)

Module LevelsQuery.
Import Py Model DatabaseManager.

(** An entry of the lists returned ([first_seen] and [last_seen], which
    the table of the model leaves out, are left out here too). *)
Record LevelData := mk_level_data {
  ld_price : Q;
  ld_strength : Z;
  ld_touches : Z;
  ld_volume : Z }.

(** The dictionary returned: its keys are 'support', 'resistance' and
    'pivot'. *)
Record Levels := mk_levels {
  support : list LevelData;
  resistance : list LevelData;
  pivot : list LevelData }.

(** [ORDER BY strength DESC, volume_traded DESC]: [a] comes before [b]. *)
Definition ranks_before (a b : PriceLevelRow) : bool :=
  (pl_strength b <? pl_strength a)
  || ((pl_strength b =? pl_strength a) && (pl_volume_traded b <? pl_volume_traded a)).

(** The rows in that order; rows that tie keep the order of their ids
    (SQLite leaves the order of ties open). *)
Fixpoint insert_ranked (x : PriceLevelRow) (l : list PriceLevelRow) : list PriceLevelRow :=
  match l with
  | [] => [x]
  | y :: r => if ranks_before x y then x :: l else y :: insert_ranked x r
  end.

Definition order_by_rank (l : list PriceLevelRow) : list PriceLevelRow :=
  fold_right insert_ranked [] l.

(** [c.lower()] on an ASCII letter. *)
Definition lower_char (c : ascii) : ascii :=
  let n := nat_of_ascii c in
  if (65 <=? n)%nat && (n <=? 90)%nat then ascii_of_nat (n + 32) else c.

(** [s.lower()]: the ASCII letters are lowered; a string with other
    letters is none of the three keys, before or after. *)
Fixpoint lower (s : string) : string :=
  match s with
  | EmptyString => EmptyString
  | String c r => String (lower_char c) (lower r)
  end.

Definition level_data (r : PriceLevelRow) : LevelData :=
  mk_level_data (pl_price r) (pl_strength r) (pl_touch_count r) (pl_volume_traded r).

(** The body of the loop over the rows fetched. *)
Definition add_level (levels : Levels) (r : PriceLevelRow) : Levels :=
  let level_type := lower (pl_level_type r) in
  if String.eqb level_type "support" then
    mk_levels (support levels ++ [level_data r]) (resistance levels) (pivot levels)
  else if String.eqb level_type "resistance" then
    mk_levels (support levels) (resistance levels ++ [level_data r]) (pivot levels)
  else if String.eqb level_type "pivot" then
    mk_levels (support levels) (resistance levels) (pivot levels ++ [level_data r])
  else levels.

(** [WHERE symbol = ? AND strength >= ?] *)
Definition selected (sym : string) (min_strength : Z) (r : PriceLevelRow) : bool :=
  String.eqb (pl_symbol r) sym && (min_strength <=? pl_strength r).

(** [get_support_resistance_levels]; there is no handler, so that a closed
    connection or a failing statement raises. *)
Definition get_support_resistance_levels (w : World) (self : t) (sym : string)
    (min_strength : Z) : t * Result Levels :=
  let f := io_fault w (io_calls self) in
  let self := tick self in
  (self,
   _ <- connection self ;;
   _ <- stmt f 0 ;;
   let rows := order_by_rank (List.filter (selected sym min_strength)
                                (price_levels (db self))) in
   Ok (fold_left add_level rows (mk_levels [] [] []))).

End LevelsQuery.

(** ** Sample tapes *)

Module Tapes.
Import Py Model.

(** The exhaustion detector with its defaults: 0.7, 0.6 and 3 bars. *)
Definition exhaustion_detector : ExhaustionDetector.t :=
  ExhaustionDetector.mk_detector (7 # 10) (6 # 10) 3.

(** Six trades at one price, one a second from [sec] on. *)
Definition run_at (sec : Z) (p : Q) (v : Z) : list Trade :=
  map (fun s => Samples.dated_trade s p v) (Samples.zseq sec 6).

(** Thirty trades of a rise that fades: five groups of six, closing at
    5000, 5010, 5014, 5015 and 5015.2, with 600, 300, 150, 60 and 30 lots. *)
Definition fading : list Trade :=
  (run_at 0 5000 100 ++ run_at 6 5010 50 ++ run_at 12 5014 25
     ++ run_at 18 5015 10 ++ run_at 24 (25076 # 5) 5)%list.

(** Thirty trades at 5000, 100 lots each. *)
Definition flat : list Trade :=
  map (fun s => Samples.dated_trade s 5000 100) (Samples.zseq 0 30).

(** The fading rise as the sheet shows it: the same prices and lots,
    with timestamps as text. *)
Definition sheet_run (ts : string) (p : Q) (v : Z) : list Trade :=
  map (fun r => Samples.sheet_trade ts "WDOFUT" "BUY" p v r) (Samples.zseq 3 6).

Definition sheet_fading : list Trade :=
  (sheet_run "09:24:00.000" 5000 100 ++ sheet_run "09:24:06.000" 5010 50
     ++ sheet_run "09:24:12.000" 5014 25 ++ sheet_run "09:24:18.000" 5015 10
     ++ sheet_run "09:24:24.000" (25076 # 5) 5)%list.

(** The analysis that a call of [analyze_market] returned (the empty one
    if it returned none). *)
Definition returned (r : MarketAnalyzer.t * Result (option MarketAnalyzer.Analysis))
    : MarketAnalyzer.Analysis :=
  match snd r with
  | Ok (Some m) => m
  | _ => MarketAnalyzer.mk_analysis None None None [] []
  end.

(** The first analysis of a new system, on the sheet's tape and on the
    dated one. *)
Definition sheet_analysis : MarketAnalyzer.Analysis :=
  returned (MarketAnalyzer.analyze_market Samples.quiet MarketAnalyzer.init
              sheet_fading "WDOFUT").

Definition dated_analysis : MarketAnalyzer.Analysis :=
  returned (MarketAnalyzer.analyze_market Samples.quiet MarketAnalyzer.init
              fading "DOLFUT").

(** The price analysis of the fading rise by a new analyzer. *)
Definition fading_prices : PriceActionAnalyzer.Analysis :=
  match snd (PriceActionAnalyzer.analyze (PriceActionAnalyzer.mk_analyzer [])
               Samples.noon fading) with
  | Ok (Some a) => a
  | _ => PriceActionAnalyzer.mk_analysis (TapeReadingSystem.mk_price 0 0 0 0 0) "" None
  end.

(** Calls that touch three levels of a symbol: one four times, one three
    times and one once. *)
Definition level_calls : list DatabaseManager.Op :=
  [DatabaseManager.UpdatePriceLevels "DOLFUT" 5000 10 (Some "SUPPORT");
   DatabaseManager.UpdatePriceLevels "DOLFUT" 5000 20 (Some "SUPPORT");
   DatabaseManager.UpdatePriceLevels "DOLFUT" 5010 5 (Some "RESISTANCE");
   DatabaseManager.UpdatePriceLevels "DOLFUT" 5000 30 (Some "SUPPORT");
   DatabaseManager.UpdatePriceLevels "DOLFUT" 4990 15 (Some "SUPPORT");
   DatabaseManager.UpdatePriceLevels "DOLFUT" 4990 15 (Some "SUPPORT");
   DatabaseManager.UpdatePriceLevels "DOLFUT" 5000 40 (Some "SUPPORT");
   DatabaseManager.UpdatePriceLevels "DOLFUT" 4990 15 (Some "SUPPORT")].

End Tapes.


(** ** Further notions used to state properties *)

Module Notions.
Import Py Model.

(** The bucket of a row of [market_stats]: its symbol, date and hour. *)
Definition bucket (r : DatabaseManager.StatsRow) : DatabaseManager.StatKey :=
  (DatabaseManager.ms_symbol r, DatabaseManager.ms_date r, DatabaseManager.ms_hour r).

(** A row whose totals are the sums of its buy and sell figures. *)
Definition balanced (r : DatabaseManager.StatsRow) : Prop :=
  DatabaseManager.ms_total_trades r
  = DatabaseManager.ms_buy_trades r + DatabaseManager.ms_sell_trades r
  /\ DatabaseManager.ms_total_volume r
     = DatabaseManager.ms_buy_volume r + DatabaseManager.ms_sell_volume r.

(** A trade that [update_market_stats] files under the bucket [k] on the
    day [day]. *)
Definition in_bucket (day : date) (k : DatabaseManager.StatKey) (tr : Trade) : bool :=
  match DatabaseManager.trade_hour (timestamp tr) with
  | Ok h => DatabaseManager.key_eqb (symbol tr, day, h) k
  | Raise _ => false
  end.

(** An entry of the grouping whose totals are the sums of its buy and
    sell figures. *)
Definition stat_balanced (st : DatabaseManager.Stat) : Prop :=
  DatabaseManager.st_trades st
  = DatabaseManager.st_buy_trades st + DatabaseManager.st_sell_trades st
  /\ DatabaseManager.st_volume st
     = DatabaseManager.st_buy_volume st + DatabaseManager.st_sell_volume st.

(** The grouping so far: one entry per key, each counting the trades of
    its bucket among those grouped; a key without entry has none. *)
Definition grouped (day : date) (acc : list (DatabaseManager.StatKey * DatabaseManager.Stat)) (done : list Trade) : Prop :=
  NoDup (map fst acc)
  /\ (forall k st, In (k, st) acc ->
        DatabaseManager.st_trades st = Z.of_nat (List.length (List.filter (in_bucket day k) done)))
  /\ (forall k, ~ In k (map fst acc) -> List.filter (in_bucket day k) done = []).

(** The trades a pass adds to the list are new to the provider and
    pairwise distinct, and their hashes are what the pass adds to the set. *)
Definition adds (self self' : ExcelDataProvider.t) (before after : list Trade) : Prop :=
  exists added,
    after = (before ++ added)%list
    /\ NoDup (map ExcelDataProvider._create_trade_hash added)
    /\ (forall tr, In tr added -> ExcelDataProvider._create_trade_hash tr ∉ ExcelDataProvider.processed_trades self)
    /\ ExcelDataProvider.processed_trades self' = ExcelDataProvider.processed_trades self ∪ list_to_set (map ExcelDataProvider._create_trade_hash added).

(** A bar that holds at least one trade and whose open and close lie
    between its low and its high. *)
Definition well_formed (b : ExhaustionDetector.Bar) : Prop :=
  1 <= ExhaustionDetector.bar_trades b
  /\ (ExhaustionDetector.bar_low b <= ExhaustionDetector.bar_open b)%Q
  /\ (ExhaustionDetector.bar_open b <= ExhaustionDetector.bar_high b)%Q
  /\ (ExhaustionDetector.bar_low b <= ExhaustionDetector.bar_close b)%Q
  /\ (ExhaustionDetector.bar_close b <= ExhaustionDetector.bar_high b)%Q.

(** The counters of an engine account for its buffer: the trades saved
    and those still buffered are among the trades processed. *)
Definition accounted (e : TapeReadingEngine.t) : Prop :=
  TapeReadingEngine.trades_saved (TapeReadingEngine.stats e)
    + Z.of_nat (List.length (TapeReadingEngine.trade_buffer e))
  <= TapeReadingEngine.trades_processed (TapeReadingEngine.stats e).

(** The trades that a log classifies as Unique, in order. *)
Definition uniques (log : list (Trade * TapeReadingEngine.Classification)) : list Trade :=
  map fst (List.filter (fun e => Spec.is_class TapeReadingEngine.Unique (snd e)) log).

(** A trade that the table of trades accepts. *)
Definition storable (tr : Trade) : Prop :=
  exists row, DatabaseManager.trade_row tr = Ok row.

(** The engine [e], whose run has the log [log] so far, on a database
    that held the trades [before]: the connection is usable, and the
    trades classified Unique so far are those stored since, in order,
    followed by those still buffered. *)
Definition stores_uniques (before : list DatabaseManager.TradeRow)
    (e : TapeReadingEngine.t) (log : list (Trade * TapeReadingEngine.Classification)) : Prop :=
  DatabaseManager.conn_open (TapeReadingEngine.db_manager e) = true
  /\ Forall storable (TapeReadingEngine.trade_buffer e)
  /\ exists stored rows,
       uniques log = (stored ++ TapeReadingEngine.trade_buffer e)%list
       /\ Forall2 (fun tr row => DatabaseManager.trade_row tr = Ok row) stored rows
       /\ DatabaseManager.trades (DatabaseManager.db (TapeReadingEngine.db_manager e))
          = (before ++ rows)%list.

(** [[b] if b else []] *)
Definition listed (b : option Behavior) : list Behavior :=
  match b with
  | Some x => [x]
  | None => []
  end.

(** What [generate_signals] reads of the dictionary that [analyze_market]
    returned: the behaviours, [analysis['flow'].get('flow_bias')] and the
    entries of [analysis['price']]. *)
Definition read_by_signals (m : MarketAnalyzer.Analysis) (p : PriceActionAnalyzer.Analysis)
    : TapeReadingSystem.Analysis :=
  TapeReadingSystem.mk_analysis (MarketAnalyzer.behaviors m)
    (option_map OrderFlowAnalyzer.flow_bias (MarketAnalyzer.flow m))
    (PriceActionAnalyzer.info p).

(** A price analysis whose current price lies between its low and its
    high. *)
Definition within_range (p : TapeReadingSystem.PriceAnalysis) : Prop :=
  (TapeReadingSystem.low p <= TapeReadingSystem.current_price p)%Q
  /\ (TapeReadingSystem.current_price p <= TapeReadingSystem.high p)%Q.

(** The distance from the entry of a signal to its stop. *)
Definition risk (s : TapeReadingSystem.Signal) : Q :=
  Qabs (TapeReadingSystem.sig_stop s - TapeReadingSystem.sig_entry s).

(** A signal drawn from an exhaustion. *)
Definition from_exhaustion (s : TapeReadingSystem.Signal) : Prop :=
  TapeReadingSystem.sig_reason s = "Exaustao de alta detectada"
  \/ TapeReadingSystem.sig_reason s = "Exaustao de baixa detectada".

(** The histories hold at most 100 entries and the alerts at most 20. *)
Definition bounded (s : MarketAnalyzer.t) : Prop :=
  (List.length (VolumeAnalyzer.volume_history (MarketAnalyzer.volume_analyzer s)) <= 100)%nat
  /\ (List.length (PriceActionAnalyzer.price_history (MarketAnalyzer.price_analyzer s)) <= 100)%nat
  /\ (List.length (OrderFlowAnalyzer.flow_history (MarketAnalyzer.flow_analyzer s)) <= 100)%nat
  /\ (List.length (MarketAnalyzer.behavior_alerts s) <= 20)%nat.

(** The system after a sequence of calls of [analyze_market], each with
    its trades and its symbol. *)
Definition after_calls (w : World) (calls : list (list Trade * string)) : MarketAnalyzer.t :=
  fold_left (fun s c => fst (MarketAnalyzer.analyze_market w s (fst c) (snd c)))
            calls MarketAnalyzer.init.

(** A draft that cannot make the ratio raise: its stop is at least two
    points from its entry, as the drafts of an exhaustion are. *)
Definition safe_draft (d : TapeReadingSystem.Draft) : Prop :=
  (2 <= Qabs (TapeReadingSystem.d_stop d - TapeReadingSystem.d_entry d))%Q
  /\ (TapeReadingSystem.d_reason d = "Exaustao de alta detectada"
      \/ TapeReadingSystem.d_reason d = "Exaustao de baixa detectada").

(** [a] is listed before [b] by [ORDER BY strength DESC, volume_traded
    DESC]: it is stronger, or as strong with at least the volume. *)
Definition ranked (a b : LevelsQuery.LevelData) : Prop :=
  LevelsQuery.ld_strength b < LevelsQuery.ld_strength a
  \/ (LevelsQuery.ld_strength b = LevelsQuery.ld_strength a
      /\ LevelsQuery.ld_volume b <= LevelsQuery.ld_volume a).

(** The entries [out] are those of the stored rows of the symbol with at
    least the strength asked for whose type, in lower case, is [key]. *)
Definition entries_of (key sym : string) (min_strength : Z)
    (stored : list DatabaseManager.PriceLevelRow) (out : list LevelsQuery.LevelData) : Prop :=
  forall d, In d out <->
    exists r, In r stored /\ DatabaseManager.pl_symbol r = sym
              /\ min_strength <= DatabaseManager.pl_strength r
              /\ LevelsQuery.lower (DatabaseManager.pl_level_type r) = key
              /\ d = LevelsQuery.level_data r.

(** The same order on the rows. *)
Definition row_ranked (a b : DatabaseManager.PriceLevelRow) : Prop :=
  ranked (LevelsQuery.level_data a) (LevelsQuery.level_data b).

(** The rows of a key, in lower case. *)
Definition of_key (key : string) (r : DatabaseManager.PriceLevelRow) : bool :=
  String.eqb (LevelsQuery.lower (DatabaseManager.pl_level_type r)) key.

End Notions.



(** * Properties *)

(** ** Storage: what a call leaves behind *)

Module DatabaseFacts.
Import Py Model DatabaseManager.

Lemma commit_or_rollback_open {A} (self : t) (attempt : Result (Tables * A)) (fb : A) :
  conn_open (fst (commit_or_rollback self attempt fb)) = conn_open self.
Proof.
  unfold commit_or_rollback, connection.
  destruct attempt as [[tb a]|e]; simpl; [reflexivity|].
  destruct (conn_open self) eqn:E; simpl; congruence.
Qed.

Lemma commit_or_rollback_calls {A} (self : t) (attempt : Result (Tables * A)) (fb : A) :
  io_calls (fst (commit_or_rollback self attempt fb)) = io_calls self.
Proof.
  unfold commit_or_rollback, connection.
  destruct attempt as [[tb a]|e]; simpl; [reflexivity|].
  destruct (conn_open self); reflexivity.
Qed.

(** With a usable connection the handler's rollback succeeds: the call
    returns, with the work committed or with the fallback value. *)
Lemma commit_or_rollback_returns {A} (self : t) (attempt : Result (Tables * A)) (fb : A) :
  conn_open self = true ->
  exists a, snd (commit_or_rollback self attempt fb) = Ok a.
Proof.
  intros Hopen. unfold commit_or_rollback, connection. rewrite Hopen.
  destruct attempt as [[tb a]|e]; simpl; eauto.
Qed.

(** A failed attempt leaves the committed tables as they were. *)
Lemma commit_or_rollback_failed {A} (self : t) (e : exn) (fb : A) :
  db (fst (commit_or_rollback self (Raise e) fb)) = db self.
Proof.
  unfold commit_or_rollback. destruct (connection self); reflexivity.
Qed.

Lemma update_price_levels_open w self sym p vol lt :
  conn_open (fst (update_price_levels w self sym p vol lt)) = conn_open self.
Proof. unfold update_price_levels. rewrite commit_or_rollback_open. reflexivity. Qed.

Lemma update_price_levels_returns w self sym p vol lt :
  conn_open self = true ->
  snd (update_price_levels w self sym p vol lt) = Ok tt.
Proof.
  intros Hopen. unfold update_price_levels.
  match goal with |- snd (commit_or_rollback ?s ?a ?f) = _ =>
    destruct (commit_or_rollback_returns s a f Hopen) as [[] ->] end.
  reflexivity.
Qed.

Lemma save_trades_open w self batch :
  conn_open (fst (save_trades w self batch)) = conn_open self.
Proof.
  unfold save_trades. destruct batch; [reflexivity|].
  rewrite commit_or_rollback_open. reflexivity.
Qed.

Lemma update_market_stats_open w self batch :
  conn_open (fst (update_market_stats w self batch)) = conn_open self.
Proof.
  unfold update_market_stats. destruct batch; [reflexivity|].
  rewrite commit_or_rollback_open. reflexivity.
Qed.

Lemma save_book_snapshot_open w self sym book :
  conn_open (fst (save_book_snapshot w self sym book)) = conn_open self.
Proof. unfold save_book_snapshot. rewrite commit_or_rollback_open. reflexivity. Qed.

(** Inversion of a successful sequence of fallible steps. *)
Ltac bind_inv H :=
  repeat match type of H with
         | bind ?r _ = Ok _ =>
             let E := fresh "E" in
             destruct r eqn:E; [cbn [bind] in H | discriminate H]
         | Ok _ = Ok _ => injection H as H; subst
         end.

Lemma save_trades_levels w self batch :
  price_levels (db (fst (save_trades w self batch))) = price_levels (db self).
Proof.
  unfold save_trades. destruct batch as [|tr0 rest]; [reflexivity|].
  match goal with |- context [commit_or_rollback ?s ?a ?f] =>
    destruct a as [[tb n]|e] eqn:Ha end.
  - bind_inv Ha. reflexivity.
  - rewrite commit_or_rollback_failed. reflexivity.
Qed.

Lemma update_market_stats_levels w self batch :
  price_levels (db (fst (update_market_stats w self batch))) = price_levels (db self).
Proof.
  unfold update_market_stats. destruct batch as [|tr0 rest]; [reflexivity|].
  match goal with |- context [commit_or_rollback ?s ?a ?f] =>
    destruct a as [[tb n]|e] eqn:Ha end.
  - bind_inv Ha. reflexivity.
  - rewrite commit_or_rollback_failed. reflexivity.
Qed.

Lemma save_book_snapshot_levels w self sym book :
  price_levels (db (fst (save_book_snapshot w self sym book))) = price_levels (db self).
Proof.
  unfold save_book_snapshot.
  match goal with |- context [commit_or_rollback ?s ?a ?f] =>
    destruct a as [[tb n]|e] eqn:Ha end.
  - bind_inv Ha. reflexivity.
  - rewrite commit_or_rollback_failed. reflexivity.
Qed.

(** What a call of [update_price_levels] does to the table: nothing (the
    call failed and rolled back), one [UPDATE] of the rows with the id of a
    matching row, or one [INSERT] of a row of strength 1. *)
Lemma update_price_levels_cases w self sym p vol lt :
  let levels := price_levels (db self) in
  let levels' := price_levels (db (fst (update_price_levels w self sym p vol lt))) in
  levels' = levels
  \/ (exists r, In r levels /\
        levels' = map (fun r' => if pl_id r' =? pl_id r then touch vol r' else r') levels)
  \/ (exists lt', levels' = (levels ++ [mk_level_row (next_level_id (db self)) sym p lt' 1 1 vol])%list).
Proof.
  cbv zeta. unfold update_price_levels.
  match goal with |- context [commit_or_rollback ?s ?a ?f] =>
    destruct a as [[tb n]|e] eqn:Ha end.
  - bind_inv Ha. cbn [fst commit_or_rollback with_db db] .
    destruct (find _ _) as [r|] eqn:Hfind in E2.
    + bind_inv E2. right. left. exists r. split.
      * apply find_some in Hfind. tauto.
      * reflexivity.
    + bind_inv E2. destruct (valid_level_type _) in E2; [|discriminate].
      injection E2 as <-. right. right. eexists. reflexivity.
  - left. rewrite commit_or_rollback_failed. reflexivity.
Qed.

End DatabaseFacts.

(** ** Price levels: strength is the capped touch count and never drops *)

Module PriceLevelFacts.
Import Py Model DatabaseManager Spec DatabaseFacts.

Lemma touch_ok vol r : level_ok (touch vol r).
Proof. reflexivity. Qed.

Lemma touch_same vol r : same_level r (touch vol r).
Proof. repeat split. Qed.

Lemma touch_mono vol r : level_ok r -> pl_strength r <= pl_strength (touch vol r).
Proof. unfold level_ok. intros ->. cbn. lia. Qed.

Lemma update_price_levels_ok w self sym p vol lt :
  Forall level_ok (price_levels (db self)) ->
  Forall level_ok (price_levels (db (fst (update_price_levels w self sym p vol lt)))).
Proof.
  intros Hinv.
  destruct (update_price_levels_cases w self sym p vol lt) as [-> | [(r & _ & ->) | (lt' & ->)]].
  - exact Hinv.
  - apply List.Forall_forall. intros x Hx. apply in_map_iff in Hx as (y & <- & Hy).
    destruct (pl_id y =? pl_id r); [apply touch_ok|].
    rewrite List.Forall_forall in Hinv. now apply Hinv.
  - apply List.Forall_app. split; [exact Hinv|]. repeat constructor.
Qed.

Lemma step_levels_ok w self op :
  Forall level_ok (price_levels (db self)) ->
  Forall level_ok (price_levels (db (step w self op))).
Proof.
  intros Hinv. destruct op; cbn [step].
  - now apply update_price_levels_ok.
  - now rewrite save_trades_levels.
  - now rewrite update_market_stats_levels.
  - now rewrite save_book_snapshot_levels.
  - exact Hinv.
Qed.

Lemma run_levels_ok w ops : Forall level_ok (price_levels (db (run w ops))).
Proof.
  unfold run. induction ops as [|op ops IH] using rev_ind.
  - constructor.
  - rewrite fold_left_app. cbn [fold_left]. now apply step_levels_ok.
Qed.

(** C6. Whatever calls were made on the database so far, after one more
    [update_price_levels] every stored level has
    [strength = min(touch_count, 10)], hence at most 10, and every level
    stored before the call is still there with a strength that is not
    smaller. *)
Theorem price_level_strength_capped_monotone :
  forall (w : World) (ops : list Op) (sym : string) (p : Q) (vol : Z)
         (level_type : option string),
    let before := run w ops in
    let after := fst (update_price_levels w before sym p vol level_type) in
    (forall r, In r (price_levels (db after)) ->
       pl_strength r = Z.min (pl_touch_count r) 10 /\ pl_strength r <= 10)
    /\ (forall r, In r (price_levels (db before)) ->
          exists r', In r' (price_levels (db after))
                     /\ same_level r r' /\ pl_strength r <= pl_strength r').
Proof.
  intros w ops sym p vol lt before after.
  pose proof (run_levels_ok w ops) as Hbefore. fold before in Hbefore.
  split.
  - intros r Hr.
    pose proof (update_price_levels_ok w before sym p vol lt Hbefore) as Hafter.
    rewrite List.Forall_forall in Hafter. specialize (Hafter r Hr).
    unfold level_ok in Hafter. split; [exact Hafter | lia].
  - intros r Hr. rewrite List.Forall_forall in Hbefore.
    pose proof (Hbefore r Hr) as Hok. subst after.
    destruct (update_price_levels_cases w before sym p vol lt)
      as [-> | [(r0 & _ & ->) | (lt' & ->)]].
    + exists r. repeat split; [exact Hr | lia].
    + destruct (pl_id r =? pl_id r0) eqn:Hid.
      * exists (touch vol r). split; [|split; [apply touch_same | now apply touch_mono]].
        apply in_map_iff. exists r. rewrite Hid. auto.
      * exists r. split; [|split; [repeat split | lia]].
        apply in_map_iff. exists r. rewrite Hid. auto.
    + exists r. split; [apply in_or_app; now left | split; [repeat split | lia]].
Qed.

End PriceLevelFacts.

(** ** AbsorptionDetector.detect *)

Module DetectorFacts.
Import Py Model AbsorptionDetector Spec.





Lemma filter_no_datetime (self : t) (now : datetime) (batch : list Trade) :
  (forall tr, In tr batch -> has_datetime tr = false) ->
  List.filter (is_recent self now) batch = [].
Proof.
  induction batch as [|tr batch IH]; intros H; cbn; [reflexivity|].
  assert (Htr : has_datetime tr = false) by (apply H; now left).
  unfold is_recent at 1. unfold has_datetime in Htr.
  destruct (timestamp tr); try discriminate; apply IH; intros; apply H; now right.
Qed.

(** C10. Whatever the length and the volumes of the input, [detect]
    returns none when no trade carries a [datetime] object as its
    timestamp: the window filter keeps no trade. *)
Theorem detect_none_without_datetime :
  forall (self : t) (now : datetime) (batch : list Trade) (sym : string),
    (forall tr, In tr batch -> has_datetime tr = false) ->
    detect self now batch sym = Ok None.
Proof.
  intros self now batch sym H. unfold detect.
  destruct (Z.of_nat (List.length batch) <? 10); [reflexivity|].
  now rewrite (filter_no_datetime self now batch H).
Qed.




(** The rows the provider reads from the sheet carry text timestamps:
    the detector returns none on them. *)
Lemma detect_none_without_datetime_witness :
  detect Samples.detector Samples.noon Samples.sheet_rows "WDOFUT" = Ok None.
Proof.
  apply detect_none_without_datetime.
  intros tr H. vm_compute in H.
  repeat (destruct H as [<-|H]; [reflexivity|]). destruct H.
Defined.


End DetectorFacts.

(** ** Flushing the buffer *)

Module FlushFacts.
Import Py Model TapeReadingEngine Spec DatabaseFacts.

Lemma executemany_appends f k batch tbl tbl' :
  DatabaseManager.executemany f k batch tbl = Ok tbl' ->
  exists rows, Forall2 (fun tr r => DatabaseManager.trade_row tr = Ok r) batch rows
               /\ tbl' = (tbl ++ rows)%list.
Proof.
  revert k tbl. induction batch as [|tr batch IH]; intros k tbl H; cbn in H.
  - injection H as <-. exists []. split; [constructor | now rewrite app_nil_r].
  - bind_inv H. apply IH in H as (rows & Hrows & ->).
    exists (a0 :: rows). split; [now constructor | now rewrite <- app_assoc].
Qed.

(** A flush is all or nothing: [save_trades] either stores a row for
    every trade of the batch and reports their number, or leaves the table
    as it was and reports 0 (or raises, the connection being closed). *)
Lemma save_trades_atomic w self batch :
  let res := DatabaseManager.save_trades w self batch in
  (exists rows,
      Forall2 (fun tr row => DatabaseManager.trade_row tr = Ok row) batch rows
      /\ DatabaseManager.trades (DatabaseManager.db (fst res))
         = (DatabaseManager.trades (DatabaseManager.db self) ++ rows)%list
      /\ snd res = Ok (Z.of_nat (List.length batch)))
  \/ (DatabaseManager.db (fst res) = DatabaseManager.db self
      /\ (snd res = Ok 0 \/ exists e, snd res = Raise e)).
Proof.
  cbv zeta. unfold DatabaseManager.save_trades. destruct batch as [|tr0 rest].
  - left. exists []. cbn. split; [constructor | now rewrite app_nil_r].
  - unfold DatabaseManager.commit_or_rollback.
    match goal with |- context [match ?a with Ok _ => _ | Raise _ => _ end] =>
      destruct a as [[tb n]|e] eqn:Ha end.
    + bind_inv Ha. apply executemany_appends in E0 as (rows & Hrows & ->).
      left. exists rows. cbn. auto.
    + right. destruct (DatabaseManager.connection _); cbn; eauto.
Qed.

(** With a usable connection the flush always ends by clearing the
    buffer, whatever [save_trades] reported. *)
Lemma flush_clears_buffer w self :
  DatabaseManager.conn_open (db_manager self) = true ->
  trade_buffer (_save_trades_batch w self) = [].
Proof.
  intros Hopen. unfold _save_trades_batch.
  destruct (trade_buffer self) as [|tr0 rest] eqn:Hbuf; [exact Hbuf|].
  destruct (DatabaseManager.save_trades w (db_manager self) (tr0 :: rest)) as [db1 r1] eqn:Hsave.
  assert (Hopen1 : DatabaseManager.conn_open db1 = true).
  { pose proof (save_trades_open w (db_manager self) (tr0 :: rest)) as H.
    rewrite Hsave in H. cbn in H. congruence. }
  assert (Hr1 : exists n, r1 = Ok n).
  { unfold DatabaseManager.save_trades in Hsave.
    match type of Hsave with DatabaseManager.commit_or_rollback ?s ?a ?f = _ =>
      destruct (commit_or_rollback_returns s a f) as [n Hn]; [exact Hopen|] end.
    rewrite Hsave in Hn. eauto. }
  destruct Hr1 as [n ->]. cbn [with_stats with_db_manager trade_buffer].
  rewrite Hbuf.
  destruct (DatabaseManager.update_market_stats w db1 (tr0 :: rest)) as [db2 r2] eqn:Hstats.
  assert (Hr2 : exists u, r2 = Ok u).
  { unfold DatabaseManager.update_market_stats in Hstats.
    match type of Hstats with DatabaseManager.commit_or_rollback ?s ?a ?f = _ =>
      destruct (commit_or_rollback_returns s a f) as [u Hu]; [exact Hopen1|] end.
    rewrite Hstats in Hu. eauto. }
  destruct Hr2 as [u ->].
  match goal with |- context [if ?c then _ else _] => destruct c end; reflexivity.
Qed.

(** C1 (the code departs from it). A disk error while the second of two
    buffered trades is written: the flush stores neither trade (the batch
    is rolled back as a whole), and yet the buffer is emptied.  Both
    trades were processed, none was saved, none is left to retry. *)
Theorem failed_flush_discards_buffer :
  let '(engine, log) := start Samples.failing_disk Samples.new_engine Samples.two_trades in
  log = [(Samples.small_lot, Unique); (Samples.large_lot, Unique)]
  /\ DatabaseManager.trades (DatabaseManager.db (db_manager engine)) = []
  /\ trade_buffer engine = []
  /\ trades_processed (stats engine) = 2
  /\ trades_saved (stats engine) = 0
  /\ validation_errors (stats engine) = 1.
Proof. vm_compute. repeat split. Qed.

End FlushFacts.

(** ** Hourly statistics, the two trade keys, and signals *)

Module StatsFacts.
Import Py Model DatabaseManager Spec.

(** The value written to [vwap] is the plain mean of the bucket's prices:
    the volumes play no part in it. *)
Lemma stats_row_vwap key st p ps :
  st_prices st = p :: ps ->
  ms_vwap (stats_row key st)
  = (Qsum (p :: ps) / inject_Z (Z.of_nat (List.length (p :: ps))))%Q.
Proof. intros H. destruct key as [[sym dt] h]. cbn. now rewrite H. Qed.

(** C5 (the code departs from it). One lot at 5000 and three lots at 5002
    in the same hour: the bucket's [vwap] is written as 5001, the mean of
    the two prices, while their volume-weighted mean is 5001.5. *)
Theorem vwap_is_unweighted_mean :
  exists r,
    market_stats (db (fst (update_market_stats Samples.quiet (initialize empty_tables)
                             [Samples.small_lot; Samples.large_lot]))) = [r]
    /\ ms_total_volume r = 4
    /\ (ms_vwap r == 5001)%Q
    /\ (volume_weighted_mean [Samples.small_lot; Samples.large_lot] == 10003 # 2)%Q
    /\ ~ (ms_vwap r == volume_weighted_mean [Samples.small_lot; Samples.large_lot])%Q.
Proof.
  eexists. split.
  { vm_compute. reflexivity. }
  split. { reflexivity. }
  split. { reflexivity. }
  split. { reflexivity. }
  intros H. vm_compute in H. discriminate H.
Qed.

End StatsFacts.

Module HashFacts.
Import Py Model.

(** The three builders of a trade key agree on the same trade or not
    according to the fields they read: the engine and the provider hash
    the same text. *)
Lemma provider_hash_is_engine_hash (tr : Trade) :
  ExcelDataProvider._create_trade_hash tr = TapeReadingEngine._generate_trade_hash tr.
Proof. reflexivity. Qed.

(** C7 (the code departs from it). Two trades that differ in their side
    only have the same reconciliation key and different identity hashes:
    [_hash_trade] reads neither the side nor a digest. *)
Theorem validation_key_ignores_side :
  DatabaseManager._hash_trade Samples.bought = DatabaseManager._hash_trade Samples.sold
  /\ DatabaseManager._hash_trade Samples.bought = "09:23:58.004_WDOFUT_5432.5_10"
  /\ TapeReadingEngine._generate_trade_hash Samples.bought
     = "a0ab035707fc621651b9f67c3dccda64"
  /\ TapeReadingEngine._generate_trade_hash Samples.sold
     = "3b5c1c5079191da4913e4791ae5e164d"
  /\ TapeReadingEngine._generate_trade_hash Samples.bought
     <> TapeReadingEngine._generate_trade_hash Samples.sold.
Proof.
  repeat split; try (vm_compute; reflexivity).
  intros H. vm_compute in H. discriminate H.
Qed.

End HashFacts.

Module SignalFacts.
Import Py Model TapeReadingSystem.

(** When the ratio is defined it is |target - entry| / |stop - entry|. *)
Lemma risk_reward_defined (d : Draft) (rr : Q) :
  risk_reward d = Ok rr ->
  rr = (Qabs (d_target d - d_entry d) / Qabs (d_stop d - d_entry d))%Q
  /\ ~ (d_stop d == d_entry d)%Q.
Proof.
  unfold risk_reward. destruct (Qeq_bool _ 0) eqn:E; [discriminate|].
  intros H. injection H as <-. split; [reflexivity|].
  intros Heq. apply Qeq_bool_neq in E. apply E.
  rewrite Heq. unfold Qminus. rewrite Qplus_opp_r. reflexivity.
Qed.

(** A stop at the entry price makes the division raise. *)
Lemma risk_reward_zero_stop (d : Draft) :
  (d_stop d == d_entry d)%Q -> risk_reward d = Raise ZeroDivisionError.
Proof.
  intros Heq. unfold risk_reward.
  assert (H : Qeq_bool (Qabs (d_stop d - d_entry d)) 0 = true).
  { apply Qeq_bool_iff. rewrite Heq. unfold Qminus. rewrite Qplus_opp_r. reflexivity. }
  now rewrite H.
Qed.

(** The example of the specification: entry 5000, stop 4998, target 5004
    give a ratio of 2. *)
Example risk_reward_example :
  exists s, generate_signals [] Samples.noon (Some Samples.trending_market) = ([s], Ok [s])
            /\ sig_type s = "BUY" /\ (sig_entry s == 5000)%Q /\ (sig_stop s == 4998)%Q
            /\ (sig_target s == 5004)%Q /\ (sig_risk_reward s == 2)%Q.
Proof. eexists. split; [vm_compute; reflexivity|]. repeat split. Qed.

(** C8 (the code departs from it). In a flat market (every price of the
    window at 5000) a confident absorption with a bullish flow gives a BUY
    whose stop, the low, is the entry price: [generate_signals] raises
    [ZeroDivisionError] instead of returning. *)
Theorem zero_distance_stop_raises :
  draft_signal Samples.flat_market
    (mk_behavior ABSORPTION "WDOFUT" Samples.noon (4 # 5) (AbsorptionMeta 2000 0 20 60))
  = Some (mk_draft "BUY" "Absorcao de venda detectada" (4 # 5) "WDOFUT" 5000 5000
            (5000 + 0 * 2)%Q)
  /\ generate_signals [] Samples.noon (Some Samples.flat_market)
     = ([], Raise ZeroDivisionError).
Proof. split; vm_compute; reflexivity. Qed.

End SignalFacts.

(** ** Book snapshots: when one is persisted, and how many rows it takes *)

Module BookFacts.
Import Py Model TapeReadingEngine Spec DatabaseFacts DetectorFacts.









End BookFacts.

(** ** The provider hands its trades over in time order *)

Module ProviderFacts.
Import Py Model ExcelDataProvider Spec.

(** *** The order on keys *)

Lemma lex_compare_refl (a : list Z) : lex_compare a a = Eq.
Proof. induction a as [|x a IH]; cbn; [reflexivity|]. now rewrite Z.compare_refl. Qed.

Lemma lex_compare_eq (a b : list Z) : lex_compare a b = Eq -> a = b.
Proof.
  revert b. induction a as [|x a IH]; intros [|y b]; cbn; try discriminate; [reflexivity|].
  destruct (Z.compare_spec x y) as [Hxy| |]; try discriminate.
  intros Hl. subst. f_equal. now apply IH.
Qed.

Lemma lex_compare_antisym (a b : list Z) :
  lex_compare b a = CompOpp (lex_compare a b).
Proof.
  revert b. induction a as [|x a IH]; intros [|y b]; cbn; try reflexivity.
  rewrite (Z.compare_antisym x y).
  destruct (x ?= y); cbn; [apply IH | reflexivity | reflexivity].
Qed.

Lemma lex_compare_trans (a b c : list Z) :
  lex_compare a b = Lt -> lex_compare b c = Lt -> lex_compare a c = Lt.
Proof.
  revert b c. induction a as [|x a IH]; intros [|y b] [|z c]; cbn; try discriminate; auto.
  destruct (Z.compare_spec x y) as [->|Hxy|Hxy]; try discriminate.
  - destruct (Z.compare_spec y z) as [->|Hyz|Hyz]; try discriminate; auto.
    intros. eapply IH; eassumption.
  - intros _. destruct (Z.compare_spec y z) as [->|Hyz|Hyz]; try discriminate; intros _.
    + destruct (Z.compare_spec x z); [lia | reflexivity | lia].
    + destruct (Z.compare_spec x z); [lia | reflexivity | lia].
Qed.

Lemma datetime_tuple_inj (a b : datetime) : datetime_tuple a = datetime_tuple b -> a = b.
Proof. destruct a, b. cbn. intros H. injection H as -> -> -> -> -> -> ->. reflexivity. Qed.

Lemma time_lt_le (a b : datetime) : time_lt a b -> time_le a b.
Proof.
  unfold time_lt, time_le, datetime_ltb, datetime_compare.
  rewrite (lex_compare_antisym (datetime_tuple a) (datetime_tuple b)).
  destruct (lex_compare (datetime_tuple a) (datetime_tuple b)); cbn; congruence.
Qed.

Lemma time_le_lt_or_eq (a b : datetime) : time_le a b -> a = b \/ time_lt a b.
Proof.
  unfold time_lt, time_le, datetime_ltb, datetime_compare.
  rewrite (lex_compare_antisym (datetime_tuple a) (datetime_tuple b)).
  destruct (lex_compare (datetime_tuple a) (datetime_tuple b)) eqn:E; cbn; try congruence.
  - intros _. left. apply datetime_tuple_inj. now apply lex_compare_eq.
  - now right.
Qed.

(** *** [sorted] *)

Lemma insert_by_key_perm x l : Permutation (insert_by_key x l) (x :: l).
Proof.
  induction l as [|y l IH]; cbn; [reflexivity|].
  destruct (datetime_ltb (fst y) (fst x)); [|reflexivity].
  rewrite IH. apply perm_swap.
Qed.

Lemma stable_sort_perm l : Permutation (stable_sort l) l.
Proof.
  unfold stable_sort. induction l as [|x l IH]; cbn; [reflexivity|].
  rewrite insert_by_key_perm. now constructor.
Qed.

Lemma insert_by_key_hd (x y : datetime * Trade) (l : list (datetime * Trade)) :
  time_le (fst y) (fst x) ->
  HdRel time_le (fst y) (map fst l) ->
  HdRel time_le (fst y) (map fst (insert_by_key x l)).
Proof.
  intros Hyx Hl. destruct l as [|z l]; cbn; [now constructor|].
  destruct (datetime_ltb (fst z) (fst x)); cbn; constructor; [|assumption].
  now inversion Hl.
Qed.

Lemma insert_by_key_sorted (x : datetime * Trade) (l : list (datetime * Trade)) :
  Sorted time_le (map fst l) -> Sorted time_le (map fst (insert_by_key x l)).
Proof.
  induction l as [|y l IH]; cbn; intros Hs; [repeat constructor|].
  inversion Hs as [|? ? Hs' Hhd]; subst.
  destruct (datetime_ltb (fst y) (fst x)) eqn:E; cbn.
  - constructor; [now apply IH|]. apply insert_by_key_hd; [|assumption].
    now apply time_lt_le.
  - constructor; [assumption|]. constructor. exact E.
Qed.

Lemma stable_sort_sorted (l : list (datetime * Trade)) : Sorted time_le (map fst (stable_sort l)).
Proof.
  unfold stable_sort. induction l as [|x l IH]; cbn; [constructor|].
  now apply insert_by_key_sorted.
Qed.

Lemma sorted_strict (ks : list datetime) :
  Sorted time_le ks -> NoDup ks -> Sorted time_lt ks.
Proof.
  induction 1 as [|k ks Hs IH Hhd]; intros Hnd; [constructor|].
  apply NoDup_cons in Hnd as [Hnotin Hnd'].
  constructor; [now apply IH|].
  destruct Hhd as [|k' ks' Hle]; constructor.
  destruct (time_le_lt_or_eq _ _ Hle) as [->|Hlt]; [|exact Hlt].
  exfalso. apply Hnotin. constructor.
Qed.

Lemma decorate_keys w n l d :
  decorate w n l = Ok d ->
  map snd d = l /\ Forall (fun kt => key_of w (fst kt) (snd kt)) d.
Proof.
  revert n d. induction l as [|tr l IH]; intros n d H; cbn in H.
  - injection H as <-. split; [reflexivity | constructor].
  - destruct (sort_key (clock w n) tr) as [k|e] eqn:Hk; [|discriminate]. cbn in H.
    destruct (decorate w (S n) l) as [r|e] eqn:Hr; [|discriminate]. cbn in H.
    injection H as <-. destruct (IH _ _ Hr) as [Hsnd Hall]. cbn. split.
    + now rewrite Hsnd.
    + constructor; [now exists n | assumption].
Qed.

(** What [sorted(l, key=...)] returns: the elements of [l], each with the
    key computed for it, keys non-decreasing, and increasing when no two
    keys are equal. *)
Lemma sorted_with_keys_spec w n l keyed :
  sorted_with_keys w n l = Ok keyed ->
  Permutation (map snd keyed) l
  /\ Forall (fun kt => key_of w (fst kt) (snd kt)) keyed
  /\ Sorted time_le (map fst keyed)
  /\ (NoDup (map fst keyed) -> Sorted time_lt (map fst keyed)).
Proof.
  unfold sorted_with_keys. destruct (decorate w n l) as [d|e] eqn:Hd; [|discriminate].
  cbn. intros H. injection H as <-.
  destruct (decorate_keys _ _ _ _ Hd) as [Hsnd Hall].
  assert (Hperm : Permutation (stable_sort d) d) by apply stable_sort_perm.
  repeat split.
  - rewrite <- Hsnd. now apply Permutation_map.
  - eapply Permutation_Forall; [symmetry; exact Hperm | exact Hall].
  - apply stable_sort_sorted.
  - apply sorted_strict. apply stable_sort_sorted.
Qed.


(** The parsed time has the resolution of a millisecond. *)
Example parse_time_examples :
  _parse_time_for_sorting Samples.noon "09:23:58.004" = mk_datetime 2025 1 13 9 23 58 4000
  /\ _parse_time_for_sorting Samples.noon " 9:23:58 " = mk_datetime 2025 1 13 9 23 58 0
  /\ _parse_time_for_sorting Samples.noon "09:23:58.04" = mk_datetime 2025 1 13 9 23 58 40000
  /\ _parse_time_for_sorting Samples.noon "2025-01-10 09:23:58.004"
     = mk_datetime 2025 1 10 9 23 58 4000
  /\ _parse_time_for_sorting Samples.noon "not a time" = Samples.noon.
Proof. vm_compute. repeat split. Qed.


End ProviderFacts.

(** ** Deduplication *)

(** *** The test for distinct texts is sound *)

Module DistinctFacts.
Import Py Model Distinct.

Lemma merge_perm (l1 l2 : list Uint63.int) : merge l1 l2 ≡ₚ (l1 ++ l2)%list.
Proof.
  revert l2. induction l1 as [|a1 r1 IH1]; intros l2.
  - destruct l2; reflexivity.
  - induction l2 as [|a2 r2 IH2].
    + cbn. now rewrite app_nil_r.
    + cbn. destruct (Uint63.leb a1 a2).
      * constructor. apply IH1.
      * etransitivity; [constructor; exact IH2|].
        cbn. rewrite (Permutation_middle (a1 :: r1) r2 a2). reflexivity.
Qed.

Lemma merge_pairs_perm (ls : list (list Uint63.int)) :
  concat (merge_pairs ls) ≡ₚ concat ls.
Proof.
  induction ls as [ls IH] using (induction_ltof1 _ (@List.length _)); unfold ltof in IH.
  destruct ls as [|a [|b rest]]; try reflexivity.
  cbn [merge_pairs concat]. rewrite merge_perm, IH by (cbn; lia).
  now rewrite app_assoc.
Qed.

Lemma merge_all_sub (fuel : nat) (ls : list (list Uint63.int)) :
  merge_all fuel ls ⊆+ concat ls.
Proof.
  revert ls. induction fuel as [|f IH]; intros ls.
  - destruct ls as [|l [|l' rest]]; cbn.
    + reflexivity.
    + now rewrite app_nil_r.
    + apply submseteq_inserts_r. reflexivity.
  - destruct ls as [|l [|l' rest]].
    + reflexivity.
    + cbn. now rewrite app_nil_r.
    + change (merge_all (S f) (l :: l' :: rest))
        with (merge_all f (merge_pairs (l :: l' :: rest))).
      rewrite IH. now rewrite merge_pairs_perm.
Qed.

Lemma concat_singletons (ks : list Uint63.int) : concat (map (fun k => [k]) ks) = ks.
Proof. induction ks as [|k ks IH]; cbn; [reflexivity | now rewrite IH]. Qed.

Lemma increasing_above (x : Uint63.int) (l : list Uint63.int) :
  increasing (x :: l) = true ->
  forall y, y ∈ l -> (Uint63.to_Z x < Uint63.to_Z y)%Z.
Proof.
  revert x. induction l as [|z l IH]; intros x H y Hy.
  - inversion Hy.
  - cbn [increasing] in H. apply andb_true_iff in H as [Hxz Hrest].
    apply Uint63.ltb_spec in Hxz.
    apply elem_of_cons in Hy as [->|Hy]; [exact Hxz|].
    specialize (IH z Hrest y Hy). lia.
Qed.

Lemma increasing_NoDup (l : list Uint63.int) : increasing l = true -> NoDup l.
Proof.
  induction l as [|x l IH]; intros H; [constructor|].
  constructor.
  - intros Hx. pose proof (increasing_above x l H x Hx). lia.
  - apply IH. destruct l as [|z l]; [reflexivity|].
    cbn [increasing] in H. now apply andb_true_iff in H as [_ H].
Qed.

Lemma NoDup_map_inv {A B} (f : A -> B) (l : list A) : NoDup (map f l) -> NoDup l.
Proof.
  induction l as [|x l IH]; cbn; intros H; [constructor|].
  apply NoDup_cons in H as [Hx Hl]. constructor; [|now apply IH].
  intros Hin. apply Hx. apply list_elem_of_In, in_map, list_elem_of_In, Hin.
Qed.

Lemma distinct_sound (texts : list string) : distinct texts = true -> NoDup texts.
Proof.
  unfold distinct. intros H. apply andb_true_iff in H as [Hlen Hinc].
  apply Nat.eqb_eq in Hlen. apply increasing_NoDup in Hinc.
  apply (NoDup_map_inv fingerprint).
  pose proof (merge_all_sub 64 (map (fun k => [k]) (map fingerprint texts))) as Hsub.
  rewrite concat_singletons in Hsub.
  apply submseteq_length_Permutation in Hsub; [|lia].
  now rewrite <- Hsub.
Qed.

(** The 20001 trades of the busy morning have pairwise distinct hashes. *)
Lemma busy_morning_distinct :
  NoDup (map TapeReadingEngine._generate_trade_hash Samples.busy_morning).
Proof. apply distinct_sound. vm_compute. reflexivity. Qed.

End DistinctFacts.

(** *** The engine's loop is the deduplicator *)

Module DedupFacts.
Import Py Model TapeReadingEngine Spec DatabaseFacts.

Lemma flush_saved w self :
  saved_trade_hashes (_save_trades_batch w self) = saved_trade_hashes self.
Proof.
  unfold _save_trades_batch. destruct (trade_buffer self) as [|tr0 rest]; [reflexivity|].
  destruct (DatabaseManager.save_trades _ _ _) as [db1 [n|e]]; [|reflexivity].
  cbn [with_stats with_db_manager trade_buffer db_manager stats validate].
  destruct (DatabaseManager.update_market_stats _ _ _) as [db2 [u|e]]; [|reflexivity].
  match goal with |- context [if ?c then _ else _] => destruct c end; reflexivity.
Qed.

Lemma flush_open w self :
  DatabaseManager.conn_open (db_manager (_save_trades_batch w self))
  = DatabaseManager.conn_open (db_manager self).
Proof.
  unfold _save_trades_batch. destruct (trade_buffer self) as [|tr0 rest]; [reflexivity|].
  pose proof (save_trades_open w (db_manager self) (tr0 :: rest)) as H1.
  destruct (DatabaseManager.save_trades _ _ _) as [db1 [n|e]]; cbn [fst] in H1; [|exact H1].
  cbn [with_stats with_db_manager trade_buffer db_manager stats validate].
  match goal with |- context [DatabaseManager.update_market_stats w ?d ?b] =>
    pose proof (update_market_stats_open w d b) as H2;
    destruct (DatabaseManager.update_market_stats w d b) as [db2 [u|e]] end;
    cbn [fst] in H2; [|cbn [with_db_manager db_manager]; congruence].
  match goal with |- context [if ?c then _ else _] => destruct c end;
    cbn [with_stats with_db_manager with_trade_buffer db_manager]; congruence.
Qed.

Lemma save_snapshots_keeps w book symbols :
  forall self,
    saved_trade_hashes (fst (save_snapshots w self book symbols)) = saved_trade_hashes self
    /\ DatabaseManager.conn_open (db_manager (fst (save_snapshots w self book symbols)))
       = DatabaseManager.conn_open (db_manager self).
Proof.
  induction symbols as [|sym rest IH]; intros self; cbn; [auto|].
  destruct (bids book) as [|b bs]; [apply IH|].
  destruct (asks book) as [|a as']; [apply IH|].
  pose proof (save_book_snapshot_open w (db_manager self) sym book) as Hopen.
  destruct (DatabaseManager.save_book_snapshot _ _ _ _) as [db' [success|e]]; cbn in Hopen.
  - match goal with |- context [save_snapshots w ?s book rest] =>
      destruct (IH s) as [Hs Ho]; rewrite Hs, Ho end.
    destruct success; cbn; auto.
  - cbn. auto.
Qed.

Lemma process_book_saved w self book :
  saved_trade_hashes (_process_book w self book) = saved_trade_hashes self.
Proof.
  unfold _process_book. destruct (_book_changed_significantly self book); [|reflexivity].
  destruct (save_snapshots_keeps w book ["WDOFUT"; "DOLFUT"] self) as [Hs _].
  destruct (save_snapshots _ _ _ _) as [self' [u|e]]; cbn in *; exact Hs.
Qed.

Lemma process_book_open w self book :
  DatabaseManager.conn_open (db_manager (_process_book w self book))
  = DatabaseManager.conn_open (db_manager self).
Proof.
  unfold _process_book. destruct (_book_changed_significantly self book); [|reflexivity].
  destruct (save_snapshots_keeps w book ["WDOFUT"; "DOLFUT"] self) as [_ Ho].
  destruct (save_snapshots _ _ _ _) as [self' [u|e]]; cbn in *; exact Ho.
Qed.

Lemma union_absorb (h : string) (X Y : gset string) :
  h ∈ Y -> Y ∪ X = Y ∪ ({[ h ]} ∪ X).
Proof. set_solver. Qed.

Lemma union_shift (h : string) (X Y : gset string) :
  (Y ∪ {[ h ]}) ∪ X = Y ∪ ({[ h ]} ∪ X).
Proof. set_solver. Qed.

Lemma identities_nil : identities [] = ∅.
Proof. reflexivity. Qed.

Lemma identities_cons tr rest : identities (tr :: rest) = {[ identity tr ]} ∪ identities rest.
Proof. reflexivity. Qed.

(** With a usable connection the loop of [_process_trades] reaches every
    trade, takes for each the branch [classify] names, and leaves in the
    set the identities of the batch. *)
Lemma process_loop_classifies w batch :
  forall self dups,
    DatabaseManager.conn_open (db_manager self) = true ->
    exists self' dups',
      process_loop w self dups batch
      = (self', dups', classify (saved_trade_hashes self) batch, Ok tt)
      /\ DatabaseManager.conn_open (db_manager self') = true
      /\ saved_trade_hashes self' = saved_trade_hashes self ∪ identities batch.
Proof.
  induction batch as [|tr rest IH]; intros self dups Hopen.
  - exists self, dups. cbn [process_loop classify]. repeat split; [assumption|].
    rewrite identities_nil. now rewrite (right_id_L ∅ (∪)).
  - cbn [process_loop classify]. fold (identity tr). rewrite identities_cons.
    destruct (bool_decide (identity tr ∈ saved_trade_hashes self)) eqn:Hseen.
    + destruct (IH self (dups + 1) Hopen) as (self' & dups' & Hloop & Hopen' & Hsaved).
      rewrite Hloop. exists self', dups'. repeat split; [assumption|].
      rewrite Hsaved. apply bool_decide_eq_true in Hseen.
      now apply union_absorb.
    + pose proof (update_price_levels_returns w (db_manager self)
                    (symbol tr) (price tr) (volume tr) None Hopen) as Hret.
      pose proof (update_price_levels_open w (db_manager self)
                    (symbol tr) (price tr) (volume tr) None) as Hopen1.
      cbn [with_stats with_trade_buffer with_saved_trade_hashes db_manager].
      destruct (DatabaseManager.update_price_levels _ _ _ _ _ _) as [db' r].
      cbn [fst snd] in Hret, Hopen1. subst r.
      match goal with |- context [process_loop w ?s dups rest] =>
        destruct (IH s dups) as (self' & dups' & Hloop & Hopen' & Hsaved);
          [cbn [with_db_manager db_manager]; congruence|] end.
      rewrite Hloop. exists self', dups'. repeat split; [assumption|].
      rewrite Hsaved. cbn [with_db_manager saved_trade_hashes].
      apply union_shift.
Qed.

(** [_process_trades] with a usable connection. *)
Lemma process_trades_classifies w self batch :
  DatabaseManager.conn_open (db_manager self) = true ->
  batch <> [] ->
  exists self',
    _process_trades w self batch = (self', classify (saved_trade_hashes self) batch, Ok tt)
    /\ DatabaseManager.conn_open (db_manager self') = true
    /\ saved_trade_hashes self' = next_seen w (saved_trade_hashes self) batch.
Proof.
  intros Hopen Hne. unfold _process_trades.
  destruct (process_loop_classifies w batch self 0 Hopen)
    as (self1 & dups & Hloop & Hopen1 & Hsaved1).
  rewrite Hloop. cbv beta iota zeta.
  set (self2 := if 0 <? dups then _ else self1).
  assert (H2 : saved_trade_hashes self2 = saved_trade_hashes self1
               /\ DatabaseManager.conn_open (db_manager self2) = true).
  { subst self2. destruct (0 <? dups).
    - split; [reflexivity | exact Hopen1].
    - split; [reflexivity | exact Hopen1]. }
  destruct H2 as [Hs2 Ho2].
  set (self3 := if max_saved_hashes <? _ then _ else self2).
  assert (H3 : saved_trade_hashes self3 = next_seen w (saved_trade_hashes self) batch
               /\ DatabaseManager.conn_open (db_manager self3) = true).
  { subst self3. unfold next_seen. destruct batch as [|tr0 rest]; [congruence|].
    rewrite Hs2, Hsaved1.
    destruct (max_saved_hashes <? _).
    - split; [reflexivity | exact Ho2].
    - split; [|exact Ho2]. rewrite Hs2. exact Hsaved1. }
  destruct H3 as [Hs3 Ho3].
  eexists. split; [reflexivity|].
  destruct (save_interval self3 <=? _).
  - now rewrite flush_open, flush_saved.
  - auto.
Qed.

End DedupFacts.

(** *** A run of the engine and its classifications *)

Module RunFacts.
Import Py Model TapeReadingEngine Spec DatabaseFacts DedupFacts.

Lemma cycle_classifies w self data :
  DatabaseManager.conn_open (db_manager self) = true ->
  exists self',
    cycle w self data = (self', classify (saved_trade_hashes self) (trades_of data), Ok tt)
    /\ DatabaseManager.conn_open (db_manager self') = true
    /\ saved_trade_hashes self' = next_seen w (saved_trade_hashes self) (trades_of data).
Proof.
  intros Hopen. unfold cycle. destruct data as [d|]; [|exists self; auto].
  cbn [trades_of]. destruct (data_trades d) as [|tr0 rest] eqn:Hd.
  - cbv beta iota zeta. eexists. split; [reflexivity|].
    destruct (save_book_snapshots self); [|auto].
    now rewrite process_book_open, process_book_saved.
  - destruct (process_trades_classifies w self (tr0 :: rest) Hopen)
      as (self1 & Hp & Hopen1 & Hsaved1); [discriminate|].
    rewrite Hp. cbv beta iota zeta. eexists. split; [reflexivity|].
    destruct (save_book_snapshots self1); [|auto].
    now rewrite process_book_open, process_book_saved.
Qed.

Lemma cycles_classifies w polls :
  forall self,
    DatabaseManager.conn_open (db_manager self) = true ->
    exists self',
      cycles w self polls = (self', run_log w (saved_trade_hashes self) polls)
      /\ DatabaseManager.conn_open (db_manager self') = true.
Proof.
  induction polls as [|data rest IH]; intros self Hopen; [exists self; auto|].
  cbn [cycles run_log].
  destruct (cycle_classifies w self data Hopen) as (self1 & Hc & Hopen1 & Hsaved1).
  rewrite Hc. cbv beta iota zeta.
  destruct (IH self1 Hopen1) as (self2 & Hcs & Hopen2).
  rewrite Hcs, Hsaved1. exists self2. auto.
Qed.

(** The log of [start] is the log of the deduplicator, from the set that
    the recent trades of the database give. *)
Lemma start_log w self polls :
  DatabaseManager.conn_open (db_manager self) = true ->
  snd (start w self polls)
  = run_log w (saved_trade_hashes (_load_recent_trade_hashes self)) polls.
Proof.
  intros Hopen. unfold start.
  assert (Hopen' : DatabaseManager.conn_open (db_manager (_load_recent_trade_hashes self)) = true).
  { unfold _load_recent_trade_hashes.
    destruct (DatabaseManager.connection (db_manager self)); exact Hopen. }
  destruct (cycles_classifies w polls _ Hopen') as (self1 & Hcs & _).
  rewrite Hcs. reflexivity.
Qed.

(** *** Counting classifications *)

Lemma times_submitted_cons r tr l :
  times_submitted r (tr :: l)
  = if String.eqb (identity tr) (identity r)
    then S (times_submitted r l) else times_submitted r l.
Proof.
  unfold times_submitted. cbn [List.filter].
  destruct (String.eqb (identity tr) (identity r)); reflexivity.
Qed.

Lemma times_submitted_app r l1 l2 :
  times_submitted r (l1 ++ l2) = (times_submitted r l1 + times_submitted r l2)%nat.
Proof. unfold times_submitted. now rewrite List.filter_app, length_app. Qed.

Lemma times_classified_cons c r tr c' log :
  times_classified c r ((tr, c') :: log)
  = if String.eqb (identity tr) (identity r) && is_class c c'
    then S (times_classified c r log) else times_classified c r log.
Proof.
  unfold times_classified. cbn [List.filter fst snd].
  destruct (String.eqb (identity tr) (identity r) && is_class c c'); reflexivity.
Qed.

Lemma times_classified_app c r l1 l2 :
  times_classified c r (l1 ++ l2)
  = (times_classified c r l1 + times_classified c r l2)%nat.
Proof. unfold times_classified. now rewrite List.filter_app, length_app. Qed.

(** In one pass of the deduplicator a record whose identity is in the
    set is never Unique; one whose identity is not is Unique exactly once
    if it is submitted at all; every other submission is Duplicate. *)
Lemma classify_counts r batch :
  forall seen,
    times_classified Unique r (classify seen batch)
    = (if bool_decide (identity r ∈ seen) then 0%nat
       else Nat.min 1 (times_submitted r batch))
    /\ (times_classified Unique r (classify seen batch)
        + times_classified Duplicate r (classify seen batch))%nat
       = times_submitted r batch.
Proof.
  induction batch as [|tr rest IH]; intros seen.
  - cbn [classify]. unfold times_classified, times_submitted. cbn [List.filter List.length].
    destruct (bool_decide _); auto.
  - cbn [classify]. rewrite times_submitted_cons.
    destruct (bool_decide (identity tr ∈ seen)) eqn:Htr.
    + rewrite !times_classified_cons. cbn [is_class]. rewrite andb_false_r, andb_true_r.
      destruct (IH seen) as [HU HS]. rewrite HU in HS. rewrite HU. clear HU.
      apply bool_decide_eq_true in Htr.
      destruct (String.eqb_spec (identity tr) (identity r)) as [Heq|Hne].
      * assert (Hr : identity r ∈ seen) by (rewrite <- Heq; exact Htr).
        rewrite (bool_decide_eq_true_2 _ Hr) in *. split; lia.
      * destruct (bool_decide (identity r ∈ seen)); split; lia.
    + rewrite !times_classified_cons. cbn [is_class]. rewrite andb_false_r, andb_true_r.
      destruct (IH (seen ∪ {[ identity tr ]})) as [HU HS]. rewrite HU in HS. rewrite HU. clear HU.
      apply bool_decide_eq_false in Htr.
      destruct (String.eqb_spec (identity tr) (identity r)) as [Heq|Hne].
      * assert (Hr : identity r ∉ seen) by (rewrite <- Heq; exact Htr).
        assert (Hr' : identity r ∈ seen ∪ {[ identity tr ]})
          by (apply elem_of_union_r, elem_of_singleton_2; now rewrite Heq).
        rewrite (bool_decide_eq_false_2 _ Hr).
        rewrite (bool_decide_eq_true_2 _ Hr') in *.
        split; lia.
      * destruct (bool_decide (identity r ∈ seen)) eqn:Hr.
        -- apply bool_decide_eq_true in Hr.
           assert (Hr' : identity r ∈ seen ∪ {[ identity tr ]}) by (now apply elem_of_union_l).
           rewrite (bool_decide_eq_true_2 _ Hr') in *.
           split; lia.
        -- apply bool_decide_eq_false in Hr.
           assert (Hr' : identity r ∉ seen ∪ {[ identity tr ]})
             by (rewrite elem_of_union, elem_of_singleton; intros [?|?]; congruence).
           rewrite (bool_decide_eq_false_2 _ Hr') in *.
           split; lia.
Qed.

Lemma classify_app batch1 batch2 :
  forall seen,
    classify seen (batch1 ++ batch2)
    = (classify seen batch1 ++ classify (seen ∪ identities batch1) batch2)%list.
Proof.
  induction batch1 as [|tr rest IH]; intros seen.
  - cbn [classify app]. rewrite identities_nil. now rewrite (right_id_L ∅ (∪)).
  - cbn [classify app]. rewrite identities_cons.
    destruct (bool_decide (identity tr ∈ seen)) eqn:Htr.
    + rewrite IH. cbn [app]. apply bool_decide_eq_true in Htr.
      now rewrite <- (union_absorb _ _ _ Htr).
    + rewrite IH. cbn [app]. now rewrite union_shift.
Qed.

(** *** The size of the set *)

Lemma size_union_le (X Y : gset string) : (size (X ∪ Y) <= size X + size Y)%nat.
Proof.
  rewrite size_union_alt.
  assert (size (Y ∖ X) <= size Y)%nat by (apply subseteq_size; set_solver). lia.
Qed.

Lemma size_list_to_set_le (l : list string) :
  (size (list_to_set l : gset string) <= List.length l)%nat.
Proof.
  induction l as [|x l IH]; cbn [list_to_set List.length].
  - now rewrite size_empty.
  - pose proof (size_union_le {[ x ]} (list_to_set l)) as H.
    rewrite size_singleton in H. lia.
Qed.

Lemma size_identities_le batch : (size (identities batch) <= List.length batch)%nat.
Proof.
  unfold identities. pose proof (size_list_to_set_le (map identity batch)) as H.
  now rewrite length_map in H.
Qed.

Lemma keep_last_length {A} (k : nat) (l : list A) : (List.length (keep_last k l) <= k)%nat.
Proof. unfold keep_last. rewrite length_skipn. lia. Qed.

(** Pruning leaves at most [max_saved_hashes // 2] hashes. *)
Lemma prune_size w s :
  Z.of_nat (size (prune_hashes w s)) <= max_saved_hashes / 2.
Proof.
  unfold prune_hashes.
  pose proof (size_list_to_set_le
                (keep_last (Z.to_nat (max_saved_hashes / 2)) (set_order w s))) as H1.
  pose proof (keep_last_length (Z.to_nat (max_saved_hashes / 2)) (set_order w s)) as H2.
  assert (H3 : 0 <= max_saved_hashes / 2) by (unfold max_saved_hashes; apply Z.div_pos; lia).
  lia.
Qed.

(** While the set stays within its bound nothing is pruned, and the
    log of a run is one pass of the deduplicator over all submissions. *)
Lemma next_seen_within_bound w seen batch :
  Z.of_nat (size seen) + Z.of_nat (List.length batch) <= max_saved_hashes ->
  next_seen w seen batch = seen ∪ identities batch.
Proof.
  intros Hb. unfold next_seen. destruct batch as [|tr rest].
  - rewrite identities_nil. now rewrite (right_id_L ∅ (∪)).
  - pose proof (size_union_le seen (identities (tr :: rest))) as H1.
    pose proof (size_identities_le (tr :: rest)) as H2.
    destruct (Z.ltb_spec max_saved_hashes
                (Z.of_nat (size (seen ∪ identities (tr :: rest))))) as [Hlt|Hge];
      [lia | reflexivity].
Qed.

Lemma submissions_cons poll rest :
  submissions (poll :: rest) = (trades_of poll ++ submissions rest)%list.
Proof. reflexivity. Qed.

Lemma run_log_within_bound w polls :
  forall seen,
    Z.of_nat (size seen) + Z.of_nat (List.length (submissions polls)) <= max_saved_hashes ->
    run_log w seen polls = classify seen (submissions polls).
Proof.
  induction polls as [|poll rest IH]; intros seen Hb; [reflexivity|].
  rewrite submissions_cons in *. rewrite length_app in Hb.
  cbn [run_log]. rewrite classify_app.
  rewrite next_seen_within_bound by lia.
  rewrite IH; [reflexivity|].
  pose proof (size_union_le seen (identities (trades_of poll))) as H1.
  pose proof (size_identities_le (trades_of poll)) as H2. lia.
Qed.

Lemma times_submitted_In r l : In r l -> (1 <= times_submitted r l)%nat.
Proof.
  induction l as [|x l IH]; intros Hin; [destruct Hin|].
  rewrite times_submitted_cons. destruct Hin as [->|Hin].
  - rewrite String.eqb_refl. lia.
  - specialize (IH Hin). destruct (String.eqb _ _); lia.
Qed.

(** A set that holds fewer strings than a batch has distinct identities
    misses the identity of some trade of the batch. *)
Lemma some_identity_missing (kept : gset string) (batch : list Trade) :
  NoDup (map identity batch) ->
  (size kept < List.length batch)%nat ->
  exists r, In r batch /\ identity r ∉ kept.
Proof.
  intros Hnd Hsz.
  assert (Hsize : size (identities batch) = List.length batch).
  { unfold identities. rewrite size_list_to_set by exact Hnd. apply length_map. }
  assert (Hpos : (0 < size (identities batch ∖ kept))%nat).
  { pose proof (size_union_alt kept (identities batch)) as H1.
    assert (size (identities batch) <= size (kept ∪ identities batch))%nat
      by (apply subseteq_size; set_solver).
    lia. }
  apply size_pos_elem_of in Hpos.
  destruct Hpos as [h Hh]. apply elem_of_difference in Hh as [Hin Hout].
  unfold identities in Hin. apply elem_of_list_to_set, list_elem_of_In, in_map_iff in Hin.
  destruct Hin as (r & <- & Hr). exists r. auto.
Qed.

(** The set [_process_trades] leaves, whatever the batch. *)
Lemma process_trades_saved w self batch :
  DatabaseManager.conn_open (db_manager self) = true ->
  saved_trade_hashes (fst (fst (_process_trades w self batch)))
  = (let s := saved_trade_hashes self ∪ identities batch in
     if max_saved_hashes <? Z.of_nat (size s) then prune_hashes w s else s).
Proof.
  intros Hopen. unfold _process_trades.
  destruct (process_loop_classifies w batch self 0 Hopen)
    as (self1 & dups & Hloop & Hopen1 & Hsaved1).
  rewrite Hloop. cbv beta iota zeta.
  set (self2 := if 0 <? dups then _ else self1).
  assert (Hs2 : saved_trade_hashes self2 = saved_trade_hashes self1)
    by (subst self2; destruct (0 <? dups); reflexivity).
  set (self3 := if max_saved_hashes <? _ then _ else self2).
  assert (Hs3 : saved_trade_hashes self3
                = if max_saved_hashes <? Z.of_nat (size (saved_trade_hashes self1))
                  then prune_hashes w (saved_trade_hashes self1)
                  else saved_trade_hashes self1).
  { subst self3. rewrite Hs2. destruct (max_saved_hashes <? _).
    - reflexivity.
    - exact Hs2. }
  cbn [fst].
  assert (Hs4 : saved_trade_hashes
                  (if save_interval self3 <=? Z.of_nat (List.length (trade_buffer self3))
                   then _save_trades_batch w self3 else self3)
                = saved_trade_hashes self3).
  { destruct (save_interval self3 <=? _); [apply flush_saved | reflexivity]. }
  rewrite Hs4, Hs3, Hsaved1. reflexivity.
Qed.

End RunFacts.

(** *** The counters of the engine, and what a restart knows *)

Module CounterFacts.
Import Py Model TapeReadingEngine Spec DatabaseFacts DedupFacts RunFacts.

(** The loop counts every trade once: as processed, or in its local
    counter of duplicates; it leaves the total of duplicates alone. *)
Lemma process_loop_counts w batch :
  forall self dups,
    DatabaseManager.conn_open (db_manager self) = true ->
    let res := process_loop w self dups batch in
    trades_processed (stats (fst (fst (fst res)))) + snd (fst (fst res))
    = trades_processed (stats self) + dups + Z.of_nat (List.length batch)
    /\ dups <= snd (fst (fst res))
    /\ trades_duplicates_prevented (stats (fst (fst (fst res))))
       = trades_duplicates_prevented (stats self).
Proof.
  induction batch as [|tr rest IH]; intros self dups Hopen; cbv zeta.
  - cbn [process_loop fst snd List.length]. lia.
  - cbn [process_loop]. fold (identity tr).
    destruct (bool_decide (identity tr ∈ saved_trade_hashes self)).
    + specialize (IH self (dups + 1) Hopen). cbv zeta in IH.
      destruct (process_loop w self (dups + 1) rest) as [[[self' dups'] log] r].
      cbn [fst snd] in *. cbn [List.length]. lia.
    + pose proof (update_price_levels_returns w (db_manager self)
                    (symbol tr) (price tr) (volume tr) None Hopen) as Hret.
      pose proof (update_price_levels_open w (db_manager self)
                    (symbol tr) (price tr) (volume tr) None) as Hopen1.
      cbn [with_stats with_trade_buffer with_saved_trade_hashes db_manager].
      destruct (DatabaseManager.update_price_levels _ _ _ _ _ _) as [db' r].
      cbn [fst snd] in Hret, Hopen1. subst r.
      match goal with |- context [process_loop w ?s dups rest] =>
        pose proof (IH s dups) as IH'; cbv zeta in IH';
        destruct (process_loop w s dups rest) as [[[self' dups'] log] r] end.
      cbn [fst snd] in *. cbn [List.length].
      cbn [with_db_manager db_manager stats add_trades_processed trades_processed
           trades_duplicates_prevented] in IH'.
      specialize (IH' ltac:(congruence)).
      cbn [with_db_manager with_saved_trade_hashes with_trade_buffer with_stats db_manager
           stats add_trades_processed trades_processed trades_duplicates_prevented] in IH'.
      lia.
Qed.

Lemma flush_counts w self :
  trades_processed (stats (_save_trades_batch w self)) = trades_processed (stats self)
  /\ trades_duplicates_prevented (stats (_save_trades_batch w self))
     = trades_duplicates_prevented (stats self).
Proof.
  unfold _save_trades_batch. destruct (trade_buffer self) as [|tr0 rest]; [auto|].
  destruct (DatabaseManager.save_trades _ _ _) as [db1 [n|e]]; [|auto].
  cbn [with_stats with_db_manager trade_buffer db_manager stats validate].
  destruct (DatabaseManager.update_market_stats _ _ _) as [db2 [u|e]]; [|auto].
  match goal with |- context [if ?c then _ else _] => destruct c end; auto.
Qed.





End CounterFacts.

(** *** More on what the calls into storage leave behind *)

Module StorageFacts.
Import Py Model DatabaseManager DatabaseFacts.

Lemma update_market_stats_trades w self batch :
  trades (db (fst (update_market_stats w self batch))) = trades (db self).
Proof.
  unfold update_market_stats. destruct batch as [|tr0 rest]; [reflexivity|].
  match goal with |- context [commit_or_rollback ?s ?a ?f] =>
    destruct a as [[tb n]|e] eqn:Ha end.
  - bind_inv Ha. reflexivity.
  - rewrite commit_or_rollback_failed. reflexivity.
Qed.

Lemma update_market_stats_returns w self batch :
  conn_open self = true ->
  snd (update_market_stats w self batch) = Ok tt.
Proof.
  intros Hopen. unfold update_market_stats. destruct batch as [|tr0 rest]; [reflexivity|].
  match goal with |- snd (commit_or_rollback ?s ?a ?f) = _ =>
    destruct (commit_or_rollback_returns s a f Hopen) as [[] ->] end.
  reflexivity.
Qed.

(** One row that the table refuses makes [executemany] raise. *)
Lemma executemany_refused f batch tr e :
  In tr batch ->
  trade_row tr = Raise e ->
  forall k tbl, exists e', executemany f k batch tbl = Raise e'.
Proof.
  intros Hin Hbad. induction batch as [|x rest IH]; [destruct Hin|].
  intros k tbl. cbn [executemany].
  destruct (stmt f k) as [u|e1]; cbn [bind]; [|eauto].
  destruct Hin as [->|Hin].
  - rewrite Hbad. cbn [bind]. eauto.
  - destruct (trade_row x) as [r|e2]; cbn [bind]; [|eauto].
    apply (IH Hin).
Qed.

(** With a usable connection [save_trades] returns: every row stored and
    counted, or the tables as they were and 0. *)
Lemma save_trades_outcome w self batch :
  conn_open self = true ->
  (exists rows,
      Forall2 (fun tr row => trade_row tr = Ok row) batch rows
      /\ db (fst (save_trades w self batch))
         = with_trades (db self) (trades (db self) ++ rows)
      /\ snd (save_trades w self batch) = Ok (Z.of_nat (List.length batch)))
  \/ (db (fst (save_trades w self batch)) = db self
      /\ snd (save_trades w self batch) = Ok 0).
Proof.
  intros Hopen. unfold save_trades. destruct batch as [|tr0 rest].
  - right. auto.
  - unfold commit_or_rollback.
    match goal with |- context [match ?a with Ok _ => _ | Raise _ => _ end] =>
      destruct a as [[tb n]|e] eqn:Ha end.
    + bind_inv Ha. apply FlushFacts.executemany_appends in E0 as (rows & Hrows & ->).
      left. exists rows. cbn. auto.
    + right. unfold connection. cbn [tick conn_open]. rewrite Hopen. cbn. auto.
Qed.

(** *** validate_trades *)

Lemma filter_empty {A} (f : A -> bool) (l : list A) :
  List.filter f l = [] <-> forall x, In x l -> f x = false.
Proof.
  induction l as [|a l IH]; cbn [List.filter].
  - split; [intros _ x [] | reflexivity].
  - destruct (f a) eqn:Hfa.
    + split; [discriminate|]. intros H. specialize (H a (or_introl eq_refl)). congruence.
    + rewrite IH. split.
      * intros H x [<-|Hx]; auto.
      * intros H x Hx. apply H. now right.
Qed.

Lemma key_among (k : string) (l : list Trade) :
  k ∈ (list_to_set (map _hash_trade l) : gset string)
  <-> exists tr, In tr l /\ _hash_trade tr = k.
Proof.
  rewrite elem_of_list_to_set, list_elem_of_In, in_map_iff.
  split; intros (tr & H1 & H2); exists tr; auto.
Qed.

(** The trades of [l] whose key no trade of [l'] has. *)
Lemma unmatched_empty (l l' : list Trade) :
  List.filter
    (fun tr => bool_decide (_hash_trade tr ∈ (list_to_set (map _hash_trade l) : gset string)
                                             ∖ list_to_set (map _hash_trade l')))
    l = []
  <-> forall tr, In tr l -> exists tr', In tr' l' /\ _hash_trade tr' = _hash_trade tr.
Proof.
  rewrite filter_empty. split; intros H tr Hin.
  - specialize (H tr Hin). apply bool_decide_eq_false in H.
    rewrite elem_of_difference in H.
    destruct (decide (_hash_trade tr ∈ (list_to_set (map _hash_trade l') : gset string)))
      as [Hk|Hk].
    + now apply key_among in Hk.
    + exfalso. apply H. split; [|exact Hk]. apply key_among. eauto.
  - apply bool_decide_eq_false. rewrite elem_of_difference. intros [_ Hout].
    apply Hout, key_among, H, Hin.
Qed.

End StorageFacts.

(** *** The table of market statistics *)

Module MarketStatsFacts.
Import Py Model DatabaseManager DatabaseFacts Notions.

Lemma key_eqb_eq (a b : StatKey) : key_eqb a b = true <-> a = b.
Proof.
  destruct a as [[s1 [[y1 m1] d1]] h1], b as [[s2 [[y2 m2] d2]] h2]. cbn [key_eqb].
  rewrite !andb_true_iff, String.eqb_eq, !Z.eqb_eq. split.
  - intros [[[[-> ->] ->] ->] ->]. reflexivity.
  - intros H. injection H as -> -> -> -> ->. auto.
Qed.

Lemma key_eqb_refl (a : StatKey) : key_eqb a a = true.
Proof. now apply key_eqb_eq. Qed.

Lemma key_eqb_neq (a b : StatKey) : key_eqb a b = false <-> a <> b.
Proof.
  rewrite <- key_eqb_eq. destruct (key_eqb a b); split; congruence.
Qed.

Lemma bucket_stats_row k st : bucket (stats_row k st) = k.
Proof. destruct k as [[sym dt] h]. reflexivity. Qed.

Lemma same_bucket_eq r r' : same_bucket r r' = true <-> bucket r = bucket r'.
Proof. unfold same_bucket. apply key_eqb_eq. Qed.

(** *** Grouping *)

Lemma add_trade_balanced st tr : stat_balanced st -> stat_balanced (add_trade st tr).
Proof.
  unfold stat_balanced. intros [H1 H2]. cbn [add_trade st_trades st_volume st_buy_trades
    st_sell_trades st_buy_volume st_sell_volume].
  destruct (String.eqb (side tr) "BUY"); lia.
Qed.

Lemma upsert_stat_balanced k tr stats :
  Forall (fun e => stat_balanced (snd e)) stats ->
  Forall (fun e => stat_balanced (snd e)) (upsert_stat k tr stats).
Proof.
  induction stats as [|[k' st] rest IH]; intros H; cbn [upsert_stat].
  - constructor; [|constructor]. apply add_trade_balanced. split; reflexivity.
  - inversion H as [|? ? Hst Hrest]; subst. destruct (key_eqb k' k).
    + constructor; [now apply add_trade_balanced | exact Hrest].
    + constructor; [exact Hst | now apply IH].
Qed.

Lemma group_trades_balanced day batch :
  forall stats groups,
    Forall (fun e => stat_balanced (snd e)) stats ->
    group_trades day batch stats = Ok groups ->
    Forall (fun e => stat_balanced (snd e)) groups.
Proof.
  induction batch as [|tr rest IH]; intros stats groups Hinv H; cbn [group_trades] in H.
  - now injection H as <-.
  - bind_inv H. eapply IH; [|exact H]. now apply upsert_stat_balanced.
Qed.

Lemma stats_row_balanced k st : stat_balanced st -> balanced (stats_row k st).
Proof. destruct k as [[sym dt] h]. intros H. exact H. Qed.

(** *** Writing *)

Lemma insert_or_replace_balanced r tbl :
  balanced r -> Forall balanced tbl -> Forall balanced (insert_or_replace r tbl).
Proof.
  intros Hr Htbl. unfold insert_or_replace. apply List.Forall_app. split.
  - rewrite List.Forall_forall in *. intros x Hx. apply filter_In in Hx as [Hx _]. auto.
  - constructor; [exact Hr | constructor].
Qed.

Lemma insert_or_replace_unique r tbl :
  NoDup (map bucket tbl) -> NoDup (map bucket (insert_or_replace r tbl)).
Proof.
  intros Hnd. unfold insert_or_replace. rewrite map_app. cbn [map].
  apply NoDup_app. split; [|split].
  - induction tbl as [|x tbl IH]; cbn [List.filter map]; [constructor|].
    cbn [map] in Hnd. apply NoDup_cons in Hnd as [Hx Hnd].
    destruct (negb (same_bucket r x)); [|now apply IH].
    cbn [map]. apply NoDup_cons. split; [|now apply IH].
    intros Hin. apply Hx. apply list_elem_of_In in Hin. apply list_elem_of_In.
    apply in_map_iff in Hin as (y & Hy & Hin). apply filter_In in Hin as [Hin _].
    apply in_map_iff. eauto.
  - intros k Hk Hk'. apply list_elem_of_In in Hk. apply list_elem_of_In in Hk'.
    destruct Hk' as [<-|[]].
    apply in_map_iff in Hk as (y & Hy & Hin). apply filter_In in Hin as [_ Hneg].
    apply negb_true_iff in Hneg.
    assert (same_bucket r y = true) by (apply same_bucket_eq; congruence). congruence.
  - apply NoDup_singleton.
Qed.

Lemma write_stats_inv self f groups :
  forall k tbl tbl',
    Forall (fun e => stat_balanced (snd e)) groups ->
    Forall balanced tbl -> NoDup (map bucket tbl) ->
    write_stats self f k groups tbl = Ok tbl' ->
    Forall balanced tbl' /\ NoDup (map bucket tbl').
Proof.
  induction groups as [|[key st] rest IH]; intros k tbl tbl' Hg Hb Hu H; cbn [write_stats] in H.
  - injection H as <-. auto.
  - bind_inv H. inversion Hg as [|? ? Hst Hrest]; subst. cbn [snd] in Hst.
    eapply IH; [exact Hrest | | | exact H].
    + apply insert_or_replace_balanced; [now apply stats_row_balanced | exact Hb].
    + now apply insert_or_replace_unique.
Qed.

Lemma update_market_stats_inv w self batch :
  Forall balanced (market_stats (db self)) /\ NoDup (map bucket (market_stats (db self))) ->
  Forall balanced (market_stats (db (fst (update_market_stats w self batch))))
  /\ NoDup (map bucket (market_stats (db (fst (update_market_stats w self batch))))).
Proof.
  intros [Hb Hu]. unfold update_market_stats. destruct batch as [|tr0 rest]; [auto|].
  match goal with |- context [commit_or_rollback ?s ?a ?f] =>
    destruct a as [[tb n]|e] eqn:Ha end.
  - bind_inv Ha. cbn [commit_or_rollback fst with_db db with_market_stats market_stats].
    eapply write_stats_inv; [| | |exact E0].
    + eapply group_trades_balanced; [|exact E]. constructor.
    + exact Hb.
    + exact Hu.
  - rewrite commit_or_rollback_failed. auto.
Qed.

Lemma save_trades_stats w self batch :
  market_stats (db (fst (save_trades w self batch))) = market_stats (db self).
Proof.
  unfold save_trades. destruct batch as [|tr0 rest]; [reflexivity|].
  match goal with |- context [commit_or_rollback ?s ?a ?f] =>
    destruct a as [[tb n]|e] eqn:Ha end.
  - bind_inv Ha. reflexivity.
  - rewrite commit_or_rollback_failed. reflexivity.
Qed.

Lemma save_book_snapshot_stats w self sym book :
  market_stats (db (fst (save_book_snapshot w self sym book))) = market_stats (db self).
Proof.
  unfold save_book_snapshot.
  match goal with |- context [commit_or_rollback ?s ?a ?f] =>
    destruct a as [[tb n]|e] eqn:Ha end.
  - bind_inv Ha. reflexivity.
  - rewrite commit_or_rollback_failed. reflexivity.
Qed.

Lemma update_price_levels_stats w self sym p vol lt :
  market_stats (db (fst (update_price_levels w self sym p vol lt))) = market_stats (db self).
Proof.
  unfold update_price_levels.
  match goal with |- context [commit_or_rollback ?s ?a ?f] =>
    destruct a as [[tb n]|e] eqn:Ha end.
  - bind_inv Ha. cbn [fst commit_or_rollback with_db db].
    destruct (find _ _) as [r|] in E2.
    + bind_inv E2. reflexivity.
    + bind_inv E2. destruct (valid_level_type _) in E2; [|discriminate].
      injection E2 as <-. reflexivity.
  - rewrite commit_or_rollback_failed. reflexivity.
Qed.

Lemma step_stats_inv w self op :
  Forall balanced (market_stats (db self)) /\ NoDup (map bucket (market_stats (db self))) ->
  Forall balanced (market_stats (db (step w self op)))
  /\ NoDup (map bucket (market_stats (db (step w self op)))).
Proof.
  intros Hinv. destruct op; cbn [step].
  - now rewrite update_price_levels_stats.
  - now rewrite save_trades_stats.
  - now apply update_market_stats_inv.
  - now rewrite save_book_snapshot_stats.
  - exact Hinv.
Qed.

(** *** What a bucket counts *)

Lemma upsert_stat_spec k tr acc :
  NoDup (map fst acc) ->
  NoDup (map fst (upsert_stat k tr acc))
  /\ (forall k' st', In (k', st') (upsert_stat k tr acc) ->
        (k' <> k /\ In (k', st') acc)
        \/ (k' = k /\ exists st, st' = add_trade st tr
                                 /\ (In (k, st) acc
                                     \/ (st = stat_default /\ ~ In k (map fst acc)))))
  /\ (forall k', In k' (map fst (upsert_stat k tr acc)) <-> In k' (map fst acc) \/ k' = k).
Proof.
  induction acc as [|[k0 st0] rest IH]; intros Hnd; cbn [upsert_stat].
  - split; [|split].
    + cbn. apply NoDup_singleton.
    + intros k' st' [H|[]]. injection H as <- <-. right. split; [reflexivity|].
      exists stat_default. split; [reflexivity|]. right. split; [reflexivity | intros []].
    + intros k'. cbn. split; [intros [<-|[]]; auto | intros [[]| <-]; auto].
  - cbn [map fst] in Hnd. apply NoDup_cons in Hnd as [Hk0 Hnd].
    destruct (IH Hnd) as (IH1 & IH2 & IH3).
    destruct (key_eqb k0 k) eqn:Hk.
    + apply key_eqb_eq in Hk. subst k0. split; [|split].
      * cbn [map fst]. apply NoDup_cons. auto.
      * intros k' st' [H|H].
        -- injection H as <- <-. right. split; [reflexivity|].
           exists st0. split; [reflexivity|]. left. now left.
        -- left. split; [|now right]. intros ->. apply Hk0, list_elem_of_In.
           apply in_map_iff. exists (k, st'). auto.
      * intros k'. cbn [map fst]. split; [intros [<-|H]; auto | intros [H| ->]; cbn; auto].
        left. now right.
    + apply key_eqb_neq in Hk. split; [|split].
      * cbn [map fst]. apply NoDup_cons. split; [|exact IH1].
        intros Hin. apply list_elem_of_In, IH3 in Hin as [Hin|Heq]; [|congruence].
        apply Hk0, list_elem_of_In, Hin.
      * intros k' st' [H|H].
        -- injection H as <- <-. left. split; [exact Hk | now left].
        -- destruct (IH2 k' st' H) as [[Hne Hin]|[-> (st & -> & Hst)]].
           ++ left. split; [exact Hne | now right].
           ++ right. split; [reflexivity|]. exists st. split; [reflexivity|].
              destruct Hst as [Hin|[-> Hout]]; [left; now right|].
              right. split; [reflexivity|]. cbn [map fst]. intros [Heq|Hin]; auto.
      * intros k'. cbn [map fst In]. rewrite IH3. tauto.
Qed.

Lemma filter_snoc {A} (f : A -> bool) (l : list A) (x : A) :
  List.filter f (l ++ [x]) = (List.filter f l ++ if f x then [x] else [])%list.
Proof. rewrite List.filter_app. cbn [List.filter]. now destruct (f x). Qed.

Lemma grouped_step day acc done tr h :
  trade_hour (timestamp tr) = Ok h ->
  grouped day acc done ->
  grouped day (upsert_stat (symbol tr, day, h) tr acc) (done ++ [tr]).
Proof.
  intros Hh (Hnd & Hcount & Hnone).
  destruct (upsert_stat_spec (symbol tr, day, h) tr acc Hnd) as (U1 & U2 & U3).
  assert (Hin_b : forall k, in_bucket day k tr = key_eqb (symbol tr, day, h) k)
    by (intros k; unfold in_bucket; now rewrite Hh).
  split; [exact U1 | split].
  - intros k st Hin. rewrite filter_snoc, length_app, Hin_b.
    destruct (U2 k st Hin) as [[Hne Hacc]|[-> (st0 & -> & Hst)]].
    + rewrite (proj2 (key_eqb_neq _ _)) by congruence.
      cbn [List.length]. rewrite (Hcount k st Hacc). lia.
    + rewrite key_eqb_refl. cbn [List.length add_trade st_trades].
      destruct Hst as [Hacc|[-> Hout]].
      * rewrite (Hcount _ st0 Hacc). lia.
      * rewrite (Hnone _ Hout). reflexivity.
  - intros k Hout. rewrite filter_snoc, Hin_b.
    assert (Hk : ~ In k (map fst acc) /\ k <> (symbol tr, day, h)).
    { split; intros H; apply Hout, U3; auto. }
    destruct Hk as [Hk1 Hk2]. rewrite (Hnone k Hk1).
    rewrite (proj2 (key_eqb_neq _ _)) by congruence. reflexivity.
Qed.

Lemma group_trades_grouped day batch :
  forall acc done groups,
    grouped day acc done ->
    group_trades day batch acc = Ok groups ->
    grouped day groups (done ++ batch).
Proof.
  induction batch as [|tr rest IH]; intros acc done groups Hg H; cbn [group_trades] in H.
  - injection H as <-. now rewrite app_nil_r.
  - bind_inv H. replace (done ++ tr :: rest)%list with ((done ++ [tr]) ++ rest)%list
      by now rewrite <- app_assoc.
    eapply IH; [|exact H]. now apply grouped_step.
Qed.

Lemma group_trades_total day batch :
  (forall tr, In tr batch -> exists h, trade_hour (timestamp tr) = Ok h) ->
  forall acc, exists groups, group_trades day batch acc = Ok groups.
Proof.
  induction batch as [|tr rest IH]; intros Hh acc; cbn [group_trades]; [eauto|].
  destruct (Hh tr (or_introl eq_refl)) as [h ->]. cbn [bind].
  apply IH. intros tr' Hin. apply Hh. now right.
Qed.

Lemma write_stats_total self groups :
  conn_open self = true ->
  forall k tbl,
    write_stats self NoFault k groups tbl
    = Ok (fold_left (fun t e => insert_or_replace (stats_row (fst e) (snd e)) t) groups tbl).
Proof.
  intros Hopen. induction groups as [|[key st] rest IH]; intros k tbl; cbn [write_stats fold_left].
  - reflexivity.
  - unfold connection. rewrite Hopen. cbn [bind stmt fst snd]. apply IH.
Qed.

(** A row of the table after the groups were written is a row that was
    there, of a bucket no group has, or the row of a group. *)
Lemma written_rows groups :
  forall tbl r,
    In r (fold_left (fun t e => insert_or_replace (stats_row (fst e) (snd e)) t) groups tbl) ->
    (In r tbl /\ forall e, In e groups -> bucket r <> fst e)
    \/ (exists e, In e groups /\ r = stats_row (fst e) (snd e)).
Proof.
  induction groups as [|[key st] rest IH]; intros tbl r Hin; cbn [fold_left] in Hin.
  - left. split; [exact Hin | intros e []].
  - destruct (IH _ _ Hin) as [[Hr Hrest]|(e & He & ->)].
    + unfold insert_or_replace in Hr. apply in_app_or in Hr as [Hr|[<-|[]]].
      * apply filter_In in Hr as [Hr Hneg]. left. split; [exact Hr|].
        intros e [<-|He]; [|now apply Hrest]. cbn [fst].
        apply negb_true_iff in Hneg. cbn [fst snd] in Hneg. intros Hb.
        assert (same_bucket (stats_row key st) r = true)
          by (apply same_bucket_eq; rewrite bucket_stats_row; congruence).
        congruence.
      * right. exists (key, st). split; [now left | reflexivity].
    + right. exists e. split; [now right | reflexivity].
Qed.

End MarketStatsFacts.

(** *** What the provider hands over *)

Module FreshFacts.
Import Py Model ExcelDataProvider Notions.

Lemma union_singleton_list (s : gset string) (h : string) (l : list string) :
  s ∪ {[ h ]} ∪ list_to_set l = s ∪ list_to_set (h :: l).
Proof. cbn [list_to_set]. set_solver. Qed.

Lemma union_nil (s : gset string) : s = s ∪ list_to_set [].
Proof. cbn [list_to_set]. set_solver. Qed.

Lemma not_in_after (s : gset string) (h x : string) : x ∉ s ∪ {[ h ]} -> x ∉ s /\ x <> h.
Proof. set_solver. Qed.

Lemma adds_none self self' l :
  processed_trades self' = processed_trades self -> adds self self' l l.
Proof.
  intros H. exists []. rewrite app_nil_r. cbn [map].
  split; [reflexivity | split; [constructor | split; [intros tr [] |]]].
  rewrite H. apply union_nil.
Qed.

Lemma adds_one self self' l tr :
  _create_trade_hash tr ∉ processed_trades self ->
  processed_trades self' = processed_trades self ∪ {[ _create_trade_hash tr ]} ->
  adds self self' l (l ++ [tr]).
Proof.
  intros Hnew H. exists [tr]. cbn [map].
  split; [reflexivity | split; [apply NoDup_singleton | split]].
  - intros tr' [<-|[]]. exact Hnew.
  - rewrite H. cbn [list_to_set]. set_solver.
Qed.

Lemma adds_trans self1 self2 self3 l1 l2 l3 :
  adds self1 self2 l1 l2 -> adds self2 self3 l2 l3 -> adds self1 self3 l1 l3.
Proof.
  intros (a1 & -> & Hnd1 & Hnew1 & Hp1) (a2 & -> & Hnd2 & Hnew2 & Hp2).
  exists (a1 ++ a2)%list. rewrite <- app_assoc, map_app.
  split; [reflexivity | split; [|split]].
  - apply NoDup_app. split; [exact Hnd1 | split; [|exact Hnd2]].
    intros x Hx1 Hx2. apply list_elem_of_In, in_map_iff in Hx2 as (tr & <- & Htr).
    apply (Hnew2 tr Htr). rewrite Hp1. apply elem_of_union_r, elem_of_list_to_set, Hx1.
  - intros tr Hin. apply in_app_or in Hin as [Hin|Hin]; [now apply Hnew1|].
    intros Hp. apply (Hnew2 tr Hin). rewrite Hp1. now apply elem_of_union_l.
  - rewrite Hp2, Hp1, list_to_set_app_L. set_solver.
Qed.

Lemma detect_new_adds symbol_key current :
  forall self fresh,
    adds self (fst (fst (detect_new self symbol_key current fresh)))
         fresh (snd (fst (detect_new self symbol_key current fresh))).
Proof.
  induction current as [|tr rest IH]; intros self fresh; cbn [detect_new].
  - cbn [fst snd]. now apply adds_none.
  - set (h := _create_trade_hash tr).
    destruct (bool_decide (h ∈ processed_trades self)) eqn:Hseen; cbn [negb].
    + (* already processed *)
      set (self2 := if negb (bool_decide (last_excel_state self !! row_key symbol_key tr = Some h))
                    then _ else self).
      assert (Hp2 : processed_trades self2 = processed_trades self)
        by (subst self2; destruct (negb _); reflexivity).
      match goal with |- context [if ?c then (self2, fresh, Raise KeyError) else _] =>
        destruct c end.
      * cbn [fst snd]. now apply adds_none.
      * cbn [andb]. eapply adds_trans; [apply adds_none, Hp2 | apply IH].
    + (* new *)
      apply bool_decide_eq_false in Hseen.
      set (self1 := with_processed_trades self (processed_trades self ∪ {[ h ]})).
      set (self2 := if negb (bool_decide (last_excel_state self1 !! row_key symbol_key tr = Some h))
                    then _ else self1).
      assert (Hp2 : processed_trades self2 = processed_trades self ∪ {[ h ]})
        by (subst self2; destruct (negb _); reflexivity).
      rewrite andb_false_r. cbn [andb].
      destruct (missing_timestamp tr).
      * cbn [fst snd]. now apply adds_one.
      * eapply adds_trans; [apply (adds_one self self2 fresh tr Hseen Hp2) | apply IH].
Qed.

Lemma take_initial_adds symbol_key sorted_trades :
  forall self initial,
    adds self (fst (fst (take_initial self symbol_key sorted_trades initial)))
         initial (snd (fst (take_initial self symbol_key sorted_trades initial))).
Proof.
  induction sorted_trades as [|tr rest IH]; intros self initial; cbn [take_initial].
  - cbn [fst snd]. now apply adds_none.
  - set (h := _create_trade_hash tr).
    destruct (bool_decide (h ∈ processed_trades self)) eqn:Hseen.
    + apply IH.
    + apply bool_decide_eq_false in Hseen.
      cbn [with_processed_trades with_last_excel_state processed_trades last_excel_state].
      match goal with |- context [if missing_timestamp tr then (?s, _, _) else _] =>
        assert (Hone : adds self s initial (initial ++ [tr]))
          by (apply adds_one; [exact Hseen | reflexivity]) end.
      destruct (missing_timestamp tr).
      * cbn [fst snd]. exact Hone.
      * eapply adds_trans; [exact Hone | apply IH].
Qed.

Lemma adds_same_set self0 self self' l l' :
  processed_trades self0 = processed_trades self ->
  adds self self' l l' -> adds self0 self' l l'.
Proof.
  intros H (added & E & Hnd & Hnew & Hp). exists added. rewrite H. auto.
Qed.

Lemma initial_trades_of_adds w self wdo_trades dol_trades :
  adds self (fst (fst (initial_trades_of w self wdo_trades dol_trades)))
       [] (snd (fst (initial_trades_of w self wdo_trades dol_trades))).
Proof.
  unfold initial_trades_of.
  destruct (sorted_with_keys w (clock_reads self) wdo_trades) as [wdo_sorted|e];
    [|now apply adds_none].
  match goal with |- context [take_initial ?s ?k ?l []] =>
    pose proof (take_initial_adds k l s []) as H1;
    destruct (take_initial s k l []) as [[self1 initial] r] end.
  cbn [fst snd] in H1.
  apply (adds_same_set self) in H1; [|reflexivity].
  destruct r as [u|e]; [|exact H1].
  destruct (sorted_with_keys w (clock_reads self1) dol_trades) as [dol_sorted|e];
    [|exact H1].
  eapply adds_trans; [exact H1|].
  match goal with |- context [take_initial ?s ?k ?l initial] =>
    pose proof (take_initial_adds k l s initial) as H2 end.
  eapply adds_same_set; [|exact H2]. reflexivity.
Qed.

(** The trades [observe] finds are pairwise distinct and new to the
    provider, on the first run and later. *)
Lemma observe_fresh w self wdo_trades dol_trades :
  NoDup (map _create_trade_hash (snd (fst (observe w self wdo_trades dol_trades))))
  /\ forall tr, In tr (snd (fst (observe w self wdo_trades dol_trades))) ->
                _create_trade_hash tr ∉ processed_trades self.
Proof.
  unfold observe. cbn [first_run processed_trades read_count last_excel_state clock_reads].
  destruct (first_run self).
  - match goal with |- context [initial_trades_of w ?s _ _] =>
      destruct (initial_trades_of_adds w s wdo_trades dol_trades)
        as (added & E & Hnd & Hnew & _) end.
    rewrite E. cbn [app]. auto.
  - unfold new_trades_of.
    match goal with |- context [detect_new ?s ?k wdo_trades []] =>
      pose proof (detect_new_adds k wdo_trades s []) as H1;
      destruct (detect_new s k wdo_trades []) as [[self1 fresh1] r1] end.
    cbn [fst snd] in H1.
    destruct r1 as [u|e].
    + pose proof (detect_new_adds "dolfut" dol_trades self1 fresh1) as H2.
      destruct (detect_new self1 "dolfut" dol_trades fresh1) as [[self2 fresh2] r2].
      cbn [fst snd] in H2.
      destruct (adds_trans _ _ _ _ _ _ H1 H2) as (added & E & Hnd & Hnew & _).
      destruct r2 as [u2|e2]; cbn [fst snd]; rewrite E; cbn [app]; auto.
    + destruct H1 as (added & E & Hnd & Hnew & _).
      cbn [fst snd]. rewrite E. cbn [app]. auto.
Qed.

(** On the first run nothing is pruned: the set then holds the hash of
    every trade found. *)
Lemma observe_first_run w self wdo_trades dol_trades :
  first_run self = true ->
  forall tr, In tr (snd (fst (observe w self wdo_trades dol_trades))) ->
             _create_trade_hash tr
             ∈ processed_trades (fst (fst (observe w self wdo_trades dol_trades))).
Proof.
  intros Hfirst. unfold observe.
  cbn [first_run processed_trades read_count last_excel_state clock_reads].
  rewrite Hfirst.
  match goal with |- context [initial_trades_of w ?s _ _] =>
    destruct (initial_trades_of_adds w s wdo_trades dol_trades)
      as (added & E & _ & _ & Hp) end.
  rewrite E, Hp. cbn [app]. intros tr Hin.
  apply elem_of_union_r, elem_of_list_to_set, list_elem_of_In, in_map, Hin.
Qed.


(** What [get_data] returns is what [observe] found, in another order. *)
Lemma get_data_observed w self wdo_trades dol_trades wdo_book dol_book self' d :
  get_data w self wdo_trades dol_trades wdo_book dol_book = (self', Some d) ->
  Permutation (data_trades d) (snd (fst (observe w self wdo_trades dol_trades)))
  /\ processed_trades self'
     = processed_trades (fst (fst (observe w self wdo_trades dol_trades)))
  /\ data_trades d <> [].
Proof.
  unfold get_data.
  destruct (observe w self wdo_trades dol_trades) as [[self1 fresh] r]. cbn [fst snd].
  destruct r as [u|e]; [|discriminate].
  destruct fresh as [|tr0 rest]; [discriminate|].
  destruct (sorted_with_keys w (clock_reads self1) (tr0 :: rest)) as [keyed|e] eqn:Hs;
    [|discriminate].
  intros H. injection H as <- <-. cbn [data_trades].
  apply ProviderFacts.sorted_with_keys_spec in Hs as [Hperm _].
  split; [exact Hperm | split; [reflexivity|]].
  intros Hnil. rewrite Hnil in Hperm. now apply Permutation_nil_cons in Hperm.
Qed.

(** A batch of pairwise distinct trades that are new to the
    deduplicator is Unique throughout. *)
Lemma classify_fresh batch :
  forall seen : gset string,
    NoDup (map Spec.identity batch) ->
    (forall tr, In tr batch -> Spec.identity tr ∉ seen) ->
    Spec.classify seen batch = map (fun tr => (tr, TapeReadingEngine.Unique)) batch.
Proof.
  induction batch as [|tr rest IH]; intros seen Hnd Hnew; [reflexivity|].
  cbn [Spec.classify map]. cbn [map] in Hnd. apply NoDup_cons in Hnd as [Hhd Hnd].
  rewrite bool_decide_eq_false_2 by (apply Hnew; now left).
  rewrite IH; [reflexivity | exact Hnd |].
  intros tr' Hin Hseen. apply elem_of_union in Hseen as [Hseen|Hseen].
  - apply (Hnew tr'); [now right | exact Hseen].
  - apply elem_of_singleton in Hseen. apply Hhd. rewrite <- Hseen.
    apply list_elem_of_In, in_map, Hin.
Qed.

End FreshFacts.

(** *** Bars and scores of the exhaustion detector *)

Module ExhaustionFacts.
Import Py Model ExhaustionDetector Notions.

Lemma Zsum_from (l : list Z) (acc : Z) : fold_left Z.add l acc = acc + Zsum l.
Proof.
  unfold Zsum. revert acc. induction l as [|x l IH]; intros acc; cbn [fold_left]; [lia|].
  rewrite (IH (acc + x)), (IH (0 + x)). lia.
Qed.

Lemma Zsum_cons (x : Z) (l : list Z) : Zsum (x :: l) = x + Zsum l.
Proof. unfold Zsum at 1. cbn [fold_left]. rewrite Zsum_from. lia. Qed.

Lemma Zsum_app (l1 l2 : list Z) : Zsum (l1 ++ l2) = Zsum l1 + Zsum l2.
Proof.
  induction l1 as [|x l1 IH]; [reflexivity|].
  cbn [app]. rewrite !Zsum_cons, IH. lia.
Qed.

(** *** Slices *)

Lemma slices_spec {A} (n : nat) :
  (1 <= n)%nat ->
  forall fuel (l : list A),
    (List.length l <= fuel)%nat ->
    concat (slices fuel n l) = l
    /\ Forall (fun c => c <> []) (slices fuel n l)
    /\ (List.length l <= List.length (slices fuel n l) * n)%nat.
Proof.
  intros Hn. induction fuel as [|fuel IH]; intros l Hl.
  - destruct l; [|cbn in Hl; lia]. cbn. repeat split; [constructor | lia].
  - cbn [slices]. destruct l as [|x l']; [cbn; repeat split; [constructor | lia]|].
    destruct (IH (skipn n (x :: l'))) as (Hc & Hne & Hlen).
    { rewrite length_skipn. cbn [List.length] in *. lia. }
    cbn [concat]. rewrite Hc, firstn_skipn. split; [reflexivity | split].
    + constructor; [|exact Hne]. destruct n; [lia | discriminate].
    + cbn [List.length]. rewrite length_skipn in Hlen. cbn [List.length] in *. lia.
Qed.

(** *** The bar of a group *)

Lemma Qltb_true (a b : Q) : Qltb a b = true -> (a < b)%Q.
Proof.
  unfold Qltb. rewrite negb_true_iff. intros H. apply Qnot_le_lt. intros Hle.
  apply Qle_bool_iff in Hle. congruence.
Qed.

Lemma Qltb_not (a b : Q) : Qltb a b = false -> (b <= a)%Q.
Proof.
  unfold Qltb. rewrite negb_false_iff. apply Qle_bool_iff.
Qed.

Lemma max_from_bounds (r : list Q) :
  forall x, (x <= max_from x r)%Q /\ forall y, In y r -> (y <= max_from x r)%Q.
Proof.
  unfold max_from. induction r as [|z r IH]; intros x; cbn [fold_left].
  - split; [apply Qle_refl | intros y []].
  - destruct (Qltb x z) eqn:E.
    + destruct (IH z) as [H1 H2]. apply Qltb_true in E. split.
      * eapply Qle_trans; [apply Qlt_le_weak, E | exact H1].
      * intros y [<-|Hy]; [exact H1 | now apply H2].
    + destruct (IH x) as [H1 H2]. apply Qltb_not in E. split; [exact H1|].
      intros y [<-|Hy]; [eapply Qle_trans; [exact E | exact H1] | now apply H2].
Qed.

Lemma min_from_bounds (r : list Q) :
  forall x, (min_from x r <= x)%Q /\ forall y, In y r -> (min_from x r <= y)%Q.
Proof.
  unfold min_from. induction r as [|z r IH]; intros x; cbn [fold_left].
  - split; [apply Qle_refl | intros y []].
  - destruct (Qltb z x) eqn:E.
    + destruct (IH z) as [H1 H2]. apply Qltb_true in E. split.
      * eapply Qle_trans; [exact H1 | apply Qlt_le_weak, E].
      * intros y [<-|Hy]; [exact H1 | now apply H2].
    + destruct (IH x) as [H1 H2]. apply Qltb_not in E. split; [exact H1|].
      intros y [<-|Hy]; [eapply Qle_trans; [exact H1 | exact E] | now apply H2].
Qed.

Lemma last_In {A} (x d : A) (l : list A) : In (List.last (x :: l) d) (x :: l).
Proof.
  destruct (exists_last (l := x :: l)) as (l' & a & E); [discriminate|].
  rewrite E, last_last. apply in_or_app. right. now left.
Qed.

Lemma bar_of_spec (c : list Trade) (b : Bar) :
  bar_of c = Some b ->
  well_formed b
  /\ bar_trades b = Z.of_nat (List.length c)
  /\ bar_volume b = Zsum (map volume c)
  /\ In (bar_close b) (map price c).
Proof.
  destruct c as [|first rest]; [discriminate|]. cbn [bar_of]. intros H. injection H as <-.
  cbn [bar_trades bar_volume bar_close bar_open bar_high bar_low].
  destruct (max_from_bounds (map price rest) (price first)) as [Hmax1 Hmax2].
  destruct (min_from_bounds (map price rest) (price first)) as [Hmin1 Hmin2].
  assert (Hlast : In (price (List.last (first :: rest) first)) (map price (first :: rest)))
    by (apply in_map, last_In).
  assert (Hall : forall y, In y (map price (first :: rest)) ->
                 (min_from (price first) (map price rest) <= y)%Q
                 /\ (y <= max_from (price first) (map price rest))%Q).
  { intros y [<-|Hy]; [split; assumption | split; [now apply Hmin2 | now apply Hmax2]]. }
  destruct (Hall _ Hlast) as [Hc1 Hc2].
  split; [|split; [reflexivity | split; [reflexivity | exact Hlast]]].
  split; [cbn [bar_trades List.length]; lia|].
  split; [exact Hmin1|]. split; [exact Hmax1|]. split; [exact Hc1 | exact Hc2].
Qed.

Lemma omap_bar_of (cs : list (list Trade)) :
  Forall (fun c => c <> []) cs ->
  Forall2 (fun c b => bar_of c = Some b) cs (omap bar_of cs).
Proof.
  induction 1 as [|c cs Hc _ IH]; [constructor|].
  destruct c as [|first rest]; [congruence|]. cbn [omap bar_of]. now constructor.
Qed.

Lemma bars_sums (cs : list (list Trade)) (bars : list Bar) :
  Forall2 (fun c b => bar_of c = Some b) cs bars ->
  Zsum (map bar_trades bars) = Z.of_nat (List.length (concat cs))
  /\ Zsum (map bar_volume bars) = Zsum (map volume (concat cs))
  /\ Forall well_formed bars
  /\ forall b, In b bars -> In (bar_close b) (map price (concat cs)).
Proof.
  induction 1 as [|c b cs bars Hb _ IH]; [cbn; repeat split; [constructor | intros b []]|].
  destruct IH as (IH1 & IH2 & IH3 & IH4).
  destruct (bar_of_spec c b Hb) as (Hw & Ht & Hv & Hc).
  cbn [map concat]. rewrite !Zsum_cons, length_app, !map_app, Zsum_app, IH1, IH2, Ht, Hv.
  split; [lia | split; [reflexivity | split]].
  - now constructor.
  - intros b' [<-|Hin]; apply in_or_app; [now left | right; now apply IH4].
Qed.

(** [_create_bars] with a number of bars other than 0: the bars of groups
    that cut the trades, none of them empty. *)
Lemma create_bars_spec (trades : list Trade) (num_bars : Z) :
  num_bars <> 0 ->
  exists cs,
    _create_bars trades num_bars = Ok (omap bar_of cs)
    /\ concat cs = trades
    /\ Forall (fun c => c <> []) cs
    /\ (Z.of_nat (List.length trades)
        <= Z.of_nat (List.length cs)
           * Z.max 1 (Z.of_nat (List.length trades) / num_bars)).
Proof.
  intros Hn. unfold _create_bars. destruct trades as [|tr0 rest].
  - exists []. cbn. repeat split; [constructor | lia].
  - rewrite (proj2 (Z.eqb_neq _ _) Hn).
    set (per := Z.max 1 (Z.of_nat (List.length (tr0 :: rest)) / num_bars)).
    destruct (slices_spec (Z.to_nat per) ltac:(lia)
                (List.length (tr0 :: rest)) (tr0 :: rest) ltac:(lia)) as (Hc & Hne & Hlen).
    eexists. split; [reflexivity|]. split; [exact Hc|]. split; [exact Hne|]. nia.
Qed.

(** *** Scores *)

Lemma declines_bounds (rate : Q) (x : list Q) :
  0 <= declines rate x /\ declines rate x <= Z.max 0 (Z.of_nat (List.length x) - 1).
Proof.
  induction x as [|a x IH]; [cbn; lia|].
  destruct x as [|b x]; [cbn; lia|].
  change (declines rate (a :: b :: x))
    with ((if Qltb b (a * rate) then 1 else 0) + declines rate (b :: x)).
  cbn [List.length] in *. destruct (Qltb b (a * rate)); lia.
Qed.

Lemma decline_score_bounds (rate : Q) (x : list Q) :
  (0 <= decline_score rate x)%Q /\ (decline_score rate x <= 1)%Q.
Proof.
  unfold decline_score. destruct (declines_bounds rate x) as [H0 H1].
  destruct (Z.ltb_spec 1 (Z.of_nat (List.length x))) as [Hlen|Hlen];
    [|split; [apply Qle_refl | discriminate]].
  assert (Hpos : (0 < inject_Z (Z.of_nat (List.length x) - 1))%Q)
    by (change 0%Q with (inject_Z 0); rewrite <- Zlt_Qlt; lia).
  split.
  - apply Qle_shift_div_l; [exact Hpos|]. rewrite Qmult_0_l.
    change 0%Q with (inject_Z 0). rewrite <- Zle_Qle. exact H0.
  - apply Qle_shift_div_r; [exact Hpos|]. rewrite Qmult_1_l.
    rewrite <- Zle_Qle. lia.
Qed.

Lemma check_momentum_bounds self bars :
  (0 <= _check_momentum_decline self bars)%Q /\ (_check_momentum_decline self bars <= 1)%Q.
Proof.
  unfold _check_momentum_decline. destruct (_ <? 2);
    [split; [apply Qle_refl | discriminate] | apply decline_score_bounds].
Qed.

Lemma check_volume_bounds self bars :
  (0 <= _check_volume_decline self bars)%Q /\ (_check_volume_decline self bars <= 1)%Q.
Proof.
  unfold _check_volume_decline. destruct (_ <? 2);
    [split; [apply Qle_refl | discriminate] | apply decline_score_bounds].
Qed.

Lemma Qneb_pos (q : Q) : (0 <= q)%Q -> Qneb q 0 = true -> (0 < q)%Q.
Proof.
  intros H0 Hne. apply Qle_lteq in H0 as [Hlt|Heq]; [exact Hlt|].
  unfold Qneb in Hne. apply negb_true_iff in Hne.
  assert (Qeq_bool q 0 = true) by (apply Qeq_bool_iff; now symmetry). congruence.
Qed.

(** *** A flat tape *)

Lemma changes_flat (p : Q) (closes : list Q) :
  Forall (fun c => c == p)%Q closes -> Forall (fun c => c == 0)%Q (changes closes).
Proof.
  induction 1 as [|a closes Ha Hrest IH]; [constructor|].
  destruct closes as [|b closes]; [constructor|].
  change (changes (a :: b :: closes)) with (Qabs (b - a) :: changes (b :: closes)).
  constructor; [|exact IH].
  inversion Hrest as [|? ? Hb _]; subst. rewrite Ha, Hb.
  setoid_replace (p - p)%Q with 0%Q using relation Qeq by ring. reflexivity.
Qed.

Lemma declines_zero (rate : Q) (x : list Q) :
  Forall (fun c => c == 0)%Q x -> declines rate x = 0.
Proof.
  induction 1 as [|a x Ha Hrest IH]; [reflexivity|].
  destruct x as [|b x]; [reflexivity|].
  change (declines rate (a :: b :: x))
    with ((if Qltb b (a * rate) then 1 else 0) + declines rate (b :: x)).
  rewrite IH. inversion Hrest as [|? ? Hb _]; subst.
  assert (Hf : Qltb b (a * rate) = false).
  { unfold Qltb. apply negb_false_iff, Qle_bool_iff. rewrite Ha, Hb. rewrite Qmult_0_l.
    apply Qle_refl. }
  rewrite Hf. reflexivity.
Qed.

Lemma decline_score_zero (rate : Q) (x : list Q) :
  declines rate x = 0 -> Qneb (decline_score rate x) 0 = false.
Proof.
  intros H. unfold decline_score. rewrite H. unfold Qneb. apply negb_false_iff, Qeq_bool_iff.
  destruct (_ <? _); [|reflexivity]. unfold Qdiv. apply Qmult_0_l.
Qed.

(** With a number of bars other than 0 the bars are made, and when
    between 1 and [len(trades)] are asked for, at least that many. *)
Lemma create_bars_count (trades : list Trade) (num_bars : Z) :
  num_bars <> 0 ->
  exists bars,
    _create_bars trades num_bars = Ok bars
    /\ (1 <= num_bars <= Z.of_nat (List.length trades) ->
        num_bars <= Z.of_nat (List.length bars)).
Proof.
  intros Hn. destruct (create_bars_spec trades num_bars Hn) as (cs & Hbars & Hc & Hne & Hcount).
  exists (omap bar_of cs). split; [exact Hbars|].
  pose proof (omap_bar_of cs Hne) as Hall.
  intros [H1 H2]. rewrite <- (Forall2_length _ _ _ Hall).
  pose proof (Z.mul_div_le (Z.of_nat (List.length trades)) num_bars ltac:(lia)) as Hq.
  assert (Hq1 : 1 <= Z.of_nat (List.length trades) / num_bars)
    by (apply Z.div_le_lower_bound; lia).
  rewrite Z.max_r in Hcount by lia. nia.
Qed.

End ExhaustionFacts.


(** *** The counters and the buffer of the engine *)

Module AccountFacts.
Import Py Model TapeReadingEngine Notions DatabaseFacts StorageFacts.

(** The loop adds to the buffer exactly the trades it counts as
    processed, whether it ends normally or not. *)
Lemma process_loop_buffer w batch :
  forall self dups,
    let self' := fst (fst (fst (process_loop w self dups batch))) in
    trades_processed (stats self') - Z.of_nat (List.length (trade_buffer self'))
    = trades_processed (stats self) - Z.of_nat (List.length (trade_buffer self))
    /\ trades_saved (stats self') = trades_saved (stats self).
Proof.
  induction batch as [|tr rest IH]; intros self dups; cbv zeta.
  - cbn [process_loop fst]. auto.
  - cbn [process_loop].
    destruct (bool_decide (_ ∈ saved_trade_hashes self)).
    + specialize (IH self (dups + 1)). cbv zeta in IH.
      destruct (process_loop w self (dups + 1) rest) as [[[self' dups'] log] r].
      exact IH.
    + cbn [with_stats with_trade_buffer with_saved_trade_hashes db_manager].
      destruct (DatabaseManager.update_price_levels _ _ _ _ _ _) as [db' [u|e]].
      * match goal with |- context [process_loop w ?s dups rest] =>
          pose proof (IH s dups) as IH'; cbv zeta in IH';
          destruct (process_loop w s dups rest) as [[[self' dups'] log] r] end.
        cbn [fst] in *.
        cbn [with_db_manager with_saved_trade_hashes with_trade_buffer with_stats
             stats trade_buffer add_trades_processed trades_processed trades_saved] in IH'.
        rewrite length_app in IH'. cbn [List.length] in IH'. split; [lia | tauto].
      * cbn [fst with_db_manager with_saved_trade_hashes with_trade_buffer with_stats
             stats trade_buffer add_trades_processed trades_processed trades_saved].
        rewrite length_app. cbn [List.length]. split; [lia | reflexivity].
Qed.

(** [save_trades] returns a count only on a usable connection. *)
Lemma save_trades_ok_open w self batch n :
  batch <> [] ->
  snd (DatabaseManager.save_trades w self batch) = Ok n ->
  DatabaseManager.conn_open self = true.
Proof.
  intros Hne. unfold DatabaseManager.save_trades. destruct batch as [|tr0 rest]; [congruence|].
  destruct (DatabaseManager.conn_open self) eqn:Hopen; [reflexivity|].
  unfold DatabaseManager.commit_or_rollback, DatabaseManager.connection.
  cbn [DatabaseManager.tick DatabaseManager.conn_open]. rewrite Hopen. cbn [bind snd].
  discriminate.
Qed.

Lemma flush_accounted w self : accounted self -> accounted (_save_trades_batch w self).
Proof.
  unfold accounted, _save_trades_batch. intros Hinv.
  destruct (trade_buffer self) as [|tr0 rest] eqn:Hbuf; [now rewrite Hbuf|].
  pose proof (FlushFacts.save_trades_atomic w (db_manager self) (tr0 :: rest)) as Hat.
  pose proof (save_trades_ok_open w (db_manager self) (tr0 :: rest)) as Hopen.
  pose proof (save_trades_open w (db_manager self) (tr0 :: rest)) as Hopen1.
  cbv zeta in Hat.
  destruct (DatabaseManager.save_trades w (db_manager self) (tr0 :: rest)) as [db1 [n|e]];
    cbn [fst snd] in *.
  - specialize (Hopen n ltac:(discriminate) eq_refl). rewrite Hopen in Hopen1.
    assert (Hn : 0 <= n <= Z.of_nat (List.length (tr0 :: rest))).
    { destruct Hat as [(_ & _ & _ & Hn)|(_ & [Hn|[e He]])]; [| |discriminate];
        injection Hn as ->; cbn [List.length]; lia. }
    cbn [with_stats with_db_manager trade_buffer db_manager stats validate].
    rewrite Hbuf.
    pose proof (update_market_stats_returns w db1 (tr0 :: rest) Hopen1) as Hr2.
    destruct (DatabaseManager.update_market_stats w db1 (tr0 :: rest)) as [db2 r2].
    cbn [snd] in Hr2. subst r2.
    match goal with |- context [if ?c then _ else _] => destruct c end;
      cbn [with_trade_buffer with_stats with_db_manager stats trade_buffer
           add_validation_errors add_trades_saved trades_saved trades_processed List.length];
      lia.
  - cbn [with_db_manager stats trade_buffer]. rewrite Hbuf. exact Hinv.
Qed.

Lemma process_trades_accounted w self batch :
  accounted self -> accounted (fst (fst (_process_trades w self batch))).
Proof.
  unfold _process_trades. intros Hinv.
  pose proof (process_loop_buffer w batch self 0) as Hloop. cbv zeta in Hloop.
  destruct (process_loop w self 0 batch) as [[[self1 dups] log] r]. cbn [fst] in Hloop.
  assert (H1 : accounted self1) by (unfold accounted in *; lia).
  destruct r as [u|e]; [|exact H1].
  set (self2 := if 0 <? dups then _ else self1).
  assert (H2 : accounted self2) by (subst self2; destruct (0 <? dups); exact H1).
  set (self3 := if max_saved_hashes <? _ then _ else self2).
  assert (H3 : accounted self3) by (subst self3; destruct (max_saved_hashes <? _); exact H2).
  cbn [fst]. destruct (save_interval self3 <=? _); [now apply flush_accounted | exact H3].
Qed.

Lemma save_snapshots_accounted w book symbols :
  forall self, accounted self -> accounted (fst (save_snapshots w self book symbols)).
Proof.
  induction symbols as [|sym rest IH]; intros self Hinv; cbn [save_snapshots]; [exact Hinv|].
  destruct (bids book) as [|b bs]; [now apply IH|].
  destruct (asks book) as [|a as']; [now apply IH|].
  destruct (DatabaseManager.save_book_snapshot _ _ _ _) as [db' [success|e]]; [|exact Hinv].
  apply IH. destruct success; exact Hinv.
Qed.

Lemma process_book_accounted w self book :
  accounted self -> accounted (_process_book w self book).
Proof.
  intros Hinv. unfold _process_book.
  destruct (_book_changed_significantly self book); [|exact Hinv].
  pose proof (save_snapshots_accounted w book ["WDOFUT"; "DOLFUT"] self Hinv) as H.
  destruct (save_snapshots _ _ _ _) as [self' [u|e]]; exact H.
Qed.

Lemma cycle_accounted w self data :
  accounted self -> accounted (fst (fst (cycle w self data))).
Proof.
  intros Hinv. unfold cycle. destruct data as [d|]; [|exact Hinv].
  assert (H1 : accounted
                 (fst (fst (match data_trades d with
                            | [] => (self, [], Ok tt)
                            | _ :: _ => _process_trades w self (data_trades d)
                            end)))).
  { destruct (data_trades d); [exact Hinv | now apply process_trades_accounted]. }
  destruct (match data_trades d with [] => _ | _ :: _ => _ end) as [[self1 log] r].
  cbn [fst] in H1. destruct r as [u|e]; [|exact H1].
  cbn [fst]. destruct (save_book_snapshots self1); [now apply process_book_accounted | exact H1].
Qed.

Lemma cycles_accounted w polls :
  forall self, accounted self -> accounted (fst (cycles w self polls)).
Proof.
  induction polls as [|data rest IH]; intros self Hinv; cbn [cycles]; [exact Hinv|].
  pose proof (cycle_accounted w self data Hinv) as H1.
  destruct (cycle w self data) as [[self1 log] r]. cbn [fst] in H1.
  destruct r as [u|e]; [|exact H1].
  specialize (IH self1 H1). destruct (cycles w self1 rest) as [self2 log2]. exact IH.
Qed.

End AccountFacts.

(** *** A run that meets no fault *)

Module NoFaultFacts.
Import Py Model TapeReadingEngine Spec Notions DatabaseFacts StorageFacts DedupFacts RunFacts.

Lemma uniques_app log1 log2 : uniques (log1 ++ log2) = (uniques log1 ++ uniques log2)%list.
Proof. unfold uniques. now rewrite List.filter_app, map_app. Qed.

Lemma uniques_classify_In seen batch :
  forall tr, In tr (uniques (classify seen batch)) -> In tr batch.
Proof.
  revert seen. induction batch as [|x rest IH]; intros seen tr; cbn [classify]; [intros []|].
  destruct (bool_decide _); unfold uniques; cbn [List.filter snd is_class map fst].
  - intros H. right. exact (IH _ _ H).
  - intros [<-|H]; [now left | right; exact (IH _ _ H)].
Qed.

Lemma update_price_levels_trades w self sym p vol lt :
  DatabaseManager.trades (DatabaseManager.db
    (fst (DatabaseManager.update_price_levels w self sym p vol lt)))
  = DatabaseManager.trades (DatabaseManager.db self).
Proof.
  unfold DatabaseManager.update_price_levels.
  match goal with |- context [DatabaseManager.commit_or_rollback ?s ?a ?f] =>
    destruct a as [[tb n]|e] eqn:Ha end.
  - bind_inv Ha. cbn [fst DatabaseManager.commit_or_rollback DatabaseManager.with_db
                      DatabaseManager.db].
    destruct (find _ _) as [r|] in E2.
    + bind_inv E2. reflexivity.
    + bind_inv E2. destruct (DatabaseManager.valid_level_type _) in E2; [|discriminate].
      injection E2 as <-. reflexivity.
  - rewrite commit_or_rollback_failed. reflexivity.
Qed.

Lemma save_book_snapshot_trades w self sym book :
  DatabaseManager.trades (DatabaseManager.db
    (fst (DatabaseManager.save_book_snapshot w self sym book)))
  = DatabaseManager.trades (DatabaseManager.db self).
Proof.
  unfold DatabaseManager.save_book_snapshot.
  match goal with |- context [DatabaseManager.commit_or_rollback ?s ?a ?f] =>
    destruct a as [[tb n]|e] eqn:Ha end.
  - bind_inv Ha. reflexivity.
  - rewrite commit_or_rollback_failed. reflexivity.
Qed.

(** The loop appends to the buffer the trades it classifies as Unique
    and leaves the table of trades alone. *)
Lemma process_loop_buffer_log w batch :
  forall self dups,
    let res := process_loop w self dups batch in
    trade_buffer (fst (fst (fst res))) = (trade_buffer self ++ uniques (snd (fst res)))%list
    /\ DatabaseManager.trades (DatabaseManager.db (db_manager (fst (fst (fst res)))))
       = DatabaseManager.trades (DatabaseManager.db (db_manager self)).
Proof.
  induction batch as [|tr rest IH]; intros self dups; cbv zeta.
  - cbn [process_loop fst snd]. unfold uniques. cbn. now rewrite app_nil_r.
  - cbn [process_loop].
    destruct (bool_decide (_ ∈ saved_trade_hashes self)).
    + specialize (IH self (dups + 1)). cbv zeta in IH.
      destruct (process_loop w self (dups + 1) rest) as [[[self' dups'] log] r].
      cbn [fst snd] in *. exact IH.
    + cbn [with_stats with_trade_buffer with_saved_trade_hashes db_manager].
      pose proof (update_price_levels_trades w (db_manager self)
                    (symbol tr) (price tr) (volume tr) None) as Htr.
      destruct (DatabaseManager.update_price_levels _ _ _ _ _ _) as [db' [u|e]];
        cbn [fst] in Htr.
      * match goal with |- context [process_loop w ?s dups rest] =>
          pose proof (IH s dups) as IH'; cbv zeta in IH';
          destruct (process_loop w s dups rest) as [[[self' dups'] log] r] end.
        cbn [fst snd] in *.
        cbn [with_db_manager with_saved_trade_hashes with_trade_buffer with_stats
             trade_buffer db_manager] in IH'.
        destruct IH' as [IH1 IH2]. split; [|congruence].
        rewrite IH1. unfold uniques. cbn [List.filter snd is_class map fst].
        now rewrite <- app_assoc.
      * cbn [fst snd with_db_manager with_saved_trade_hashes with_trade_buffer with_stats
             trade_buffer db_manager]. split; [reflexivity | exact Htr].
Qed.

Lemma executemany_total batch rows :
  Forall2 (fun tr row => DatabaseManager.trade_row tr = Ok row) batch rows ->
  forall k tbl, DatabaseManager.executemany NoFault k batch tbl = Ok (tbl ++ rows)%list.
Proof.
  induction 1 as [|tr row batch rows Hrow _ IH]; intros k tbl; cbn [DatabaseManager.executemany].
  - now rewrite app_nil_r.
  - cbn [DatabaseManager.stmt bind]. rewrite Hrow. cbn [bind]. rewrite IH.
    now rewrite <- app_assoc.
Qed.

Lemma storable_rows (l : list Trade) :
  Forall storable l ->
  exists rows, Forall2 (fun tr row => DatabaseManager.trade_row tr = Ok row) l rows.
Proof.
  induction 1 as [|tr l [row Hrow] _ [rows IH]]; [exists []; constructor|].
  exists (row :: rows). now constructor.
Qed.

(** Without fault a flush stores the buffer and empties it. *)
Lemma flush_stores w self rows :
  (forall n, io_fault w n = NoFault) ->
  DatabaseManager.conn_open (db_manager self) = true ->
  Forall2 (fun tr row => DatabaseManager.trade_row tr = Ok row) (trade_buffer self) rows ->
  trade_buffer (_save_trades_batch w self) = []
  /\ DatabaseManager.trades (DatabaseManager.db (db_manager (_save_trades_batch w self)))
     = (DatabaseManager.trades (DatabaseManager.db (db_manager self)) ++ rows)%list
  /\ DatabaseManager.conn_open (db_manager (_save_trades_batch w self)) = true.
Proof.
  intros Hw Hopen Hrows. rewrite flush_open. split; [now apply FlushFacts.flush_clears_buffer|].
  split; [|exact Hopen].
  unfold _save_trades_batch.
  destruct (trade_buffer self) as [|tr0 rest] eqn:Hbuf.
  - inversion Hrows; subst. now rewrite app_nil_r.
  - assert (Hsave : DatabaseManager.save_trades w (db_manager self) (tr0 :: rest)
                    = (DatabaseManager.with_db (DatabaseManager.tick (db_manager self))
                         (DatabaseManager.with_trades (DatabaseManager.db (db_manager self))
                            (DatabaseManager.trades (DatabaseManager.db (db_manager self))
                             ++ rows)),
                       Ok (Z.of_nat (List.length (tr0 :: rest))))).
    { unfold DatabaseManager.save_trades. rewrite Hw.
      unfold DatabaseManager.connection.
      cbn [DatabaseManager.tick DatabaseManager.conn_open DatabaseManager.db].
      rewrite Hopen. cbn [bind].
      rewrite (executemany_total _ _ Hrows). cbn [bind DatabaseManager.stmt].
      reflexivity. }
    rewrite Hsave.
    cbn [with_stats with_db_manager trade_buffer db_manager stats validate].
    rewrite Hbuf.
    match goal with |- context [DatabaseManager.update_market_stats w ?d ?b] =>
      pose proof (update_market_stats_trades w d b) as Ht2;
      destruct (DatabaseManager.update_market_stats w d b) as [db2 [u|e]] end;
      cbn [fst] in Ht2;
      cbn [DatabaseManager.with_db DatabaseManager.db DatabaseManager.with_trades
           DatabaseManager.trades] in Ht2.
    + match goal with |- context [if ?c then _ else _] => destruct c end; exact Ht2.
    + exact Ht2.
Qed.

Lemma save_snapshots_keeps_trades w book symbols :
  forall self,
    trade_buffer (fst (save_snapshots w self book symbols)) = trade_buffer self
    /\ DatabaseManager.trades
         (DatabaseManager.db (db_manager (fst (save_snapshots w self book symbols))))
       = DatabaseManager.trades (DatabaseManager.db (db_manager self)).
Proof.
  induction symbols as [|sym rest IH]; intros self; cbn [save_snapshots]; [auto|].
  destruct (bids book) as [|b bs]; [apply IH|].
  destruct (asks book) as [|a as']; [apply IH|].
  pose proof (save_book_snapshot_trades w (db_manager self) sym book) as Ht.
  destruct (DatabaseManager.save_book_snapshot _ _ _ _) as [db' [success|e]]; cbn [fst] in *.
  - match goal with |- context [save_snapshots w ?s book rest] =>
      destruct (IH s) as [IH1 IH2] end.
    rewrite IH1, IH2. destruct success; cbn; auto.
  - cbn. auto.
Qed.

Lemma process_book_keeps_trades w self book :
  trade_buffer (_process_book w self book) = trade_buffer self
  /\ DatabaseManager.trades (DatabaseManager.db (db_manager (_process_book w self book)))
     = DatabaseManager.trades (DatabaseManager.db (db_manager self)).
Proof.
  unfold _process_book. destruct (_book_changed_significantly self book); [|auto].
  pose proof (save_snapshots_keeps_trades w book ["WDOFUT"; "DOLFUT"] self) as H.
  destruct (save_snapshots _ _ _ _) as [self' [u|e]]; cbn [fst] in H; exact H.
Qed.

(** *** The invariant of a run without fault *)

Lemma flush_stores_uniques before w self log :
  (forall n, io_fault w n = NoFault) ->
  stores_uniques before self log ->
  stores_uniques before (_save_trades_batch w self) log
  /\ trade_buffer (_save_trades_batch w self) = [].
Proof.
  intros Hw (Hopen & Hst & stored & rows & Hlog & Hrows & Htbl).
  destruct (storable_rows _ Hst) as [rows' Hrows'].
  destruct (flush_stores w self rows' Hw Hopen Hrows') as (Hbuf & Htr & Hopen').
  split; [|exact Hbuf].
  split; [exact Hopen' | split; [rewrite Hbuf; constructor|]].
  exists (stored ++ trade_buffer self)%list, (rows ++ rows')%list.
  rewrite Hbuf, app_nil_r, Htr, Htbl, <- app_assoc.
  split; [exact Hlog | split; [|reflexivity]].
  now apply Forall2_app.
Qed.

Lemma process_trades_stores before w self batch log :
  (forall n, io_fault w n = NoFault) ->
  Forall storable batch ->
  batch <> [] ->
  stores_uniques before self log ->
  stores_uniques before (fst (fst (_process_trades w self batch)))
                 (log ++ snd (fst (_process_trades w self batch))).
Proof.
  intros Hw Hbatch Hne (Hopen & Hst & stored & rows & Hlog & Hrows & Htbl).
  unfold _process_trades.
  pose proof (process_loop_buffer_log w batch self 0) as Hbl. cbv zeta in Hbl.
  destruct (process_loop_classifies w batch self 0 Hopen)
    as (self1 & dups & Hloop & Hopen1 & _).
  rewrite Hloop in *. cbn [fst snd] in Hbl. destruct Hbl as [Hbuf1 Htr1].
  cbv beta iota zeta.
  set (self2 := if 0 <? dups then _ else self1).
  set (self3 := if max_saved_hashes <? _ then _ else self2).
  assert (H3 : trade_buffer self3 = trade_buffer self1 /\ db_manager self3 = db_manager self1).
  { subst self3 self2. destruct (max_saved_hashes <? _); destruct (0 <? dups); auto. }
  destruct H3 as [Hb3 Hd3].
  assert (Hinv3 : stores_uniques before self3 (log ++ classify (saved_trade_hashes self) batch)).
  { split; [now rewrite Hd3 | split].
    - rewrite Hb3, Hbuf1. apply List.Forall_app. split; [exact Hst|].
      apply List.Forall_forall. intros tr Hin. apply uniques_classify_In in Hin.
      rewrite List.Forall_forall in Hbatch. now apply Hbatch.
    - exists stored, rows. rewrite uniques_app, Hlog, Hb3, Hbuf1, Hd3, Htr1, Htbl.
      rewrite <- app_assoc. auto. }
  cbn [fst snd].
  destruct (save_interval self3 <=? _); [|exact Hinv3].
  now apply flush_stores_uniques.
Qed.

Lemma cycle_stores before w self data log :
  (forall n, io_fault w n = NoFault) ->
  Forall storable (trades_of data) ->
  stores_uniques before self log ->
  stores_uniques before (fst (fst (cycle w self data))) (log ++ snd (fst (cycle w self data)))
  /\ snd (cycle w self data) = Ok tt.
Proof.
  intros Hw Hst Hinv. unfold cycle. destruct data as [d|];
    [|cbn [fst snd]; now rewrite app_nil_r].
  cbn [trades_of] in Hst.
  assert (H1 : stores_uniques before
                 (fst (fst (match data_trades d with
                            | [] => (self, [], Ok tt)
                            | _ :: _ => _process_trades w self (data_trades d)
                            end)))
                 (log ++ snd (fst (match data_trades d with
                                   | [] => (self, [], Ok tt)
                                   | _ :: _ => _process_trades w self (data_trades d)
                                   end)))
               /\ snd (match data_trades d with
                       | [] => (self, [], Ok tt)
                       | _ :: _ => _process_trades w self (data_trades d)
                       end) = Ok tt).
  { destruct (data_trades d) as [|tr0 rest] eqn:Hd; [cbn [fst snd]; now rewrite app_nil_r|].
    split; [apply process_trades_stores; [exact Hw | exact Hst | discriminate | exact Hinv]|].
    destruct Hinv as (Hopen & _).
    destruct (process_trades_classifies w self (tr0 :: rest) Hopen ltac:(discriminate))
      as (self1 & -> & _). reflexivity. }
  destruct (match data_trades d with [] => _ | _ :: _ => _ end) as [[self1 log1] r].
  cbn [fst snd] in H1. destruct H1 as [H1 ->]. cbn [fst snd]. split; [|reflexivity].
  destruct (save_book_snapshots self1); [|exact H1].
  destruct H1 as (Hopen & Hst1 & stored & rows & Hlog & Hrows & Htbl).
  destruct (process_book_keeps_trades w self1 (data_book d)) as [Hb Ht].
  split; [now rewrite process_book_open | split; [now rewrite Hb|]].
  exists stored, rows. rewrite Hb, Ht. auto.
Qed.

Lemma cycles_stores before w polls :
  (forall n, io_fault w n = NoFault) ->
  forall self log,
    Forall storable (submissions polls) ->
    stores_uniques before self log ->
    stores_uniques before (fst (cycles w self polls)) (log ++ snd (cycles w self polls)).
Proof.
  intros Hw. induction polls as [|data rest IH]; intros self log Hst Hinv; cbn [cycles].
  - cbn [fst snd]. now rewrite app_nil_r.
  - rewrite submissions_cons in Hst. apply List.Forall_app in Hst as [Hst1 Hst2].
    destruct (cycle_stores before w self data log Hw Hst1 Hinv) as [H1 Hr].
    destruct (cycle w self data) as [[self1 log1] r]. cbn [fst snd] in H1, Hr. subst r.
    specialize (IH self1 (log ++ log1)%list Hst2 H1).
    destruct (cycles w self1 rest) as [self2 log2]. cbn [fst snd] in *.
    now rewrite app_assoc.
Qed.

End NoFaultFacts.

(** ** The levels query: order and content of the lists *)

Module QueryFacts.
Import Py Model DatabaseManager LevelsQuery Notions.

Lemma ranks_before_true x y : ranks_before x y = true -> row_ranked x y.
Proof.
  unfold ranks_before, row_ranked, ranked. cbn. intros H.
  apply orb_true_iff in H as [H|H].
  - apply Z.ltb_lt in H. now left.
  - apply andb_true_iff in H as [H1 H2]. apply Z.eqb_eq in H1. apply Z.ltb_lt in H2.
    right. lia.
Qed.

Lemma ranks_before_false x y : ranks_before x y = false -> row_ranked y x.
Proof.
  unfold ranks_before, row_ranked, ranked. cbn. intros H.
  apply orb_false_iff in H as [H1 H2]. apply Z.ltb_ge in H1.
  apply andb_false_iff in H2 as [H2|H2].
  - apply Z.eqb_neq in H2. left. lia.
  - apply Z.ltb_ge in H2. lia.
Qed.

Lemma row_ranked_trans x y z : row_ranked x y -> row_ranked y z -> row_ranked x z.
Proof. unfold row_ranked, ranked. cbn. lia. Qed.

Lemma insert_ranked_In x l z : In z (insert_ranked x l) <-> z = x \/ In z l.
Proof.
  induction l as [|y r IH]; cbn [insert_ranked].
  - cbn. intuition.
  - destruct (ranks_before x y); cbn [In]; [intuition|]. rewrite IH. intuition.
Qed.

Lemma insert_ranked_sorted x l :
  StronglySorted row_ranked l -> StronglySorted row_ranked (insert_ranked x l).
Proof.
  induction 1 as [|y r Hs IH Hall]; cbn [insert_ranked].
  - constructor; constructor.
  - destruct (ranks_before x y) eqn:Hxy.
    + apply ranks_before_true in Hxy. constructor; [now constructor|].
      constructor; [exact Hxy|]. rewrite List.Forall_forall in Hall |- *.
      intros z Hz. eapply row_ranked_trans; [exact Hxy | now apply Hall].
    + apply ranks_before_false in Hxy. constructor; [exact IH|].
      rewrite List.Forall_forall in Hall |- *. intros z Hz.
      apply insert_ranked_In in Hz as [-> |Hz]; [exact Hxy | now apply Hall].
Qed.

Lemma order_by_rank_In l z : In z (order_by_rank l) <-> In z l.
Proof.
  induction l as [|x l IH]; cbn [order_by_rank fold_right]; [tauto|].
  fold (order_by_rank l). rewrite insert_ranked_In, IH. cbn [In]. intuition.
Qed.

Lemma order_by_rank_sorted l : StronglySorted row_ranked (order_by_rank l).
Proof.
  induction l as [|x l IH]; cbn [order_by_rank fold_right]; [constructor|].
  now apply insert_ranked_sorted.
Qed.

Lemma add_level_lists lv r :
  add_level lv r
  = mk_levels (support lv ++ map level_data (List.filter (of_key "support") [r]))
              (resistance lv ++ map level_data (List.filter (of_key "resistance") [r]))
              (pivot lv ++ map level_data (List.filter (of_key "pivot") [r])).
Proof.
  unfold add_level, of_key. cbn [List.filter].
  destruct (String.eqb (lower (pl_level_type r)) "support") eqn:Hs.
  - apply String.eqb_eq in Hs. rewrite Hs. cbn. now rewrite !app_nil_r.
  - destruct (String.eqb (lower (pl_level_type r)) "resistance") eqn:Hr.
    + apply String.eqb_eq in Hr. rewrite Hr. cbn. now rewrite !app_nil_r.
    + destruct (String.eqb (lower (pl_level_type r)) "pivot") eqn:Hp;
        cbn; rewrite !app_nil_r; now destruct lv.
Qed.

Lemma fold_add_level rows lv :
  fold_left add_level rows lv
  = mk_levels (support lv ++ map level_data (List.filter (of_key "support") rows))
              (resistance lv ++ map level_data (List.filter (of_key "resistance") rows))
              (pivot lv ++ map level_data (List.filter (of_key "pivot") rows)).
Proof.
  revert lv. induction rows as [|r rows IH]; intros lv; cbn [fold_left].
  - cbn. rewrite !app_nil_r. now destruct lv.
  - rewrite IH, add_level_lists. cbn [support resistance pivot].
    rewrite <- !app_assoc, <- !map_app.
    change (r :: rows) with ([r] ++ rows)%list. now rewrite !List.filter_app.
Qed.

Lemma sorted_entries f l :
  StronglySorted row_ranked l ->
  StronglySorted ranked (map level_data (List.filter f l)).
Proof.
  induction 1 as [|y r Hs IH Hall]; cbn [List.filter map]; [constructor|].
  destruct (f y); [|exact IH]. cbn [map]. constructor; [exact IH|].
  rewrite List.Forall_forall in Hall |- *. intros d Hd.
  apply in_map_iff in Hd as (z & <- & Hz). apply List.filter_In in Hz as [Hz _].
  now apply Hall.
Qed.

Lemma selected_spec sym m r :
  selected sym m r = true <-> pl_symbol r = sym /\ m <= pl_strength r.
Proof.
  unfold selected. rewrite andb_true_iff, String.eqb_eq, Z.leb_le. reflexivity.
Qed.

Lemma entries_of_query key sym m stored :
  entries_of key sym m stored
    (map level_data (List.filter (of_key key)
                       (order_by_rank (List.filter (selected sym m) stored)))).
Proof.
  intros d. rewrite in_map_iff. split.
  - intros (r & <- & Hr). apply List.filter_In in Hr as [Hr Hk].
    apply order_by_rank_In, List.filter_In in Hr as [Hr Hsel].
    apply selected_spec in Hsel as [Hsym Hm]. apply String.eqb_eq in Hk.
    exists r. auto.
  - intros (r & Hr & Hsym & Hm & Hk & ->). exists r. split; [reflexivity|].
    apply List.filter_In. split.
    + apply order_by_rank_In, List.filter_In. split; [exact Hr|].
      apply selected_spec. auto.
    + unfold of_key. now apply String.eqb_eq.
Qed.

(** What the query returns on an open connection when the statement does
    not fail. *)
Lemma query_returns w self sym m :
  conn_open self = true ->
  io_fault w (io_calls self) = NoFault ->
  get_support_resistance_levels w self sym m
  = (tick self,
     Ok (let rows := order_by_rank (List.filter (selected sym m) (price_levels (db self))) in
         mk_levels (map level_data (List.filter (of_key "support") rows))
                   (map level_data (List.filter (of_key "resistance") rows))
                   (map level_data (List.filter (of_key "pivot") rows)))).
Proof.
  intros Hopen Hf. unfold get_support_resistance_levels, connection.
  cbn [tick conn_open db]. rewrite Hopen, Hf. cbn [bind stmt].
  now rewrite fold_add_level.
Qed.

End QueryFacts.

(** *** The analyzers, the detectors and the signals together *)

From Stdlib Require Import Lqa.

Module SystemFacts.
Import Py Model Notions.

(** *** Histories *)

Lemma keep_last_le {A} (k : nat) (l : list A) : (List.length (keep_last k l) <= k)%nat.
Proof. unfold keep_last. rewrite length_skipn. lia. Qed.

Lemma record_length {A} (h : list A) (x : A) :
  (List.length (History.record h x) <= 100)%nat
  /\ (List.length (History.record h x) <= S (List.length h))%nat.
Proof.
  unfold History.record.
  assert (Hl : List.length (h ++ [x]) = S (List.length h))
    by (rewrite length_app; cbn; lia).
  destruct (Z.ltb_spec 100 (Z.of_nat (List.length (h ++ [x])))) as [Hgt|Hle].
  - pose proof (keep_last_le 100 (h ++ [x])). lia.
  - lia.
Qed.

(** *** The price analysis *)

Lemma price_analysis_within self now trades self' a :
  PriceActionAnalyzer.analyze self now trades = (self', Ok (Some a)) ->
  within_range (PriceActionAnalyzer.info a).
Proof.
  unfold PriceActionAnalyzer.analyze.
  destruct (map price trades) as [|first rest] eqn:Hp; [discriminate|].
  cbn [Qmax_list Qmin_list].
  intros H. injection H as _ H.
  destruct (PriceActionAnalyzer._calculate_trend _) as [trend|e]; [|discriminate].
  destruct (PriceActionAnalyzer._calculate_volatility _) as [vol|e]; [|discriminate].
  cbn [bind] in H. injection H as <-.
  unfold within_range.
  cbn [PriceActionAnalyzer.info TapeReadingSystem.low TapeReadingSystem.high
       TapeReadingSystem.current_price].
  destruct (ExhaustionFacts.max_from_bounds rest first) as [Hmax1 Hmax2].
  destruct (ExhaustionFacts.min_from_bounds rest first) as [Hmin1 Hmin2].
  unfold ExhaustionDetector.max_from, ExhaustionDetector.min_from in *.
  assert (Hall : forall y, In y (first :: rest) ->
                 (fold_left (fun m y => if Qltb y m then y else m) rest first <= y)%Q
                 /\ (y <= fold_left (fun m y => if Qltb m y then y else m) rest first)%Q).
  { intros y [<-|Hy]; [split; assumption | split; [now apply Hmin2 | now apply Hmax2]]. }
  apply Hall, ExhaustionFacts.last_In.
Qed.

(** *** The detectors *)

Lemma absorption_needs_datetime det now trades sym :
  (forall tr, In tr trades -> Spec.has_datetime tr = false) ->
  AbsorptionDetector.detect det now trades sym = Ok None.
Proof.
  intros H. unfold AbsorptionDetector.detect.
  destruct (Z.of_nat (List.length trades) <? 10); [reflexivity|].
  now rewrite (DetectorFacts.filter_no_datetime det now trades H).
Qed.

Lemma exhaustion_type det now trades sym b :
  ExhaustionDetector.detect det now trades sym = Ok (Some b) -> b_type b = EXHAUSTION.
Proof.
  unfold ExhaustionDetector.detect.
  destruct (_ <? _ * 10); [discriminate|].
  destruct (ExhaustionDetector._create_bars _ _) as [bars|e]; [|discriminate].
  cbn [bind]. destruct (_ <? ExhaustionDetector.confirmation_bars det); [discriminate|].
  destruct (_ && _); [|discriminate].
  intros H. injection H as <-. reflexivity.
Qed.

Lemma absorption_type det now trades sym b :
  AbsorptionDetector.detect det now trades sym = Ok (Some b) -> b_type b = ABSORPTION.
Proof.
  unfold AbsorptionDetector.detect.
  destruct (_ <? 10); [discriminate|].
  destruct (List.filter _ trades) as [|t0 recent]; [discriminate|].
  destruct (_ <? AbsorptionDetector.volume_threshold det); [discriminate|].
  destruct (Qmax_list _) as [hi|]; [|discriminate].
  destruct (Qmin_list _) as [lo|]; [|discriminate].
  destruct (Qltb _ (AbsorptionDetector.price_impact_max det)); [|discriminate].
  destruct (_ =? 0); [discriminate|].
  intros H. injection H as <-. reflexivity.
Qed.

(** *** Drafts and signals *)

Lemma Qabs_ge_2_nonzero (q : Q) : (2 <= Qabs q)%Q -> Qeq_bool (Qabs q) 0 = false.
Proof.
  intros H. destruct (Qeq_bool (Qabs q) 0) eqn:E; [|reflexivity].
  apply Qeq_bool_iff in E. rewrite E in H. exfalso.
  apply (Qlt_not_le 0 2); [reflexivity | exact H].
Qed.

Lemma draft_of_exhaustion a b d :
  within_range (TapeReadingSystem.price_info a) ->
  b_type b = EXHAUSTION ->
  TapeReadingSystem.draft_signal a b = Some d ->
  safe_draft d.
Proof.
  intros [Hlo Hhi] Hb. unfold TapeReadingSystem.draft_signal. rewrite Hb.
  destruct (_ && _).
  - intros H. injection H as <-. split; [|left; reflexivity].
    cbn [TapeReadingSystem.d_stop TapeReadingSystem.d_entry].
    rewrite Qabs_pos; lra.
  - destruct (_ && _); [|discriminate].
    intros H. injection H as <-. split; [|right; reflexivity].
    cbn [TapeReadingSystem.d_stop TapeReadingSystem.d_entry].
    rewrite Qabs_neg; lra.
Qed.

Lemma draft_of_absorption_neutral a b :
  b_type b = ABSORPTION ->
  (TapeReadingSystem.flow_bias a = None \/ TapeReadingSystem.flow_bias a = Some "NEUTRAL") ->
  TapeReadingSystem.draft_signal a b = None.
Proof.
  intros Hb Hbias. unfold TapeReadingSystem.draft_signal. rewrite Hb.
  destruct Hbias as [-> | ->]; reflexivity.
Qed.

Lemma signal_loop_safe now a bs :
  (forall b d, In b bs -> TapeReadingSystem.draft_signal a b = Some d -> safe_draft d) ->
  forall signals active,
    exists new,
      TapeReadingSystem.signal_loop now a bs signals active
      = ((signals ++ new)%list, (active ++ new)%list, Ok tt)
      /\ Forall (fun s => (2 <= risk s)%Q /\ from_exhaustion s) new.
Proof.
  induction bs as [|b bs IH]; intros Hsafe signals active; cbn [TapeReadingSystem.signal_loop].
  - exists []. rewrite !app_nil_r. split; [reflexivity | constructor].
  - assert (Hrest : forall b' d, In b' bs ->
                      TapeReadingSystem.draft_signal a b' = Some d -> safe_draft d)
      by (intros b' d Hin; apply Hsafe; now right).
    destruct (TapeReadingSystem.draft_signal a b) as [d|] eqn:Hd.
    + destruct (Hsafe b d (or_introl eq_refl) Hd) as [Hrisk Hreason].
      unfold TapeReadingSystem.risk_reward. rewrite (Qabs_ge_2_nonzero _ Hrisk).
      match goal with |- context [TapeReadingSystem.complete now d ?rr] =>
        set (s := TapeReadingSystem.complete now d rr) end.
      destruct (IH Hrest (signals ++ [s])%list (active ++ [s])%list) as (new & Hloop & Hnew).
      exists (s :: new). rewrite Hloop, <- !app_assoc. split; [reflexivity|].
      constructor; [|exact Hnew]. split; [exact Hrisk | exact Hreason].
    + apply (IH Hrest).
Qed.

(** *** The flow bias *)

Lemma flow_bias_warm_up self now trades self' fa :
  OrderFlowAnalyzer.analyze self now trades = (self', Some fa) ->
  (List.length (OrderFlowAnalyzer.flow_history self) < 4)%nat ->
  OrderFlowAnalyzer.flow_bias fa = "NEUTRAL".
Proof.
  unfold OrderFlowAnalyzer.analyze. destruct trades as [|tr0 rest]; [discriminate|].
  destruct (_ =? 0); [discriminate|].
  intros H Hlen. injection H as _ <-. cbn [OrderFlowAnalyzer.flow_bias].
  unfold OrderFlowAnalyzer._calculate_bias. cbn [OrderFlowAnalyzer.flow_history].
  match goal with |- context [History.record ?h ?x] =>
    destruct (record_length h x) as [_ Hrec] end.
  match goal with |- (if ?c then _ else _) = _ => destruct c eqn:Hc end; [reflexivity|].
  apply Z.ltb_ge in Hc. lia.
Qed.

End SystemFacts.

(** *** What an analysis of the market is made of *)

Module MarketFacts.
Import Py Model Notions MarketAnalyzer SystemFacts.

(** The detectors' part: what it returns, and what it leaves alone. *)
Lemma detect_behaviors_spec w self n trades sym self' bs :
  detect_behaviors w self n trades sym = (self', Ok bs) ->
  (exists now1 now2 absorption exhaustion,
      AbsorptionDetector.detect (absorption_detector self) now1 trades sym = Ok absorption
      /\ ExhaustionDetector.detect (exhaustion_detector self) now2 trades sym = Ok exhaustion
      /\ bs = (listed absorption ++ listed exhaustion)%list)
  /\ volume_analyzer self' = volume_analyzer self
  /\ price_analyzer self' = price_analyzer self
  /\ flow_analyzer self' = flow_analyzer self
  /\ absorption_detector self' = absorption_detector self
  /\ exhaustion_detector self' = exhaustion_detector self
  /\ ((List.length (behavior_alerts self) <= 20)%nat ->
      (List.length (behavior_alerts self') <= 20)%nat).
Proof.
  unfold detect_behaviors.
  destruct (AbsorptionDetector.detect _ _ _ _) as [absorption|e] eqn:Ha; [|discriminate].
  destruct absorption as [ba|];
    cbn [clock_reads exhaustion_detector behavior_alerts stats volume_analyzer
         price_analyzer flow_analyzer absorption_detector];
    (destruct (ExhaustionDetector.detect _ _ _ _) as [exhaustion|e] eqn:He; [|discriminate]);
    destruct exhaustion as [be|];
    cbn [clock_reads exhaustion_detector behavior_alerts stats volume_analyzer
         price_analyzer flow_analyzer absorption_detector];
    intros H; injection H as <- <-;
    cbn [clock_reads exhaustion_detector behavior_alerts stats volume_analyzer
         price_analyzer flow_analyzer absorption_detector];
    (split; [eexists _, _, _, _; split; [exact Ha | split; [exact He | reflexivity]]|]);
    repeat (split; [reflexivity|]); intros Hlen; unfold push_alert;
    repeat (etransitivity; [apply keep_last_le|]); lia.
Qed.

(** An analysis that [analyze_market] returned: the results of the
    analyzers and of the detectors on the same trades. *)
Lemma analyze_market_spec w self trades sym self' m :
  analyze_market w self trades sym = (self', Ok (Some m)) ->
  exists now1 now2 now3 now4 now5 va pa fa absorption exhaustion,
    VolumeAnalyzer.analyze (volume_analyzer self) now1 trades = (va, volume m)
    /\ PriceActionAnalyzer.analyze (price_analyzer self) now2 trades = (pa, Ok (price m))
    /\ OrderFlowAnalyzer.analyze (flow_analyzer self) now3 trades = (fa, flow m)
    /\ AbsorptionDetector.detect (absorption_detector self) now4 trades sym = Ok absorption
    /\ ExhaustionDetector.detect (exhaustion_detector self) now5 trades sym = Ok exhaustion
    /\ behaviors m = (listed absorption ++ listed exhaustion)%list
    /\ volume_analyzer self' = va /\ price_analyzer self' = pa /\ flow_analyzer self' = fa
    /\ trades <> []
    /\ (List.length (alerts m) <= 5)%nat
    /\ ((List.length (behavior_alerts self) <= 20)%nat ->
        (List.length (behavior_alerts self') <= 20)%nat).
Proof.
  unfold analyze_market. destruct trades as [|tr0 rest]; [discriminate|].
  destruct (VolumeAnalyzer.analyze _ _ _) as [va volume_analysis] eqn:Hv.
  destruct (PriceActionAnalyzer.analyze _ _ _) as [pa [price_analysis|e]] eqn:Hp;
    [|discriminate].
  cbn [flow_analyzer].
  destruct (OrderFlowAnalyzer.analyze _ _ _) as [fa flow_analysis] eqn:Hf.
  cbn [absorption_detector exhaustion_detector behavior_alerts stats].
  destruct (detect_behaviors _ _ _ _ _) as [self1 [bs|e]] eqn:Hd; [|discriminate].
  intros H. injection H as <- <-.
  apply detect_behaviors_spec in Hd
    as ((now4 & now5 & absorption & exhaustion & Ha & He & ->) & Hva & Hpa & Hfa & _ & _ & Hal).
  cbn [volume_analyzer price_analyzer flow_analyzer absorption_detector exhaustion_detector
       behavior_alerts] in *.
  eexists _, _, _, now4, now5, va, pa, fa, absorption, exhaustion.
  cbn [volume price flow behaviors alerts].
  split; [exact Hv|]. split; [exact Hp|]. split; [exact Hf|].
  split; [exact Ha|]. split; [exact He|]. split; [reflexivity|].
  split; [exact Hva|]. split; [exact Hpa|]. split; [exact Hfa|].
  split; [discriminate|]. split; [apply keep_last_le | exact Hal].
Qed.

(** The price analysis of trades that are not empty is not empty. *)
Lemma price_analysis_some self now trades self' r :
  trades <> [] ->
  PriceActionAnalyzer.analyze self now trades = (self', Ok r) ->
  exists p, r = Some p.
Proof.
  intros Hne. unfold PriceActionAnalyzer.analyze.
  destruct trades as [|tr0 rest]; [congruence|]. cbn [map Qmax_list Qmin_list].
  intros H. injection H as _ H.
  destruct (PriceActionAnalyzer._calculate_trend _) as [trend|e]; [|discriminate].
  destruct (PriceActionAnalyzer._calculate_volatility _) as [vol|e]; [|discriminate].
  cbn [bind] in H. injection H as <-. eauto.
Qed.

(** *** Bounds that every call keeps, whatever its outcome *)

Lemma volume_history_bounded self now trades :
  (List.length (VolumeAnalyzer.volume_history self) <= 100)%nat ->
  (List.length (VolumeAnalyzer.volume_history (fst (VolumeAnalyzer.analyze self now trades)))
   <= 100)%nat.
Proof.
  intros H. unfold VolumeAnalyzer.analyze. destruct trades; [exact H|].
  cbn [fst VolumeAnalyzer.volume_history]. apply record_length.
Qed.

Lemma price_history_bounded self now trades :
  (List.length (PriceActionAnalyzer.price_history self) <= 100)%nat ->
  (List.length (PriceActionAnalyzer.price_history
                  (fst (PriceActionAnalyzer.analyze self now trades))) <= 100)%nat.
Proof.
  intros H. unfold PriceActionAnalyzer.analyze.
  destruct (map Model.price trades) as [|first rest]; [exact H|].
  cbn [Qmax_list Qmin_list fst PriceActionAnalyzer.price_history]. apply record_length.
Qed.

Lemma flow_history_bounded self now trades :
  (List.length (OrderFlowAnalyzer.flow_history self) <= 100)%nat ->
  (List.length (OrderFlowAnalyzer.flow_history
                  (fst (OrderFlowAnalyzer.analyze self now trades))) <= 100)%nat.
Proof.
  intros H. unfold OrderFlowAnalyzer.analyze. destruct trades; [exact H|].
  destruct (_ =? 0); [exact H|].
  cbn [fst OrderFlowAnalyzer.flow_history]. apply record_length.
Qed.

Lemma detect_behaviors_bounded w self n trades sym :
  let self' := fst (detect_behaviors w self n trades sym) in
  volume_analyzer self' = volume_analyzer self
  /\ price_analyzer self' = price_analyzer self
  /\ flow_analyzer self' = flow_analyzer self
  /\ ((List.length (behavior_alerts self) <= 20)%nat ->
      (List.length (behavior_alerts self') <= 20)%nat).
Proof.
  cbv zeta. unfold detect_behaviors.
  destruct (AbsorptionDetector.detect _ _ _ _) as [absorption|e]; [|cbn; auto].
  destruct absorption as [ba|];
    cbn [clock_reads exhaustion_detector behavior_alerts stats volume_analyzer
         price_analyzer flow_analyzer absorption_detector];
    (destruct (ExhaustionDetector.detect _ _ _ _) as [[be|]|e]);
    cbn [fst clock_reads exhaustion_detector behavior_alerts stats volume_analyzer
         price_analyzer flow_analyzer absorption_detector];
    repeat (split; [reflexivity|]); intros Hlen; unfold push_alert;
    repeat (etransitivity; [apply keep_last_le|]); lia.
Qed.

Lemma analyze_market_bounded w self trades sym :
  bounded self -> bounded (fst (analyze_market w self trades sym)).
Proof.
  intros (Hv & Hp & Hf & Ha). unfold analyze_market.
  destruct trades as [|tr0 rest]; [repeat split; assumption|].
  pose proof (volume_history_bounded (volume_analyzer self)
                (clock w (clock_reads self)) (tr0 :: rest) Hv) as Hv'.
  pose proof (price_history_bounded (price_analyzer self)
                (clock w (S (clock_reads self))) (tr0 :: rest) Hp) as Hp'.
  destruct (VolumeAnalyzer.analyze _ _ _) as [va volume_analysis].
  destruct (PriceActionAnalyzer.analyze _ _ _) as [pa [price_analysis|e]];
    cbn [fst] in Hv', Hp'; [|repeat split; assumption].
  cbn [flow_analyzer].
  pose proof (flow_history_bounded (flow_analyzer self)
                (clock w (S (S (clock_reads self)))) (tr0 :: rest) Hf) as Hf'.
  destruct (OrderFlowAnalyzer.analyze _ _ _) as [fa flow_analysis]. cbn [fst] in Hf'.
  cbn [absorption_detector exhaustion_detector behavior_alerts stats].
  match goal with |- context [detect_behaviors w ?s ?n ?t ?y] =>
    pose proof (detect_behaviors_bounded w s n t y) as Hd;
    destruct (detect_behaviors w s n t y) as [self1 [bs|e]] end;
    cbv zeta in Hd; cbn [fst volume_analyzer price_analyzer flow_analyzer behavior_alerts] in Hd;
    destruct Hd as (Hva & Hpa & Hfa & Hal); unfold bounded; cbn [fst];
    rewrite Hva, Hpa, Hfa; repeat split; auto.
Qed.

End MarketFacts.

(** ** Properties of the deduplication of the engine *)

Module DedupProperties.
Import Py Model TapeReadingEngine Spec DatabaseFacts DedupFacts RunFacts CounterFacts.

(** X1. While the hash set cannot outgrow its bound (the hashes loaded at
    start plus all the submissions of the run are at most
    [max_saved_hashes]), a run of [start] on a usable connection classifies
    a record whose hash was not loaded, and which is submitted [N >= 1]
    times, Unique exactly once and Duplicate [N - 1] times. *)
Theorem unique_once_within_bound w self polls r :
  DatabaseManager.conn_open (db_manager self) = true ->
  identity r ∉ saved_trade_hashes (_load_recent_trade_hashes self) ->
  Z.of_nat (size (saved_trade_hashes (_load_recent_trade_hashes self)))
    + Z.of_nat (List.length (submissions polls)) <= max_saved_hashes ->
  (1 <= times_submitted r (submissions polls))%nat ->
  times_classified Unique r (snd (start w self polls)) = 1%nat
  /\ times_classified Duplicate r (snd (start w self polls))
     = (times_submitted r (submissions polls) - 1)%nat.
Proof.
  intros Hopen Hnew Hbound Hsub.
  rewrite start_log by exact Hopen.
  rewrite run_log_within_bound by exact Hbound.
  destruct (classify_counts r (submissions polls)
              (saved_trade_hashes (_load_recent_trade_hashes self))) as [HU HS].
  rewrite (bool_decide_eq_false_2 _ Hnew) in HU. lia.
Qed.

Lemma unique_once_within_bound_witness :
  times_classified Unique Samples.row_a
    (snd (start Samples.quiet Samples.new_engine
            [Some (mk_data [Samples.row_a; Samples.row_b; Samples.row_a] (mk_book [] []));
             None;
             Some (mk_data [Samples.row_a] (mk_book [] []))])) = 1%nat
  /\ times_classified Duplicate Samples.row_a
       (snd (start Samples.quiet Samples.new_engine
               [Some (mk_data [Samples.row_a; Samples.row_b; Samples.row_a] (mk_book [] []));
                None;
                Some (mk_data [Samples.row_a] (mk_book [] []))]))
     = (times_submitted Samples.row_a
          (submissions
             [Some (mk_data [Samples.row_a; Samples.row_b; Samples.row_a] (mk_book [] []));
              None;
              Some (mk_data [Samples.row_a] (mk_book [] []))]) - 1)%nat.
Proof.
  apply unique_once_within_bound.
  - reflexivity.
  - apply not_elem_of_empty.
  - vm_compute. discriminate.
  - vm_compute. lia.
Defined.

(** X2. Whatever the size of the hash set before, after a call of
    [_process_trades] on a usable connection the set holds at most
    [max_saved_hashes] (20000) hashes. *)
Theorem hash_set_bounded w self batch :
  DatabaseManager.conn_open (db_manager self) = true ->
  Z.of_nat (size (saved_trade_hashes (fst (fst (_process_trades w self batch)))))
  <= max_saved_hashes.
Proof.
  intros Hopen. rewrite process_trades_saved by exact Hopen. cbv zeta.
  destruct (Z.ltb_spec max_saved_hashes
              (Z.of_nat (size (saved_trade_hashes self ∪ identities batch)))) as [Hlt|Hge].
  - pose proof (prune_size w (saved_trade_hashes self ∪ identities batch)) as Hp.
    assert (max_saved_hashes / 2 <= max_saved_hashes)
      by (unfold max_saved_hashes; apply Z.div_le_upper_bound; lia).
    lia.
  - exact Hge.
Qed.

Lemma hash_set_bounded_witness :
  Z.of_nat (size (saved_trade_hashes
                    (fst (fst (_process_trades Samples.quiet Samples.new_engine
                                 Samples.sheet)))))
  <= max_saved_hashes.
Proof. apply hash_set_bounded. reflexivity. Defined.

(** X3. Pruning makes the engine forget trades it has processed: when a
    new engine receives in one poll more than [max_saved_hashes] trades
    with pairwise distinct hashes and the next poll shows the same trades
    again, some trade is classified Unique twice, whatever the order in
    which the set is enumerated. *)
Theorem pruning_forgets_processed_trades w interval snapshots validation batch b1 b2 :
  NoDup (map _generate_trade_hash batch) ->
  max_saved_hashes < Z.of_nat (List.length batch) ->
  exists r,
    In r batch
    /\ times_classified Unique r
         (snd (start w
                 (init interval snapshots validation
                    (DatabaseManager.initialize DatabaseManager.empty_tables))
                 [Some (mk_data batch b1); Some (mk_data batch b2)])) = 2%nat.
Proof.
  intros Hnd Hlen.
  rewrite start_log by reflexivity.
  change (saved_trade_hashes
            (_load_recent_trade_hashes
               (init interval snapshots validation
                  (DatabaseManager.initialize DatabaseManager.empty_tables))))
    with (∅ : gset string).
  cbn [run_log trades_of data_trades].
  assert (Hsz : size (identities batch) = List.length batch).
  { unfold identities. rewrite size_list_to_set by exact Hnd. apply length_map. }
  assert (Hnext : next_seen w ∅ batch = prune_hashes w (identities batch)).
  { unfold next_seen. destruct batch as [|tr0 rest]; [cbn in Hlen; unfold max_saved_hashes in Hlen; lia|].
    rewrite (left_id_L ∅ (∪)).
    destruct (Z.ltb_spec max_saved_hashes (Z.of_nat (size (identities (tr0 :: rest)))));
      [reflexivity | lia]. }
  rewrite Hnext.
  destruct (some_identity_missing (prune_hashes w (identities batch)) batch Hnd)
    as (r & Hin & Hout).
  { pose proof (prune_size w (identities batch)) as Hp.
    assert (max_saved_hashes / 2 <= max_saved_hashes)
      by (unfold max_saved_hashes; apply Z.div_le_upper_bound; lia).
    lia. }
  exists r. split; [exact Hin|].
  rewrite !times_classified_app.
  destruct (classify_counts r batch ∅) as [H1 _].
  destruct (classify_counts r batch (prune_hashes w (identities batch))) as [H2 _].
  rewrite H1, H2.
  rewrite (bool_decide_eq_false_2 _ Hout).
  rewrite bool_decide_eq_false_2 by apply not_elem_of_empty.
  pose proof (times_submitted_In r batch Hin).
  unfold times_classified at 1. cbn [List.filter List.length]. lia.
Qed.

Lemma pruning_forgets_processed_trades_witness :
  exists r,
    In r Samples.busy_morning
    /\ times_classified Unique r
         (snd (start Samples.quiet
                 (init 10 true true (DatabaseManager.initialize DatabaseManager.empty_tables))
                 [Some (mk_data Samples.busy_morning (mk_book [] []));
                  Some (mk_data Samples.busy_morning (mk_book [] []))])) = 2%nat.
Proof.
  apply pruning_forgets_processed_trades.
  - exact DistinctFacts.busy_morning_distinct.
  - vm_compute. reflexivity.
Defined.



(** X5. [_process_trades] counts every trade of a batch exactly once: on
    a usable connection the counters [trades_processed] and
    [trades_duplicates_prevented] grow together by the length of the
    batch. *)
Theorem every_trade_counted_once w self batch :
  DatabaseManager.conn_open (db_manager self) = true ->
  trades_processed (stats (fst (fst (_process_trades w self batch))))
    + trades_duplicates_prevented (stats (fst (fst (_process_trades w self batch))))
  = trades_processed (stats self) + trades_duplicates_prevented (stats self)
    + Z.of_nat (List.length batch).
Proof.
  intros Hopen. unfold _process_trades.
  pose proof (process_loop_counts w batch self 0 Hopen) as Hc. cbv zeta in Hc.
  destruct (process_loop_classifies w batch self 0 Hopen)
    as (self1 & dups & Hloop & _ & _).
  rewrite Hloop in *. cbn [fst snd] in Hc. cbv beta iota zeta.
  destruct Hc as (Hp & Hd & Hk).
  set (self2 := if 0 <? dups then _ else self1).
  assert (H2 : trades_processed (stats self2) = trades_processed (stats self1)
               /\ trades_duplicates_prevented (stats self2)
                  = trades_duplicates_prevented (stats self1) + dups).
  { subst self2. destruct (Z.ltb_spec 0 dups).
    - split; reflexivity.
    - split; [reflexivity | lia]. }
  set (self3 := if max_saved_hashes <? _ then _ else self2).
  assert (H3 : stats self3 = stats self2)
    by (subst self3; destruct (max_saved_hashes <? _); reflexivity).
  cbn [fst].
  assert (H4 : trades_processed
                 (stats (if save_interval self3 <=? Z.of_nat (List.length (trade_buffer self3))
                         then _save_trades_batch w self3 else self3))
               = trades_processed (stats self3)
               /\ trades_duplicates_prevented
                    (stats (if save_interval self3 <=? Z.of_nat (List.length (trade_buffer self3))
                            then _save_trades_batch w self3 else self3))
                  = trades_duplicates_prevented (stats self3)).
  { destruct (save_interval self3 <=? _); [apply flush_counts | auto]. }
  destruct H4 as [-> ->]. rewrite H3. lia.
Qed.

Lemma every_trade_counted_once_witness :
  trades_processed
    (stats (fst (fst (_process_trades Samples.quiet Samples.new_engine
                        [Samples.row_a; Samples.row_b; Samples.row_a]))))
  + trades_duplicates_prevented
      (stats (fst (fst (_process_trades Samples.quiet Samples.new_engine
                          [Samples.row_a; Samples.row_b; Samples.row_a]))))
  = trades_processed (stats Samples.new_engine)
    + trades_duplicates_prevented (stats Samples.new_engine)
    + Z.of_nat (List.length [Samples.row_a; Samples.row_b; Samples.row_a]).
Proof. apply every_trade_counted_once. reflexivity. Defined.

End DedupProperties.

(** ** Properties of the storage layer *)

Module StorageProperties.
Import Py Model DatabaseManager DatabaseFacts StorageFacts Notions MarketStatsFacts.

(** X6. [save_trades] on a usable connection is all or nothing and never
    raises: it either appends one row per trade of the batch, in order,
    touches no other table and returns the length of the batch, or leaves
    every table as it was and returns 0. *)
Theorem save_trades_all_or_nothing w self batch :
  conn_open self = true ->
  (exists rows,
      Forall2 (fun tr row => trade_row tr = Ok row) batch rows
      /\ db (fst (save_trades w self batch))
         = with_trades (db self) (trades (db self) ++ rows)
      /\ snd (save_trades w self batch) = Ok (Z.of_nat (List.length batch)))
  \/ (db (fst (save_trades w self batch)) = db self
      /\ snd (save_trades w self batch) = Ok 0).
Proof. exact (save_trades_outcome w self batch). Qed.

Lemma save_trades_all_or_nothing_witness :
  (exists rows,
      Forall2 (fun tr row => trade_row tr = Ok row) Samples.sheet rows
      /\ db (fst (save_trades Samples.quiet (initialize empty_tables) Samples.sheet))
         = with_trades empty_tables (trades empty_tables ++ rows)
      /\ snd (save_trades Samples.quiet (initialize empty_tables) Samples.sheet)
         = Ok (Z.of_nat (List.length Samples.sheet)))
  \/ (db (fst (save_trades Samples.quiet (initialize empty_tables) Samples.sheet))
      = empty_tables
      /\ snd (save_trades Samples.quiet (initialize empty_tables) Samples.sheet) = Ok 0).
Proof.
  apply (save_trades_all_or_nothing Samples.quiet (initialize empty_tables) Samples.sheet).
  reflexivity.
Defined.

(** X7. One trade that the table refuses (a side other than BUY or SELL,
    a symbol other than WDOFUT or DOLFUT, no timestamp) voids the whole
    batch: on a usable connection [save_trades] then stores none of the
    trades, not even the valid ones, and returns 0. *)
Theorem refused_trade_voids_batch w self batch tr e :
  conn_open self = true ->
  In tr batch ->
  trade_row tr = Raise e ->
  db (fst (save_trades w self batch)) = db self
  /\ snd (save_trades w self batch) = Ok 0.
Proof.
  intros Hopen Hin Hbad. unfold save_trades.
  destruct batch as [|tr0 rest]; [destruct Hin|].
  destruct (executemany_refused (io_fault w (io_calls self)) (tr0 :: rest) tr e Hin Hbad
              0%nat (trades (db (tick self)))) as [e' He'].
  unfold commit_or_rollback, connection. cbn [tick conn_open db] in *.
  rewrite Hopen. cbn [bind]. rewrite He'. cbn [bind fst snd db]. auto.
Qed.

Lemma refused_trade_voids_batch_witness :
  db (fst (save_trades Samples.quiet (initialize empty_tables)
             [Samples.row_a;
              mk_trade (TsStr "09:23:58.500") "WDOFUT" "HOLD" 5432 5 true None (Some 9);
              Samples.row_b]))
  = empty_tables
  /\ snd (save_trades Samples.quiet (initialize empty_tables)
            [Samples.row_a;
             mk_trade (TsStr "09:23:58.500") "WDOFUT" "HOLD" 5432 5 true None (Some 9);
             Samples.row_b])
     = Ok 0.
Proof.
  apply (refused_trade_voids_batch Samples.quiet (initialize empty_tables) _
           (mk_trade (TsStr "09:23:58.500") "WDOFUT" "HOLD" 5432 5 true None (Some 9))
           IntegrityError).
  - reflexivity.
  - right. left. reflexivity.
  - reflexivity.
Defined.

(** X9. [validate_trades] reports OK exactly when the two lists have the
    same keys (every expected trade has the key of some actual trade, and
    conversely), and ERROR exactly when some expected trade has a key that
    no actual trade has; order and repetitions play no part. *)
Theorem validate_trades_status w self expected actual :
  (v_status (snd (validate_trades w self expected actual)) = "OK"
   <-> (forall tr, In tr expected ->
          exists tr', In tr' actual /\ _hash_trade tr' = _hash_trade tr)
       /\ (forall tr, In tr actual ->
             exists tr', In tr' expected /\ _hash_trade tr' = _hash_trade tr))
  /\ (v_status (snd (validate_trades w self expected actual)) = "ERROR"
      <-> exists tr, In tr expected
                     /\ forall tr', In tr' actual -> _hash_trade tr' <> _hash_trade tr).
Proof.
  unfold validate_trades. cbn [snd v_status].
  pose proof (unmatched_empty expected actual) as Hm.
  pose proof (unmatched_empty actual expected) as He.
  destruct (List.filter _ expected) as [|m ms] eqn:Hmiss;
    destruct (List.filter _ actual) as [|x xs] eqn:Hextra.
  - split.
    + split; [intros _; split; [apply (proj1 Hm eq_refl) | apply (proj1 He eq_refl)] | reflexivity].
    + split; [discriminate|]. intros (tr & Hin & Hno).
      destruct (proj1 Hm eq_refl tr Hin) as (tr' & Hin' & Hk). destruct (Hno tr' Hin' Hk).
  - split.
    + split; [discriminate|]. intros [_ H]. apply (proj2 He) in H. discriminate.
    + split; [discriminate|]. intros (tr & Hin & Hno).
      destruct (proj1 Hm eq_refl tr Hin) as (tr' & Hin' & Hk). destruct (Hno tr' Hin' Hk).
  - split.
    + split; [discriminate|]. intros [H _]. apply (proj2 Hm) in H. discriminate.
    + split; [intros _ | reflexivity].
      assert (Hin : In m (m :: ms)) by now left.
      rewrite <- Hmiss in Hin. apply filter_In in Hin as [Hin Hb].
      apply bool_decide_eq_true in Hb. apply elem_of_difference in Hb as [_ Hout].
      exists m. split; [exact Hin|]. intros tr' Hin' Hk. apply Hout, key_among. eauto.
  - split.
    + split; [discriminate|]. intros [H _]. apply (proj2 Hm) in H. discriminate.
    + split; [intros _ | reflexivity].
      assert (Hin : In m (m :: ms)) by now left.
      rewrite <- Hmiss in Hin. apply filter_In in Hin as [Hin Hb].
      apply bool_decide_eq_true in Hb. apply elem_of_difference in Hb as [_ Hout].
      exists m. split; [exact Hin|]. intros tr' Hin' Hk. apply Hout, key_among. eauto.
Qed.

(** X10. Whatever calls were made on a new database, the table of market
    statistics holds at most one row per bucket (symbol, date, hour), and
    in every row the total number of trades is the number of buys plus the
    number of sells, and the total volume is the buy volume plus the sell
    volume. *)
Theorem market_stats_consistent w ops :
  NoDup (map bucket (market_stats (db (run w ops))))
  /\ Forall balanced (market_stats (db (run w ops))).
Proof.
  assert (H : Forall balanced (market_stats (db (run w ops)))
              /\ NoDup (map bucket (market_stats (db (run w ops))))).
  { unfold run. induction ops as [|op ops IH] using rev_ind.
    - split; constructor.
    - rewrite fold_left_app. cbn [fold_left]. now apply step_stats_inv. }
  tauto.
Qed.

(** X11. [update_market_stats] replaces, it does not accumulate: after a
    call that meets no fault, on a batch whose timestamps all give an
    hour, every row of a bucket that the batch touches counts as
    [total_trades] the trades of this batch in that bucket, whatever the
    table held for the bucket before. *)
Theorem market_stats_replaced w self batch r tr :
  conn_open self = true ->
  io_fault w (io_calls self) = NoFault ->
  (forall tr', In tr' batch -> exists h, trade_hour (timestamp tr') = Ok h) ->
  In r (market_stats (db (fst (update_market_stats w self batch)))) ->
  In tr batch ->
  in_bucket (today w) (bucket r) tr = true ->
  ms_total_trades r
  = Z.of_nat (List.length (List.filter (in_bucket (today w) (bucket r)) batch)).
Proof.
  intros Hopen Hfault Hhours Hr Htr Hb. unfold update_market_stats in Hr.
  destruct batch as [|tr0 rest]; [destruct Htr|].
  rewrite Hfault in Hr.
  destruct (group_trades_total (today w) (tr0 :: rest) Hhours []) as [groups Hg].
  rewrite Hg in Hr. cbn [bind] in Hr.
  assert (Hopen' : conn_open (tick self) = true) by exact Hopen.
  rewrite (write_stats_total (tick self) groups Hopen') in Hr.
  unfold connection in Hr. rewrite Hopen' in Hr.
  cbn [bind stmt commit_or_rollback fst with_db db with_market_stats market_stats] in Hr.
  assert (Hgrouped : grouped (today w) groups (tr0 :: rest)).
  { apply (group_trades_grouped (today w) (tr0 :: rest) [] [] groups); [|exact Hg].
    split; [constructor | split]; [intros k st [] | reflexivity]. }
  destruct Hgrouped as (_ & Hcount & Hnone).
  destruct (written_rows groups _ r Hr) as [[_ Hfree]|([k st] & He & ->)].
  - exfalso.
    destruct (in_dec (fun a b => decide (a = b)) (bucket r) (map fst groups)) as [Hin|Hout].
    + apply in_map_iff in Hin as (e & Hk & He). now apply (Hfree e He).
    + specialize (Hnone _ Hout).
      assert (Hin : In tr (List.filter (in_bucket (today w) (bucket r)) (tr0 :: rest)))
        by (apply filter_In; auto).
      rewrite Hnone in Hin. destruct Hin.
  - cbn [fst snd]. rewrite bucket_stats_row.
    rewrite <- (Hcount k st He). destruct k as [[sym dt] h]. reflexivity.
Qed.

Lemma market_stats_replaced_witness :
  ms_total_trades
    (mk_stats_row "WDOFUT" (2025, 1, 13) 9 1 1 1 0 1 0 (Some 5000%Q) (Some 5000%Q) 5000%Q)
  = Z.of_nat
      (List.length
         (List.filter
            (in_bucket (today Samples.quiet)
               (bucket (mk_stats_row "WDOFUT" (2025, 1, 13) 9 1 1 1 0 1 0
                          (Some 5000%Q) (Some 5000%Q) 5000%Q)))
            [Samples.small_lot])).
Proof.
  apply (market_stats_replaced Samples.quiet
           (fst (update_market_stats Samples.quiet (initialize empty_tables)
                   [Samples.small_lot; Samples.large_lot]))
           [Samples.small_lot] _ Samples.small_lot).
  - reflexivity.
  - reflexivity.
  - intros tr' [<-|[]]. exists 9. reflexivity.
  - vm_compute. left. reflexivity.
  - left. reflexivity.
  - reflexivity.
Defined.

End StorageProperties.

(** ** Properties of the flush of the engine *)

Module FlushProperties.
Import Py Model TapeReadingEngine DatabaseFacts StorageFacts.

(** X8. On a usable connection [_save_trades_batch] always empties the
    buffer, and what it stores is all or nothing: either the table of
    trades receives one row per buffered trade, in order, and
    [trades_saved] grows by their number, or the table and the counter
    stay as they were, and the buffered trades are dropped all the same. *)
Theorem flush_empties_buffer w self :
  DatabaseManager.conn_open (db_manager self) = true ->
  trade_buffer (_save_trades_batch w self) = []
  /\ ((exists rows,
          Forall2 (fun tr row => DatabaseManager.trade_row tr = Ok row)
                  (trade_buffer self) rows
          /\ DatabaseManager.trades (DatabaseManager.db (db_manager (_save_trades_batch w self)))
             = (DatabaseManager.trades (DatabaseManager.db (db_manager self)) ++ rows)%list
          /\ trades_saved (stats (_save_trades_batch w self))
             = trades_saved (stats self) + Z.of_nat (List.length (trade_buffer self)))
      \/ (DatabaseManager.trades (DatabaseManager.db (db_manager (_save_trades_batch w self)))
          = DatabaseManager.trades (DatabaseManager.db (db_manager self))
          /\ trades_saved (stats (_save_trades_batch w self)) = trades_saved (stats self))).
Proof.
  intros Hopen. unfold _save_trades_batch.
  destruct (trade_buffer self) as [|tr0 rest] eqn:Hbuf.
  - split; [exact Hbuf|]. right. auto.
  - pose proof (save_trades_outcome w (db_manager self) (tr0 :: rest) Hopen) as Hout.
    pose proof (save_trades_open w (db_manager self) (tr0 :: rest)) as Hopen1.
    destruct (DatabaseManager.save_trades w (db_manager self) (tr0 :: rest)) as [db1 r1].
    cbn [fst snd] in Hout, Hopen1. rewrite Hopen in Hopen1.
    assert (Hr1 : exists n, r1 = Ok n) by (destruct Hout as [(? & _ & _ & ->)|[_ ->]]; eauto).
    destruct Hr1 as [n ->].
    cbn [with_stats with_db_manager trade_buffer db_manager stats validate].
    rewrite Hbuf.
    pose proof (update_market_stats_returns w db1 (tr0 :: rest) Hopen1) as Hr2.
    pose proof (update_market_stats_trades w db1 (tr0 :: rest)) as Ht2.
    destruct (DatabaseManager.update_market_stats w db1 (tr0 :: rest)) as [db2 r2].
    cbn [fst snd] in Hr2, Ht2. subst r2.
    assert (Hgoal :
      (exists rows,
          Forall2 (fun tr row => DatabaseManager.trade_row tr = Ok row) (tr0 :: rest) rows
          /\ DatabaseManager.trades (DatabaseManager.db db2)
             = (DatabaseManager.trades (DatabaseManager.db (db_manager self)) ++ rows)%list
          /\ trades_saved (stats self) + n
             = trades_saved (stats self) + Z.of_nat (List.length (tr0 :: rest)))
      \/ (DatabaseManager.trades (DatabaseManager.db db2)
          = DatabaseManager.trades (DatabaseManager.db (db_manager self))
          /\ trades_saved (stats self) + n = trades_saved (stats self))).
    { destruct Hout as [(rows & Hrows & Hdb & Hn)|[Hdb Hn]].
      - left. exists rows. injection Hn as ->. rewrite Ht2, Hdb. auto.
      - right. injection Hn as ->. rewrite Ht2, Hdb. split; [reflexivity | lia]. }
    match goal with |- context [if ?c then _ else _] => destruct c end;
      (split; [reflexivity | exact Hgoal]).
Qed.

Lemma flush_empties_buffer_witness :
  trade_buffer (_save_trades_batch Samples.quiet
                  (with_trade_buffer Samples.new_engine Samples.sheet)) = []
  /\ ((exists rows,
          Forall2 (fun tr row => DatabaseManager.trade_row tr = Ok row)
                  (trade_buffer (with_trade_buffer Samples.new_engine Samples.sheet)) rows
          /\ DatabaseManager.trades
               (DatabaseManager.db
                  (db_manager (_save_trades_batch Samples.quiet
                                 (with_trade_buffer Samples.new_engine Samples.sheet))))
             = (DatabaseManager.trades
                  (DatabaseManager.db
                     (db_manager (with_trade_buffer Samples.new_engine Samples.sheet)))
                ++ rows)%list
          /\ trades_saved (stats (_save_trades_batch Samples.quiet
                                    (with_trade_buffer Samples.new_engine Samples.sheet)))
             = trades_saved (stats (with_trade_buffer Samples.new_engine Samples.sheet))
               + Z.of_nat (List.length
                             (trade_buffer (with_trade_buffer Samples.new_engine Samples.sheet))))
      \/ (DatabaseManager.trades
            (DatabaseManager.db
               (db_manager (_save_trades_batch Samples.quiet
                              (with_trade_buffer Samples.new_engine Samples.sheet))))
          = DatabaseManager.trades
              (DatabaseManager.db
                 (db_manager (with_trade_buffer Samples.new_engine Samples.sheet)))
          /\ trades_saved (stats (_save_trades_batch Samples.quiet
                                    (with_trade_buffer Samples.new_engine Samples.sheet)))
             = trades_saved (stats (with_trade_buffer Samples.new_engine Samples.sheet)))).
Proof.
  apply (flush_empties_buffer Samples.quiet
           (with_trade_buffer Samples.new_engine Samples.sheet)).
  reflexivity.
Defined.

End FlushProperties.

(** ** Properties of the provider *)

Module ProviderProperties.
Import Py Model ExcelDataProvider Notions FreshFacts.

(** X12. The trades that one call of [get_data] hands over have pairwise
    distinct hashes, and none of them has a hash that the provider held
    in [processed_trades] before the call. *)
Theorem get_data_hands_over_new_trades
    w self wdo_trades dol_trades wdo_book dol_book self' d :
  get_data w self wdo_trades dol_trades wdo_book dol_book = (self', Some d) ->
  NoDup (map _create_trade_hash (data_trades d))
  /\ forall tr, In tr (data_trades d) -> _create_trade_hash tr ∉ processed_trades self.
Proof.
  intros H. apply get_data_observed in H as (Hperm & _ & _).
  destruct (observe_fresh w self wdo_trades dol_trades) as [Hnd Hnew].
  split.
  - rewrite (Permutation_map _create_trade_hash Hperm). exact Hnd.
  - intros tr Hin. apply Hnew. eapply Permutation_in; [exact Hperm | exact Hin].
Qed.

Lemma get_data_hands_over_new_trades_witness :
  NoDup (map _create_trade_hash
           (data_trades (mk_data [Samples.row_b; Samples.row_a; Samples.row_c]
                                 (mk_book [] []))))
  /\ forall tr,
       In tr (data_trades (mk_data [Samples.row_b; Samples.row_a; Samples.row_c]
                                   (mk_book [] []))) ->
       _create_trade_hash tr ∉ processed_trades init.
Proof.
  eapply (get_data_hands_over_new_trades Samples.quiet init
            (Samples.sheet ++ Samples.sheet) [] (mk_book [] []) (mk_book [] [])).
  vm_compute. reflexivity.
Defined.

(** X13. The provider and the engine agree on what is new: when the
    engine knows no hash that the provider has not processed, it
    classifies every trade of a batch handed over by [get_data] as Unique
    (on a usable connection). *)
Theorem handed_over_batch_is_unique
    w self wdo_trades dol_trades wdo_book dol_book self' d w' engine :
  get_data w self wdo_trades dol_trades wdo_book dol_book = (self', Some d) ->
  DatabaseManager.conn_open (TapeReadingEngine.db_manager engine) = true ->
  (forall h, h ∈ TapeReadingEngine.saved_trade_hashes engine -> h ∈ processed_trades self) ->
  snd (fst (TapeReadingEngine._process_trades w' engine (data_trades d)))
  = map (fun tr => (tr, TapeReadingEngine.Unique)) (data_trades d).
Proof.
  intros H Hopen Hknown.
  pose proof (get_data_observed _ _ _ _ _ _ _ _ H) as (Hperm & _ & Hne).
  destruct (observe_fresh w self wdo_trades dol_trades) as [Hnd Hnew].
  destruct (DedupFacts.process_trades_classifies w' engine (data_trades d) Hopen Hne)
    as (engine' & -> & _ & _).
  cbn [fst snd]. apply classify_fresh.
  - change Spec.identity with _create_trade_hash.
    rewrite (Permutation_map _create_trade_hash Hperm). exact Hnd.
  - intros tr Hin Hseen. apply (Hnew tr).
    + eapply Permutation_in; [exact Hperm | exact Hin].
    + apply Hknown, Hseen.
Qed.

Lemma handed_over_batch_is_unique_witness :
  snd (fst (TapeReadingEngine._process_trades Samples.quiet Samples.new_engine
              (data_trades (mk_data [Samples.row_b; Samples.row_a; Samples.row_c]
                                    (mk_book [] [])))))
  = map (fun tr => (tr, TapeReadingEngine.Unique))
        (data_trades (mk_data [Samples.row_b; Samples.row_a; Samples.row_c]
                              (mk_book [] []))).
Proof.
  eapply (handed_over_batch_is_unique Samples.quiet init
            (Samples.sheet ++ Samples.sheet) [] (mk_book [] []) (mk_book [] [])).
  - vm_compute. reflexivity.
  - reflexivity.
  - intros h Hh. exfalso. revert Hh. apply not_elem_of_empty.
Defined.



(** X15. What the first call of [get_data] handed over, the second call
    does not hand over again: no trade of the second batch has the hash of
    a trade of the first. *)
Theorem second_call_repeats_nothing
    w self wdo1 dol1 wb1 db1 self1 d1 w' wdo2 dol2 wb2 db2 self2 d2 :
  first_run self = true ->
  get_data w self wdo1 dol1 wb1 db1 = (self1, Some d1) ->
  get_data w' self1 wdo2 dol2 wb2 db2 = (self2, Some d2) ->
  forall tr1 tr2,
    In tr1 (data_trades d1) -> In tr2 (data_trades d2) ->
    _create_trade_hash tr1 <> _create_trade_hash tr2.
Proof.
  intros Hfirst H1 H2 tr1 tr2 Hin1 Hin2 Heq.
  apply get_data_observed in H1 as (Hperm1 & Hp1 & _).
  apply get_data_observed in H2 as (Hperm2 & _ & _).
  destruct (observe_fresh w' self1 wdo2 dol2) as [_ Hnew].
  apply (Hnew tr2); [eapply Permutation_in; [exact Hperm2 | exact Hin2]|].
  rewrite <- Heq, Hp1. apply observe_first_run; [exact Hfirst|].
  eapply Permutation_in; [exact Hperm1 | exact Hin1].
Qed.

Lemma second_call_repeats_nothing_witness :
  _create_trade_hash Samples.row_a <> _create_trade_hash Samples.row_c.
Proof.
  apply (second_call_repeats_nothing Samples.quiet init
           [Samples.row_a; Samples.row_b] [] (mk_book [] []) (mk_book [] [])
           (fst (get_data Samples.quiet init [Samples.row_a; Samples.row_b] []
                   (mk_book [] []) (mk_book [] [])))
           (mk_data [Samples.row_b; Samples.row_a] (mk_book [] []))
           Samples.quiet [Samples.row_a; Samples.row_b; Samples.row_c] []
           (mk_book [] []) (mk_book [] [])
           (fst (get_data Samples.quiet
                   (fst (get_data Samples.quiet init [Samples.row_a; Samples.row_b] []
                           (mk_book [] []) (mk_book [] [])))
                   [Samples.row_a; Samples.row_b; Samples.row_c] []
                   (mk_book [] []) (mk_book [] [])))
           (mk_data [Samples.row_c] (mk_book [] []))).
  - reflexivity.
  - vm_compute. reflexivity.
  - vm_compute. reflexivity.
  - right. left. reflexivity.
  - left. reflexivity.
Defined.

End ProviderProperties.

(** ** Properties of the exhaustion detector *)

From Stdlib Require Import Lqa.

Module ExhaustionProperties.
Import Py Model ExhaustionDetector Notions ExhaustionFacts.

(** X16. [_create_bars] with a number of bars other than 0 returns bars
    that cut the tape: together they count every trade once and carry the
    whole volume, each holds at least one trade, its open and close lie
    between its low and its high, and when between 1 and [len(trades)]
    bars are asked for, at least that many are made. *)
Theorem create_bars_cover_trades (trades : list Trade) (num_bars : Z) :
  num_bars <> 0 ->
  exists bars,
    _create_bars trades num_bars = Ok bars
    /\ Zsum (map bar_trades bars) = Z.of_nat (List.length trades)
    /\ Zsum (map bar_volume bars) = Zsum (map volume trades)
    /\ Forall well_formed bars
    /\ (1 <= num_bars <= Z.of_nat (List.length trades) ->
        num_bars <= Z.of_nat (List.length bars)).
Proof.
  intros Hn. destruct (create_bars_spec trades num_bars Hn) as (cs & Hbars & Hc & Hne & Hcount).
  exists (omap bar_of cs). split; [exact Hbars|].
  pose proof (omap_bar_of cs Hne) as Hall.
  destruct (bars_sums cs _ Hall) as (Ht & Hv & Hw & _). rewrite Hc in Ht, Hv.
  split; [exact Ht | split; [exact Hv | split; [exact Hw|]]].
  intros [H1 H2]. rewrite <- (Forall2_length _ _ _ Hall).
  pose proof (Z.mul_div_le (Z.of_nat (List.length trades)) num_bars ltac:(lia)) as Hq.
  assert (Hq1 : 1 <= Z.of_nat (List.length trades) / num_bars)
    by (apply Z.div_le_lower_bound; lia).
  rewrite Z.max_r in Hcount by lia. nia.
Qed.

Lemma create_bars_cover_trades_witness :
  exists bars,
    _create_bars Tapes.fading 5 = Ok bars
    /\ Zsum (map bar_trades bars) = Z.of_nat (List.length Tapes.fading)
    /\ Zsum (map bar_volume bars) = Zsum (map volume Tapes.fading)
    /\ Forall well_formed bars
    /\ (1 <= 5 <= Z.of_nat (List.length Tapes.fading) ->
        5 <= Z.of_nat (List.length bars)).
Proof. apply (create_bars_cover_trades Tapes.fading 5). discriminate. Defined.

(** X17. What [detect] reports, with at least one confirmation bar asked
    for: an EXHAUSTION behaviour for the symbol and the instant given,
    whose two scores lie in (0, 1], whose confidence is their mean, hence
    in (0, 1] too, and which analysed at least [confirmation_bars + 2]
    bars. *)
Theorem exhaustion_report (self : t) (now : datetime) (trades : list Trade) (sym : string)
    (b : Behavior) :
  1 <= confirmation_bars self ->
  detect self now trades sym = Ok (Some b) ->
  b_type b = EXHAUSTION /\ b_symbol b = sym /\ b_timestamp b = now
  /\ (0 < b_confidence b)%Q /\ (b_confidence b <= 1)%Q
  /\ exists m v n d,
       b_metadata b = ExhaustionMeta m v n d
       /\ (0 < m)%Q /\ (m <= 1)%Q /\ (0 < v)%Q /\ (v <= 1)%Q
       /\ (b_confidence b == (m + v) / 2)%Q
       /\ confirmation_bars self + 2 <= n.
Proof.
  intros Hcb. unfold detect.
  destruct (Z.ltb_spec (Z.of_nat (List.length trades)) (confirmation_bars self * 10))
    as [|Hlen]; [discriminate|].
  destruct (create_bars_count trades (confirmation_bars self + 2) ltac:(lia))
    as (bars & -> & Hcount).
  cbn [bind]. destruct (_ <? confirmation_bars self); [discriminate|].
  destruct (check_momentum_bounds self bars) as [Hm0 Hm1].
  destruct (check_volume_bounds self bars) as [Hv0 Hv1].
  destruct (Qneb (_check_momentum_decline self bars) 0) eqn:Hm; [|discriminate].
  destruct (Qneb (_check_volume_decline self bars) 0) eqn:Hv; [|discriminate].
  cbn [andb]. intros H. injection H as <-.
  cbn [b_type b_symbol b_timestamp b_confidence b_metadata].
  apply Qneb_pos in Hm; [|exact Hm0]. apply Qneb_pos in Hv; [|exact Hv0].
  split; [reflexivity|]. split; [reflexivity|]. split; [reflexivity|].
  split; [apply Qlt_shift_div_l; [reflexivity | lra]|].
  split; [apply Qle_shift_div_r; [reflexivity | lra]|].
  eexists _, _, _, _. split; [reflexivity|].
  repeat (split; [assumption|]). split; [reflexivity|].
  apply Hcount. lia.
Qed.

Lemma exhaustion_report_witness :
  b_type (mk_behavior EXHAUSTION "DOLFUT" Samples.noon (24 # 24)
            (ExhaustionMeta (3 # 3) (4 # 4) 5 "BULLISH")) = EXHAUSTION
  /\ b_symbol (mk_behavior EXHAUSTION "DOLFUT" Samples.noon (24 # 24)
                 (ExhaustionMeta (3 # 3) (4 # 4) 5 "BULLISH")) = "DOLFUT"
  /\ b_timestamp (mk_behavior EXHAUSTION "DOLFUT" Samples.noon (24 # 24)
                    (ExhaustionMeta (3 # 3) (4 # 4) 5 "BULLISH")) = Samples.noon
  /\ (0 < b_confidence (mk_behavior EXHAUSTION "DOLFUT" Samples.noon (24 # 24)
                          (ExhaustionMeta (3 # 3) (4 # 4) 5 "BULLISH")))%Q
  /\ (b_confidence (mk_behavior EXHAUSTION "DOLFUT" Samples.noon (24 # 24)
                      (ExhaustionMeta (3 # 3) (4 # 4) 5 "BULLISH")) <= 1)%Q
  /\ exists m v n d,
       b_metadata (mk_behavior EXHAUSTION "DOLFUT" Samples.noon (24 # 24)
                     (ExhaustionMeta (3 # 3) (4 # 4) 5 "BULLISH")) = ExhaustionMeta m v n d
       /\ (0 < m)%Q /\ (m <= 1)%Q /\ (0 < v)%Q /\ (v <= 1)%Q
       /\ (b_confidence (mk_behavior EXHAUSTION "DOLFUT" Samples.noon (24 # 24)
                           (ExhaustionMeta (3 # 3) (4 # 4) 5 "BULLISH")) == (m + v) / 2)%Q
       /\ confirmation_bars Tapes.exhaustion_detector + 2 <= n.
Proof.
  apply (exhaustion_report Tapes.exhaustion_detector Samples.noon Tapes.fading "DOLFUT").
  - vm_compute. discriminate.
  - vm_compute. reflexivity.
Defined.

(** X18. A flat tape is never reported as exhaustion: when all trades
    have the same price, [detect] returns [None], whatever the volumes and
    the configuration (the number of bars it asks for, which is
    [confirmation_bars + 2], not being 0). *)
Theorem flat_tape_is_not_exhaustion (self : t) (now : datetime) (trades : list Trade)
    (sym : string) (p : Q) :
  (forall tr, In tr trades -> (price tr == p)%Q) ->
  confirmation_bars self + 2 <> 0 ->
  detect self now trades sym = Ok None.
Proof.
  intros Hflat Hnz. unfold detect.
  destruct (_ <? _ * 10); [reflexivity|].
  destruct (create_bars_spec trades _ Hnz) as (cs & -> & Hc & Hne & _).
  cbn [bind]. destruct (_ <? confirmation_bars self); [reflexivity|].
  pose proof (omap_bar_of cs Hne) as Hall.
  destruct (bars_sums cs _ Hall) as (_ & _ & _ & Hclose). rewrite Hc in Hclose.
  assert (Hm : Qneb (_check_momentum_decline self (omap bar_of cs)) 0 = false).
  { unfold _check_momentum_decline. destruct (_ <? 2); [reflexivity|].
    apply decline_score_zero, declines_zero, (changes_flat p).
    apply List.Forall_forall. intros c Hin. apply in_map_iff in Hin as (bar & <- & Hbar).
    specialize (Hclose bar Hbar). apply in_map_iff in Hclose as (tr & <- & Htr).
    now apply Hflat. }
  rewrite Hm. reflexivity.
Qed.

Lemma flat_tape_is_not_exhaustion_witness :
  detect Tapes.exhaustion_detector Samples.noon Tapes.flat "DOLFUT" = Ok None.
Proof.
  apply (flat_tape_is_not_exhaustion _ _ _ _ 5000).
  - intros tr H. vm_compute in H.
    repeat (destruct H as [<-|H]; [reflexivity|]). destruct H.
  - discriminate.
Defined.

End ExhaustionProperties.

(** ** Properties of a run of the engine *)

Module EngineProperties.
Import Py Model TapeReadingEngine Spec Notions AccountFacts NoFaultFacts.

(** X19. The counters account for the buffer at every turn of the loop and
    after [start] has ended, whatever the polls, the faults of storage and
    the state of the connection: [trades_saved] plus the number of
    buffered trades never exceeds [trades_processed]; so no trade is
    counted as saved that was not processed. *)
Theorem counters_account_for_buffer w interval snapshots validation dbm polls :
  accounted (fst (cycles w (_load_recent_trade_hashes
                              (init interval snapshots validation dbm)) polls))
  /\ accounted (fst (start w (init interval snapshots validation dbm) polls)).
Proof.
  assert (H0 : accounted (_load_recent_trade_hashes (init interval snapshots validation dbm))).
  { unfold _load_recent_trade_hashes. destruct (DatabaseManager.connection _);
      unfold accounted; cbn; lia. }
  pose proof (cycles_accounted w polls _ H0) as H1.
  split; [exact H1|]. unfold start.
  destruct (cycles w _ polls) as [self1 log]. cbn [fst] in *.
  now apply flush_accounted.
Qed.

(** X20. A run that meets no fault loses nothing: when storage never
    fails and the table accepts every submitted trade, [start] on a usable
    connection ends with an empty buffer, and the rows it has appended to
    the table of trades are those of the trades it classified Unique, one
    row each, in the order of the log. *)
Theorem no_fault_run_stores_uniques w interval snapshots validation stored polls :
  (forall n, io_fault w n = NoFault) ->
  (forall tr, In tr (submissions polls) -> storable tr) ->
  trade_buffer (fst (start w (init interval snapshots validation
                                (DatabaseManager.initialize stored)) polls)) = []
  /\ exists rows,
       Forall2 (fun tr row => DatabaseManager.trade_row tr = Ok row)
               (uniques (snd (start w (init interval snapshots validation
                                         (DatabaseManager.initialize stored)) polls)))
               rows
       /\ DatabaseManager.trades
            (DatabaseManager.db
               (db_manager (fst (start w (init interval snapshots validation
                                            (DatabaseManager.initialize stored)) polls))))
          = (DatabaseManager.trades stored ++ rows)%list.
Proof.
  intros Hw Hst. unfold start.
  set (e0 := _load_recent_trade_hashes
               (init interval snapshots validation (DatabaseManager.initialize stored))).
  assert (H0 : stores_uniques (DatabaseManager.trades stored) e0 []).
  { subst e0. unfold _load_recent_trade_hashes, init. cbn.
    split; [reflexivity | split; [constructor|]].
    exists [], []. cbn. rewrite app_nil_r. repeat split. constructor. }
  pose proof (cycles_stores (DatabaseManager.trades stored) w polls Hw e0 []
                ltac:(now apply List.Forall_forall) H0) as H1.
  destruct (cycles w e0 polls) as [e1 log]. cbn [fst snd app] in *.
  destruct (flush_stores_uniques _ w e1 log Hw H1)
    as [(_ & _ & stored' & rows & Hlog & Hrows & Htbl) Hbuf].
  split; [exact Hbuf|]. exists rows. rewrite Hbuf, app_nil_r in Hlog. rewrite Hlog. auto.
Qed.

Lemma no_fault_run_stores_uniques_witness :
  trade_buffer (fst (start Samples.quiet
                       (init 10 true true (DatabaseManager.initialize
                                             DatabaseManager.empty_tables))
                       [Some (mk_data [Samples.row_a; Samples.row_b; Samples.row_a]
                                      (mk_book [] []));
                        Some (mk_data [Samples.row_c; Samples.row_b] (mk_book [] []))])) = []
  /\ exists rows,
       Forall2 (fun tr row => DatabaseManager.trade_row tr = Ok row)
               (uniques
                  (snd (start Samples.quiet
                          (init 10 true true (DatabaseManager.initialize
                                                DatabaseManager.empty_tables))
                          [Some (mk_data [Samples.row_a; Samples.row_b; Samples.row_a]
                                         (mk_book [] []));
                           Some (mk_data [Samples.row_c; Samples.row_b] (mk_book [] []))])))
               rows
       /\ DatabaseManager.trades
            (DatabaseManager.db
               (db_manager
                  (fst (start Samples.quiet
                          (init 10 true true (DatabaseManager.initialize
                                                DatabaseManager.empty_tables))
                          [Some (mk_data [Samples.row_a; Samples.row_b; Samples.row_a]
                                         (mk_book [] []));
                           Some (mk_data [Samples.row_c; Samples.row_b] (mk_book [] []))]))))
          = (DatabaseManager.trades DatabaseManager.empty_tables ++ rows)%list.
Proof.
  apply (no_fault_run_stores_uniques Samples.quiet 10 true true DatabaseManager.empty_tables).
  - reflexivity.
  - intros tr H. cbn in H.
    repeat (destruct H as [<-|H]; [eexists; reflexivity|]). destruct H.
Defined.

End EngineProperties.

(** ** Properties of the behaviour manager *)

Module ManagerProperties.
Import Py Model BehaviorManager.

Lemma found_length (b : option Behavior) : (List.length (found b) <= 1)%nat.
Proof. destruct b; cbn; lia. Qed.

Lemma detect_for_symbol_spec w self trades sym self' bs :
  _detect_for_symbol w self trades sym = (self', Ok bs) ->
  (List.length bs <= 2)%nat /\ active_behaviors self' = active_behaviors self.
Proof.
  unfold _detect_for_symbol.
  destruct (match absorption_detector self with Some _ => _ | None => _ end)
    as [n1 [absorption|e]]; [|discriminate].
  destruct (match exhaustion_detector self with Some _ => _ | None => _ end)
    as [n2 [exhaustion|e]]; [|discriminate].
  intros H. injection H as <- <-. rewrite length_app.
  pose proof (found_length absorption). pose proof (found_length exhaustion).
  split; [lia | reflexivity].
Qed.

Lemma keep_last_suffix {A} (k : nat) (old new : list A) (x : A) :
  (List.length new <= k)%nat -> In x new -> In x (keep_last k (old ++ new)).
Proof.
  intros Hlen Hin. unfold keep_last. rewrite skipn_app, length_app.
  apply in_or_app. right.
  replace (List.length old + List.length new - k - List.length old)%nat with 0%nat by lia.
  exact Hin.
Qed.

Lemma update_active_spec w self new_behaviors :
  (List.length new_behaviors <= 50)%nat ->
  (List.length (active_behaviors (_update_active_behaviors w self new_behaviors)) <= 50)%nat
  /\ forall b, In b new_behaviors ->
               In b (active_behaviors (_update_active_behaviors w self new_behaviors)).
Proof.
  intros Hlen. unfold _update_active_behaviors.
  cbn [with_active_behaviors with_clock_reads active_behaviors].
  set (kept := List.filter _ (active_behaviors self)).
  destruct (Z.ltb_spec 50 (Z.of_nat (List.length (kept ++ new_behaviors)))) as [Hgt|Hle].
  - split.
    + unfold keep_last. rewrite length_skipn. lia.
    + intros b Hb. now apply keep_last_suffix.
  - split; [lia|]. intros b Hb. apply in_or_app. now right.
Qed.

(** X21. A call of [detect] that returns reports at most four behaviours
    (an absorption and an exhaustion for each of the two symbols), all of
    which are among the active behaviours afterwards, and the list of
    active behaviours, if it held at most 50 entries, still does. *)
Theorem detected_behaviours_are_active w self data self' bs :
  detect w self data = (self', Ok bs) ->
  (List.length bs <= 4)%nat
  /\ (forall b, In b bs -> In b (active_behaviors self'))
  /\ ((List.length (active_behaviors self) <= 50)%nat ->
      (List.length (active_behaviors self') <= 50)%nat).
Proof.
  unfold detect. destruct data as [d|].
  2:{ intros H. injection H as <- <-. cbn. split; [lia | split; [intros b [] | auto]]. }
  destruct (data_trades d) as [|tr0 rest] eqn:Hd.
  { intros H. injection H as <- <-. cbn. split; [lia | split; [intros b [] | auto]]. }
  set (trades := tr0 :: rest).
  assert (H1 : forall l (s : t),
             let r := match l with [] => (s, Ok []) | _ :: _ => _detect_for_symbol w s l "WDOFUT" end in
             forall s' bs', r = (s', Ok bs') ->
               (List.length bs' <= 2)%nat /\ active_behaviors s' = active_behaviors s).
  { intros l s r s' bs' Hr. subst r. destruct l as [|x l].
    - injection Hr as <- <-. cbn. split; [lia | reflexivity].
    - now apply detect_for_symbol_spec in Hr. }
  assert (H2 : forall l (s : t),
             let r := match l with [] => (s, Ok []) | _ :: _ => _detect_for_symbol w s l "DOLFUT" end in
             forall s' bs', r = (s', Ok bs') ->
               (List.length bs' <= 2)%nat /\ active_behaviors s' = active_behaviors s).
  { intros l s r s' bs' Hr. subst r. destruct l as [|x l].
    - injection Hr as <- <-. cbn. split; [lia | reflexivity].
    - now apply detect_for_symbol_spec in Hr. }
  specialize (H1 (List.filter (fun t => String.eqb (symbol t) "WDOFUT") trades) self).
  cbv zeta in H1.
  destruct (match List.filter (fun t => String.eqb (symbol t) "WDOFUT") trades with
            | [] => _ | _ :: _ => _ end) as [self1 [wdo|e]]; [|discriminate].
  destruct (H1 self1 wdo eq_refl) as [Hw Ha1].
  specialize (H2 (List.filter (fun t => String.eqb (symbol t) "DOLFUT") trades) self1).
  cbv zeta in H2.
  destruct (match List.filter (fun t => String.eqb (symbol t) "DOLFUT") trades with
            | [] => _ | _ :: _ => _ end) as [self2 [dol|e]]; [|discriminate].
  destruct (H2 self2 dol eq_refl) as [Hdl Ha2].
  intros H. injection H as <- <-.
  assert (Hlen : (List.length (wdo ++ dol) <= 4)%nat) by (rewrite length_app; lia).
  destruct (update_active_spec w self2 (wdo ++ dol) ltac:(lia)) as [Hcap Hin].
  split; [exact Hlen | split; [exact Hin | intros _; exact Hcap]].
Qed.

Lemma detected_behaviours_are_active_witness :
  (List.length
     [mk_behavior EXHAUSTION "DOLFUT" Samples.noon (24 # 24)
        (ExhaustionMeta (3 # 3) (4 # 4) 5 "BULLISH")] <= 4)%nat
  /\ (forall b,
        In b [mk_behavior EXHAUSTION "DOLFUT" Samples.noon (24 # 24)
                (ExhaustionMeta (3 # 3) (4 # 4) 5 "BULLISH")] ->
        In b (active_behaviors
                (mk_manager (Some Samples.detector) (Some Tapes.exhaustion_detector)
                   [mk_behavior EXHAUSTION "DOLFUT" Samples.noon (24 # 24)
                      (ExhaustionMeta (3 # 3) (4 # 4) 5 "BULLISH")] 3)))
  /\ ((List.length (active_behaviors
                      (mk_manager (Some Samples.detector) (Some Tapes.exhaustion_detector)
                         [] 0)) <= 50)%nat ->
      (List.length
         (active_behaviors
            (mk_manager (Some Samples.detector) (Some Tapes.exhaustion_detector)
               [mk_behavior EXHAUSTION "DOLFUT" Samples.noon (24 # 24)
                  (ExhaustionMeta (3 # 3) (4 # 4) 5 "BULLISH")] 3)) <= 50)%nat).
Proof.
  apply (detected_behaviours_are_active Samples.quiet
           (mk_manager (Some Samples.detector) (Some Tapes.exhaustion_detector) [] 0)
           (Some (mk_data Tapes.fading (mk_book [] [])))).
  vm_compute. reflexivity.
Defined.

End ManagerProperties.

(** ** Properties of the analysis of the market and of its signals *)

From Stdlib Require Import Lqa.

Module SystemProperties.
Import Py Model Notions MarketAnalyzer SystemFacts MarketFacts.

(** The exhaustion-only case of [generate_signals]. *)
Lemma signals_of_safe_drafts active now a :
  (forall b d, In b (TapeReadingSystem.behaviors a) ->
               TapeReadingSystem.draft_signal a b = Some d -> safe_draft d) ->
  exists signals,
    TapeReadingSystem.generate_signals active now (Some a)
    = ((active ++ signals)%list, Ok signals)
    /\ Forall (fun s => (2 <= risk s)%Q /\ from_exhaustion s) signals.
Proof.
  intros Hsafe. unfold TapeReadingSystem.generate_signals.
  destruct (signal_loop_safe now a (TapeReadingSystem.behaviors a) Hsafe [] active)
    as (new & -> & Hnew).
  exists new. cbn [app]. auto.
Qed.

(** X22. On the trades of the sheet, whose timestamps are text, signal
    generation cannot fail: an analysis that [analyze_market] returns for
    such trades holds no absorption, and [generate_signals] returns on it,
    adding to the active signals the signals it returns, each drawn from
    an exhaustion with a stop at least two points from its entry. *)
Theorem sheet_signals_never_fail w self trades sym self' m :
  (forall tr, In tr trades -> Spec.has_datetime tr = false) ->
  analyze_market w self trades sym = (self', Ok (Some m)) ->
  Forall (fun b => b_type b = EXHAUSTION) (behaviors m)
  /\ exists p,
       price m = Some p
       /\ forall active now,
            exists signals,
              TapeReadingSystem.generate_signals active now (Some (read_by_signals m p))
              = ((active ++ signals)%list, Ok signals)
              /\ Forall (fun s => (2 <= risk s)%Q /\ from_exhaustion s) signals.
Proof.
  intros Htext H.
  apply analyze_market_spec in H
    as (now1 & now2 & now3 & now4 & now5 & va & pa & fa & absorption & exhaustion
        & _ & Hp & _ & Ha & He & Hb & _ & _ & _ & Hne & _).
  rewrite (absorption_needs_datetime _ now4 trades sym Htext) in Ha. injection Ha as <-.
  cbn [listed app] in Hb.
  assert (Hall : Forall (fun b => b_type b = EXHAUSTION) (behaviors m)).
  { rewrite Hb. destruct exhaustion as [b|]; cbn [listed]; [|constructor].
    constructor; [|constructor]. now apply exhaustion_type in He. }
  split; [exact Hall|].
  destruct (price_analysis_some _ _ _ _ _ Hne Hp) as [p Hpm]. exists p. split; [exact Hpm|].
  rewrite Hpm in Hp. apply price_analysis_within in Hp.
  intros active now. apply signals_of_safe_drafts.
  intros b d Hin Hd. cbn [read_by_signals TapeReadingSystem.behaviors] in Hin.
  rewrite List.Forall_forall in Hall.
  apply (draft_of_exhaustion (read_by_signals m p) b d); [exact Hp | now apply Hall | exact Hd].
Qed.

Lemma sheet_signals_never_fail_witness :
  Forall (fun b => b_type b = EXHAUSTION) (behaviors Tapes.sheet_analysis)
  /\ exists p,
       price Tapes.sheet_analysis = Some p
       /\ forall active now,
            exists signals,
              TapeReadingSystem.generate_signals active now
                (Some (read_by_signals Tapes.sheet_analysis p))
              = ((active ++ signals)%list, Ok signals)
              /\ Forall (fun s => (2 <= risk s)%Q /\ from_exhaustion s) signals.
Proof.
  apply (sheet_signals_never_fail Samples.quiet init Tapes.sheet_fading "WDOFUT"
           (fst (analyze_market Samples.quiet init Tapes.sheet_fading "WDOFUT"))).
  - intros tr H. vm_compute in H.
    repeat (destruct H as [<-|H]; [reflexivity|]). destruct H.
  - vm_compute. reflexivity.
Defined.

(** X23. A system that has recorded fewer than four flow analyses draws
    no signal from an absorption: the flow bias is still NEUTRAL, and
    [generate_signals] returns on the analysis that [analyze_market]
    returned, every signal being drawn from an exhaustion with a stop at
    least two points from its entry. *)
Theorem no_absorption_signal_during_warm_up w self trades sym self' m :
  (List.length (OrderFlowAnalyzer.flow_history (flow_analyzer self)) < 4)%nat ->
  analyze_market w self trades sym = (self', Ok (Some m)) ->
  exists p,
    price m = Some p
    /\ forall active now,
         exists signals,
           TapeReadingSystem.generate_signals active now (Some (read_by_signals m p))
           = ((active ++ signals)%list, Ok signals)
           /\ Forall (fun s => (2 <= risk s)%Q /\ from_exhaustion s) signals.
Proof.
  intros Hwarm H.
  apply analyze_market_spec in H
    as (now1 & now2 & now3 & now4 & now5 & va & pa & fa & absorption & exhaustion
        & _ & Hp & Hf & Ha & He & Hb & _ & _ & _ & Hne & _).
  destruct (price_analysis_some _ _ _ _ _ Hne Hp) as [p Hpm]. exists p. split; [exact Hpm|].
  rewrite Hpm in Hp. apply price_analysis_within in Hp.
  assert (Hbias : TapeReadingSystem.flow_bias (read_by_signals m p) = None
                  \/ TapeReadingSystem.flow_bias (read_by_signals m p) = Some "NEUTRAL").
  { cbn [read_by_signals TapeReadingSystem.flow_bias].
    destruct (flow m) as [f|] eqn:Hfm; [|now left].
    right. cbn [option_map]. f_equal. exact (flow_bias_warm_up _ _ _ _ _ Hf Hwarm). }
  intros active now. apply signals_of_safe_drafts.
  intros b d Hin Hd. cbn [read_by_signals TapeReadingSystem.behaviors] in Hin.
  rewrite Hb in Hin. apply in_app_or in Hin as [Hin|Hin].
  - destruct absorption as [ba|]; [|destruct Hin]. destruct Hin as [<-|[]].
    apply absorption_type in Ha.
    rewrite (draft_of_absorption_neutral _ _ Ha Hbias) in Hd. discriminate.
  - destruct exhaustion as [be|]; [|destruct Hin]. destruct Hin as [<-|[]].
    apply exhaustion_type in He.
    apply (draft_of_exhaustion (read_by_signals m p) be d); [exact Hp | exact He | exact Hd].
Qed.

Lemma no_absorption_signal_during_warm_up_witness :
  exists p,
    price Tapes.dated_analysis = Some p
    /\ forall active now,
         exists signals,
           TapeReadingSystem.generate_signals active now
             (Some (read_by_signals Tapes.dated_analysis p))
           = ((active ++ signals)%list, Ok signals)
           /\ Forall (fun s => (2 <= risk s)%Q /\ from_exhaustion s) signals.
Proof.
  apply (no_absorption_signal_during_warm_up Samples.quiet init Tapes.fading "DOLFUT"
           (fst (analyze_market Samples.quiet init Tapes.fading "DOLFUT"))).
  - vm_compute. lia.
  - vm_compute. reflexivity.
Defined.

(** X24. Whatever calls of [analyze_market] a new system has served,
    and however they ended, its three histories hold at most 100 entries
    each and its alerts at most 20. *)
Theorem histories_stay_bounded w calls : bounded (after_calls w calls).
Proof.
  unfold after_calls. induction calls as [|c calls IH] using rev_ind.
  - unfold bounded. cbn. lia.
  - rewrite fold_left_app. cbn [fold_left]. now apply analyze_market_bounded.
Qed.

(** X25. A price analysis that [PriceActionAnalyzer.analyze] returns has
    its current price between its low and its high, and a range that is
    the high less the low, hence not negative. *)
Theorem price_analysis_in_range self now trades self' a :
  PriceActionAnalyzer.analyze self now trades = (self', Ok (Some a)) ->
  (TapeReadingSystem.low (PriceActionAnalyzer.info a)
   <= TapeReadingSystem.current_price (PriceActionAnalyzer.info a))%Q
  /\ (TapeReadingSystem.current_price (PriceActionAnalyzer.info a)
      <= TapeReadingSystem.high (PriceActionAnalyzer.info a))%Q
  /\ TapeReadingSystem.range (PriceActionAnalyzer.info a)
     = (TapeReadingSystem.high (PriceActionAnalyzer.info a)
        - TapeReadingSystem.low (PriceActionAnalyzer.info a))%Q
  /\ (0 <= TapeReadingSystem.range (PriceActionAnalyzer.info a))%Q.
Proof.
  intros H. pose proof (price_analysis_within _ _ _ _ _ H) as [Hlo Hhi].
  assert (Hr : TapeReadingSystem.range (PriceActionAnalyzer.info a)
               = (TapeReadingSystem.high (PriceActionAnalyzer.info a)
                  - TapeReadingSystem.low (PriceActionAnalyzer.info a))%Q).
  { unfold PriceActionAnalyzer.analyze in H.
    destruct (map Model.price trades) as [|first rest]; [discriminate|].
    cbn [Qmax_list Qmin_list] in H. injection H as _ H.
    destruct (PriceActionAnalyzer._calculate_trend _) as [trend|e]; [|discriminate].
    destruct (PriceActionAnalyzer._calculate_volatility _) as [vol|e]; [|discriminate].
    cbn [bind] in H. injection H as <-. reflexivity. }
  split; [exact Hlo | split; [exact Hhi | split; [exact Hr|]]].
  rewrite Hr. lra.
Qed.

Lemma price_analysis_in_range_witness :
  (TapeReadingSystem.low (PriceActionAnalyzer.info Tapes.fading_prices)
   <= TapeReadingSystem.current_price (PriceActionAnalyzer.info Tapes.fading_prices))%Q
  /\ (TapeReadingSystem.current_price (PriceActionAnalyzer.info Tapes.fading_prices)
      <= TapeReadingSystem.high (PriceActionAnalyzer.info Tapes.fading_prices))%Q
  /\ TapeReadingSystem.range (PriceActionAnalyzer.info Tapes.fading_prices)
     = (TapeReadingSystem.high (PriceActionAnalyzer.info Tapes.fading_prices)
        - TapeReadingSystem.low (PriceActionAnalyzer.info Tapes.fading_prices))%Q
  /\ (0 <= TapeReadingSystem.range (PriceActionAnalyzer.info Tapes.fading_prices))%Q.
Proof.
  apply (price_analysis_in_range (PriceActionAnalyzer.mk_analyzer []) Samples.noon
           Tapes.fading
           (fst (PriceActionAnalyzer.analyze (PriceActionAnalyzer.mk_analyzer [])
                   Samples.noon Tapes.fading))).
  vm_compute. reflexivity.
Defined.

End SystemProperties.

(** ** Properties of the absorption detector *)

From Stdlib Require Import Lqa.

Module AbsorptionProperties.
Import Py Model AbsorptionDetector.




End AbsorptionProperties.

(** ** Properties of a closed connection *)

Module ClosedProperties.
Import Py Model DatabaseManager DatabaseFacts.

Lemma closed_attempt {A} (self : t) (attempt : Result (Tables * A)) (fb : A) :
  conn_open self = false ->
  (forall x, attempt <> Ok x) ->
  commit_or_rollback self attempt fb = (self, Raise ProgrammingError).
Proof.
  intros Hclosed Hfail. unfold commit_or_rollback, connection. rewrite Hclosed.
  destruct attempt as [[tb a]|e]; [|reflexivity]. now destruct (Hfail (tb, a)).
Qed.

Lemma closed_save_trades w self batch :
  conn_open self = false ->
  batch <> [] ->
  save_trades w self batch = (tick self, Raise ProgrammingError).
Proof.
  intros Hclosed Hne.
  assert (Hc : conn_open (tick self) = false) by exact Hclosed.
  unfold save_trades. destruct batch as [|tr0 rest]; [congruence|].
  apply closed_attempt; [exact Hc|]. intros x. unfold connection. rewrite Hc. discriminate.
Qed.

(** X27. Once the connection is closed every call that writes raises
    [ProgrammingError] and leaves the tables as they were: [save_trades]
    and [update_market_stats] on a batch that is not empty,
    [save_book_snapshot] and [update_price_levels]. *)
Theorem closed_connection_refuses_writes w self :
  conn_open self = false ->
  (forall batch, batch <> [] ->
     save_trades w self batch = (tick self, Raise ProgrammingError))
  /\ (forall batch, batch <> [] ->
        update_market_stats w self batch = (tick self, Raise ProgrammingError))
  /\ (forall sym book,
        save_book_snapshot w self sym book = (tick self, Raise ProgrammingError))
  /\ (forall sym p vol level_type,
        update_price_levels w self sym p vol level_type
        = (tick self, Raise ProgrammingError)).
Proof.
  intros Hclosed.
  assert (Hc : conn_open (tick self) = false) by exact Hclosed.
  split; [|split; [|split]].
  - intros batch Hne. now apply closed_save_trades.
  - intros batch Hne. unfold update_market_stats. destruct batch as [|tr0 rest]; [congruence|].
    apply closed_attempt; [exact Hc|]. intros x.
    destruct (group_trades _ _ _) as [groups|e]; [|discriminate]. cbn [bind].
    destruct (write_stats _ _ _ _ _) as [tbl|e]; [|discriminate]. cbn [bind].
    unfold connection. rewrite Hc. discriminate.
  - intros sym book. unfold save_book_snapshot.
    apply closed_attempt; [exact Hc|]. intros x. unfold connection. rewrite Hc. discriminate.
  - intros sym p vol level_type. unfold update_price_levels.
    apply closed_attempt; [exact Hc|]. intros x.
    destruct level_type as [[|c s]|]; cbn [bind fst snd];
      unfold _detect_level_type, connection; rewrite Hc; discriminate.
Qed.

Lemma closed_connection_refuses_writes_witness :
  (forall batch, batch <> [] ->
     save_trades Samples.quiet (close (initialize empty_tables)) batch
     = (tick (close (initialize empty_tables)), Raise ProgrammingError))
  /\ (forall batch, batch <> [] ->
        update_market_stats Samples.quiet (close (initialize empty_tables)) batch
        = (tick (close (initialize empty_tables)), Raise ProgrammingError))
  /\ (forall sym book,
        save_book_snapshot Samples.quiet (close (initialize empty_tables)) sym book
        = (tick (close (initialize empty_tables)), Raise ProgrammingError))
  /\ (forall sym p vol level_type,
        update_price_levels Samples.quiet (close (initialize empty_tables)) sym p vol
          level_type
        = (tick (close (initialize empty_tables)), Raise ProgrammingError)).
Proof.
  apply (closed_connection_refuses_writes Samples.quiet (close (initialize empty_tables))).
  reflexivity.
Defined.

(** X28. On a closed connection a flush keeps what it could not store:
    [_save_trades_batch] leaves the buffer and the counters as they
    were. *)
Theorem closed_flush_keeps_buffer w (self : TapeReadingEngine.t) :
  conn_open (TapeReadingEngine.db_manager self) = false ->
  TapeReadingEngine.trade_buffer (TapeReadingEngine._save_trades_batch w self)
  = TapeReadingEngine.trade_buffer self
  /\ TapeReadingEngine.stats (TapeReadingEngine._save_trades_batch w self)
     = TapeReadingEngine.stats self
  /\ db (TapeReadingEngine.db_manager (TapeReadingEngine._save_trades_batch w self))
     = db (TapeReadingEngine.db_manager self).
Proof.
  intros Hclosed. unfold TapeReadingEngine._save_trades_batch.
  destruct (TapeReadingEngine.trade_buffer self) as [|tr0 rest] eqn:Hbuf; [auto|].
  rewrite (closed_save_trades w _ (tr0 :: rest) Hclosed) by discriminate.
  cbn [TapeReadingEngine.with_db_manager TapeReadingEngine.trade_buffer
       TapeReadingEngine.stats TapeReadingEngine.db_manager tick db].
  auto.
Qed.

Lemma closed_flush_keeps_buffer_witness :
  TapeReadingEngine.trade_buffer
    (TapeReadingEngine._save_trades_batch Samples.quiet
       (TapeReadingEngine.with_trade_buffer
          (TapeReadingEngine.init 10 true true (close (initialize empty_tables)))
          Samples.sheet))
  = TapeReadingEngine.trade_buffer
      (TapeReadingEngine.with_trade_buffer
          (TapeReadingEngine.init 10 true true (close (initialize empty_tables)))
          Samples.sheet)
  /\ TapeReadingEngine.stats
       (TapeReadingEngine._save_trades_batch Samples.quiet
          (TapeReadingEngine.with_trade_buffer
          (TapeReadingEngine.init 10 true true (close (initialize empty_tables)))
          Samples.sheet))
     = TapeReadingEngine.stats
         (TapeReadingEngine.with_trade_buffer
          (TapeReadingEngine.init 10 true true (close (initialize empty_tables)))
          Samples.sheet)
  /\ db (TapeReadingEngine.db_manager
           (TapeReadingEngine._save_trades_batch Samples.quiet
              (TapeReadingEngine.with_trade_buffer
          (TapeReadingEngine.init 10 true true (close (initialize empty_tables)))
          Samples.sheet)))
     = db (TapeReadingEngine.db_manager
             (TapeReadingEngine.with_trade_buffer
          (TapeReadingEngine.init 10 true true (close (initialize empty_tables)))
          Samples.sheet)).
Proof.
  apply (closed_flush_keeps_buffer Samples.quiet
           (TapeReadingEngine.with_trade_buffer
          (TapeReadingEngine.init 10 true true (close (initialize empty_tables)))
          Samples.sheet)).
  reflexivity.
Defined.

End ClosedProperties.

(** ** Properties of the levels query *)

Module QueryProperties.
Import Py Model DatabaseManager LevelsQuery Notions Spec PriceLevelFacts QueryFacts.

(** X29. After any calls on the database, [get_support_resistance_levels]
    on an open connection, when its statement does not fail, returns the
    three lists: each holds exactly the stored levels of the symbol with
    at least the strength asked for and its type (in lower case), the
    stronger first and, among equally strong ones, the larger volume
    first; every level returned has a strength between the one asked for
    and 10, which is its number of touches capped at 10. *)
Theorem levels_query_ranked_and_capped :
  forall (w : World) (ops : list Op) (sym : string) (min_strength : Z),
    let self := run w ops in
    conn_open self = true ->
    io_fault w (io_calls self) = NoFault ->
    exists levels,
      get_support_resistance_levels w self sym min_strength = (tick self, Ok levels)
      /\ entries_of "support" sym min_strength (price_levels (db self)) (support levels)
      /\ entries_of "resistance" sym min_strength (price_levels (db self)) (resistance levels)
      /\ entries_of "pivot" sym min_strength (price_levels (db self)) (pivot levels)
      /\ StronglySorted ranked (support levels)
      /\ StronglySorted ranked (resistance levels)
      /\ StronglySorted ranked (pivot levels)
      /\ (forall d, In d (support levels ++ resistance levels ++ pivot levels)%list ->
            min_strength <= ld_strength d <= 10
            /\ ld_strength d = Z.min (ld_touches d) 10).
Proof.
  intros w ops sym m self Hopen Hf.
  eexists. split; [now apply query_returns|]. cbn zeta. cbn [support resistance pivot].
  pose proof (order_by_rank_sorted (List.filter (selected sym m) (price_levels (db self))))
    as Hsorted.
  repeat split; try apply entries_of_query; try (now apply sorted_entries).
  - apply in_app_or in H as [H|H]; [|apply in_app_or in H as [H|H]];
      apply entries_of_query in H as (r & _ & _ & Hm & _ & ->); exact Hm.
  - assert (Hin : exists r, In r (price_levels (db self)) /\ d = level_data r).
    { apply in_app_or in H as [H|H]; [|apply in_app_or in H as [H|H]];
        apply entries_of_query in H as (r & Hr & _ & _ & _ & ->); eauto. }
    destruct Hin as (r & Hr & ->). pose proof (run_levels_ok w ops) as Hok.
    rewrite List.Forall_forall in Hok. specialize (Hok r Hr). unfold level_ok in Hok.
    cbn. lia.
  - assert (Hin : exists r, In r (price_levels (db self)) /\ d = level_data r).
    { apply in_app_or in H as [H|H]; [|apply in_app_or in H as [H|H]];
        apply entries_of_query in H as (r & Hr & _ & _ & _ & ->); eauto. }
    destruct Hin as (r & Hr & ->). pose proof (run_levels_ok w ops) as Hok.
    rewrite List.Forall_forall in Hok. exact (Hok r Hr).
Qed.

Lemma levels_query_ranked_and_capped_witness :
  exists levels,
    get_support_resistance_levels Samples.quiet (run Samples.quiet Tapes.level_calls) "DOLFUT" 3
    = (tick (run Samples.quiet Tapes.level_calls), Ok levels)
    /\ support levels = [mk_level_data 5000 4 4 100; mk_level_data 4990 3 3 45]
    /\ resistance levels = []
    /\ StronglySorted ranked (support levels)
    /\ (forall d, In d (support levels ++ resistance levels ++ pivot levels)%list ->
          3 <= ld_strength d <= 10 /\ ld_strength d = Z.min (ld_touches d) 10).
Proof.
  destruct (levels_query_ranked_and_capped Samples.quiet Tapes.level_calls "DOLFUT" 3
              eq_refl eq_refl)
    as (levels & Hq & _ & _ & _ & Hs & _ & _ & Hb).
  exists levels. split; [exact Hq|].
  assert (Hl : levels = mk_levels [mk_level_data 5000 4 4 100; mk_level_data 4990 3 3 45] [] []).
  { vm_compute in Hq. now injection Hq as <-. }
  split; [now rewrite Hl|]. split; [now rewrite Hl|]. split; [exact Hs | exact Hb].
Defined.

End QueryProperties.


